(** * weather-bot: the agent session loop

    A shallow embedding of the class [AgentClient] ([handleUserPrompt],
    [mapResponseToLinearActivityContent], [executeAction], [callOpenAI]),
    of [types.ts] ([Content], [ToolName], [isToolName],
    [UnreachableCaseError]), of the earlier [index.ts] ([runAgentMode],
    [handleWebhook], [fetch]), of the webhook of the [index.ts] that uses
    the client ([handleWebhook], [generateUserPrompt]), of the token
    store of [lib/oauth.ts] ([getOAuthToken], [setOAuthTokenData],
    [refreshAccessToken]), of the [fetch] of the later [index.ts], which
    answers before the run, and of the tools of [tools.ts]
    ([getCoordinates], [getWeather], [getTime]).

    Strings are JavaScript strings: finite sequences of UTF-16 code units.
    The language model and the Linear activity API are the environment,
    and so are, for the client, the two tools it calls; they are variables
    of the section that holds the client, so every theorem holds for every
    behaviour they can have. The tools themselves are modelled apart, with
    [fetch] as their environment. *)

From Stdlib Require Import List NArith ZArith Bool Ascii String Lia Permutation.
Import ListNotations.

(** ** JavaScript strings *)

Module JS.

(** A code unit and a string of code units. *)
Definition char := N.
Definition jsstring := list char.

(** An ASCII literal as a JavaScript string. *)
Definition js (s : string) : jsstring :=
  List.map N_of_ascii (list_ascii_of_string s).

Definition char_eqb (a b : char) : bool := N.eqb a b.

Fixpoint string_eqb (a b : jsstring) : bool :=
  match a, b with
  | [], [] => true
  | x :: a', y :: b' => char_eqb x y && string_eqb a' b'
  | _, _ => false
  end.

(** [s.startsWith(p)] *)
Fixpoint startsWith (s p : jsstring) {struct p} : bool :=
  match p with
  | [] => true
  | c :: p' =>
      match s with
      | [] => false
      | d :: s' => char_eqb d c && startsWith s' p'
      end
  end.

(** [s.replace(pat, repl)] for a string pattern: the first occurrence of
    [pat], scanning from the left, is replaced; [repl] is used in the source
    only as the empty string, which has no replacement patterns. *)
Fixpoint replace (s pat repl : jsstring) : jsstring :=
  if startsWith s pat then repl ++ skipn (List.length pat) s
  else match s with
       | [] => []
       | c :: s' => c :: replace s' pat repl
       end.

(** WhiteSpace and LineTerminator code units: what [trim], the leading skip
    of [parseFloat] and the class [\s] of a regular expression take. *)
Definition isSpace (c : char) : bool :=
  (N.leb 9 c && N.leb c 13)
  || N.eqb c 32 || N.eqb c 160 || N.eqb c 5760
  || (N.leb 8192 c && N.leb c 8202)
  || N.eqb c 8232 || N.eqb c 8233 || N.eqb c 8239 || N.eqb c 8287
  || N.eqb c 12288 || N.eqb c 65279.

(** [0-9] *)
Definition isDigit (c : char) : bool := N.leb 48 c && N.leb c 57.

(** The class [\w] without the unicode and ignoreCase flags: [A-Za-z0-9_]. *)
Definition isWord (c : char) : bool :=
  (N.leb 65 c && N.leb c 90) || (N.leb 97 c && N.leb c 122)
  || isDigit c || N.eqb c 95.

Fixpoint dropWhile (f : char -> bool) (s : jsstring) : jsstring :=
  match s with
  | [] => []
  | c :: s' => if f c then dropWhile f s' else s
  end.

(** The longest prefix whose code units satisfy [f], and what follows it. *)
Fixpoint span (f : char -> bool) (s : jsstring) : jsstring * jsstring :=
  match s with
  | [] => ([], [])
  | c :: s' =>
      if f c then let (a, b) := span f s' in (c :: a, b) else ([], s)
  end.

Definition trimStart (s : jsstring) : jsstring := dropWhile isSpace s.
Definition trimEnd (s : jsstring) : jsstring :=
  rev (dropWhile isSpace (rev s)).

(** [s.trim()] *)
Definition trim (s : jsstring) : jsstring := trimEnd (trimStart s).

(** [s.split(sep)] for a separator of one code unit. The result is never
    empty: a string without the separator gives one field. *)
Fixpoint split (sep : char) (s : jsstring) : list jsstring :=
  match s with
  | [] => [[]]
  | c :: s' =>
      if char_eqb c sep then [] :: split sep s'
      else match split sep s' with
           | f :: fs => (c :: f) :: fs
           | [] => [[c]]
           end
  end.

(** [s.replace(/c/g, "")] for a pattern of one literal code unit. *)
Definition removeAll (c : char) (s : jsstring) : jsstring :=
  filter (fun d => negb (char_eqb d c)) s.

(** A JavaScript Number as far as [parseFloat] and [isNaN] see it: NaN, a
    signed Infinity, or the decimal numeral that was read, kept as sign,
    digits and power of ten. The rounding of the numeral to a binary64
    value is left out; whether the result is NaN does not depend on it. *)
Inductive Number : Type :=
| NaN
| Infinity (negative : bool)
| Decimal (negative : bool) (digits : N) (exp10 : Z).

Definition isNaN (x : Number) : bool :=
  match x with NaN => true | _ => false end.

Definition digitValue (c : char) : N := c - 48.

Definition digitsValue (ds : jsstring) : N :=
  fold_left (fun acc c => 10 * acc + digitValue c)%N ds 0%N.

(** An optional sign. *)
Definition readSign (s : jsstring) : bool * jsstring :=
  match s with
  | c :: s' =>
      if N.eqb c 43 then (false, s')
      else if N.eqb c 45 then (true, s')
      else (false, s)
  | [] => (false, s)
  end.

(** ExponentPart: [e] or [E], an optional sign and at least one digit; it is
    part of the numeral only when it is complete. *)
Definition readExponent (s : jsstring) : Z :=
  match s with
  | c :: s' =>
      if N.eqb c 101 || N.eqb c 69 then
        let (neg, s'') := readSign s' in
        let (ds, _) := span isDigit s'' in
        match ds with
        | [] => 0%Z
        | _ => if neg then (- Z.of_N (digitsValue ds))%Z
               else Z.of_N (digitsValue ds)
        end
      else 0%Z
  | [] => 0%Z
  end.

(** [parseFloat(s)]: leading white space is skipped, then the longest prefix
    that is a StrDecimalLiteral is read; NaN when there is none. *)
Definition parseFloat (s : jsstring) : Number :=
  let (neg, s1) := readSign (trimStart s) in
  if startsWith s1 (js "Infinity") then Infinity neg
  else
    let (intDigits, r1) := span isDigit s1 in
    let (fracDigits, r2) :=
      match r1 with
      | c :: t => if N.eqb c 46 then span isDigit t else ([], r1)
      | [] => ([], r1)
      end in
    match intDigits ++ fracDigits with
    | [] => NaN
    | ds => Decimal neg (digitsValue ds)
              (readExponent r2 - Z.of_nat (List.length fracDigits))
    end.

End JS.

Import JS.

(** ** Exceptions *)

(** What a [throw] carries as far as a handler of the source looks at it:
    every handler computes
    [error instanceof Error ? error.message : "Unknown error"]. *)
Inductive Thrown : Type :=
| ErrorObject (message : jsstring)
| NotAnError.

Definition messageOf (error : Thrown) : jsstring :=
  match error with
  | ErrorObject message => message
  | NotAnError => js "Unknown error"
  end.

(** The completion of a call: a value, or a thrown exception. *)
Inductive Completion (A : Type) : Type :=
| Normal (value : A)
| Throw (error : Thrown).

Arguments Normal {A} value.
Arguments Throw {A} error.

(** ** [@linear/sdk]: the activity types the client uses *)

Module L.

Inductive AgentActivityType : Type :=
| Thought | Action | Response | Elicitation | Error.

(** The string value of an enumeration member. *)
Definition toString (t : AgentActivityType) : jsstring :=
  match t with
  | Thought => js "thought"
  | Action => js "action"
  | Response => js "response"
  | Elicitation => js "elicitation"
  | Error => js "error"
  end.

Definition eqb (a b : AgentActivityType) : bool :=
  match a, b with
  | Thought, Thought | Action, Action | Response, Response
  | Elicitation, Elicitation | Error, Error => true
  | _, _ => false
  end.

End L.

(** ** [types.ts] *)

Module Types.

(** [new UnreachableCaseError(value)]: an [Error] whose message is
    [`Unreachable case: ${value}`]; [value] is given already rendered. *)
Definition UnreachableCaseError (value : jsstring) : Thrown :=
  ErrorObject (js "Unreachable case: " ++ value).

(** [new Error(message)] *)
Definition Error (message : jsstring) : Thrown := ErrorObject message.

(** [ToolName] is a union of string literals: at run time a tool name is
    the string itself, and [isToolName] is the membership test. This is the
    [types.ts] of the client modelled here, the one that imports the two
    tools [getCoordinates] and [getWeather]:
    [type ToolName = "getCoordinates" | "getWeather"]. *)
Definition ToolName := jsstring.

Definition isToolName (value : jsstring) : bool :=
  string_eqb value (js "getCoordinates")
  || string_eqb value (js "getWeather").

(** The content of an agent activity. [parameter] is [string | null];
    [result] is an optional field. *)
Inductive Content : Type :=
| ThoughtContent (body : jsstring)
| ActionContent (action : ToolName) (parameter : option jsstring)
                (result : option jsstring)
| ResponseContent (body : jsstring)
| ElicitationContent (body : jsstring)
| ErrorContent (body : jsstring).

Definition typeOf (content : Content) : L.AgentActivityType :=
  match content with
  | ThoughtContent _ => L.Thought
  | ActionContent _ _ _ => L.Action
  | ResponseContent _ => L.Response
  | ElicitationContent _ => L.Elicitation
  | ErrorContent _ => L.Error
  end.

End Types.

Import Types.

(** ** The classifier: [mapResponseToLinearActivityContent] *)

Module Classifier.

(** The object [typeToKeyword], as [Object.entries] lists it: string keys in
    insertion order. *)
Definition typeToKeyword : list (L.AgentActivityType * jsstring) :=
  Eval cbv in
  [ (L.Thought, js "THINKING:");
    (L.Action, js "ACTION:");
    (L.Response, js "RESPONSE:");
    (L.Elicitation, js "ELICITATION:");
    (L.Error, js "ERROR:") ].

(** [Object.entries(table).find(([_, keyword]) => response.startsWith(keyword))?.[0]] *)
Definition findType (table : list (L.AgentActivityType * jsstring))
    (response : jsstring) : option L.AgentActivityType :=
  option_map fst (find (fun entry => startsWith response (snd entry)) table).

(** [table[type]]; a missing key reads as [undefined], which [replace]
    would take as the pattern ["undefined"]. *)
Definition keywordOf (table : list (L.AgentActivityType * jsstring))
    (type : L.AgentActivityType) : jsstring :=
  match find (fun entry => L.eqb (fst entry) type) table with
  | Some entry => snd entry
  | None => js "undefined"
  end.

Definition openParen : char := 40%N.
Definition closeParen : char := 41%N.

(** The class [[^)]]. *)
Definition notCloseParen (c : char) : bool := negb (char_eqb c closeParen).

(** [/ACTION:\s*(\w+)\(([^)]+)\)/] tried at the first code unit of [s]; the
    result is the two captures. The three repetitions are greedy, and each
    is followed by something its own class excludes (a word character after
    white space, a parenthesis after word characters, the closing
    parenthesis after [[^)]]), so each takes the longest run or the attempt
    fails: [actionPatternAt_spec] below. *)
Definition actionPatternAt (s : jsstring) : option (jsstring * jsstring) :=
  if startsWith s (js "ACTION:") then
    let (name, afterName) := span isWord (dropWhile isSpace (skipn 7 s)) in
    match name, afterName with
    | _ :: _, c :: afterOpen =>
        if char_eqb c openParen then
          let (params, afterParams) := span notCloseParen afterOpen in
          match params, afterParams with
          | _ :: _, _ :: _ => Some (name, params)
          | _, _ => None
          end
        else None
    | _, _ => None
    end
  else None.

(** [response.match(/ACTION:\s*(\w+)\(([^)]+)\)/)]: the pattern is not
    anchored and not global, so the leftmost position where it matches
    wins; [None] is [null]. *)
Fixpoint actionPattern (s : jsstring) : option (jsstring * jsstring) :=
  match actionPatternAt s with
  | Some captures => Some captures
  | None =>
      match s with
      | [] => None
      | _ :: s' => actionPattern s'
      end
  end.

(** [value || null] on a string: the empty string is falsy. *)
Definition orNull (value : option jsstring) : option jsstring :=
  match value with
  | Some [] => None
  | other => other
  end.

(** The method, with the keyword table as a parameter. The [Action] case
    has no [break]: without a match it falls into [default]. *)
Definition mapResponseWith (table : list (L.AgentActivityType * jsstring))
    (response : jsstring) : Completion Content :=
  match findType table response with
  | Some L.Thought =>
      Normal (ThoughtContent
                (trim (replace response (keywordOf table L.Thought) [])))
  | Some L.Response =>
      Normal (ResponseContent
                (trim (replace response (keywordOf table L.Response) [])))
  | Some L.Elicitation =>
      Normal (ElicitationContent
                (trim (replace response (keywordOf table L.Elicitation) [])))
  | Some L.Error =>
      Normal (ErrorContent
                (trim (replace response (keywordOf table L.Error) [])))
  | Some L.Action =>
      match actionPattern response with
      | Some (toolNameRaw, params) =>
          if negb (isToolName toolNameRaw) then
            Throw (Error (js "Invalid tool name: " ++ toolNameRaw))
          else
            Normal (ActionContent toolNameRaw (orNull (Some params)) None)
      | None => Throw (UnreachableCaseError (L.toString L.Action))
      end
  | None => Throw (UnreachableCaseError (js "undefined"))
  end.

Definition mapResponseToLinearActivityContent (response : jsstring)
    : Completion Content :=
  mapResponseWith typeToKeyword response.

End Classifier.

Import Classifier.

(** ** The client: [AgentClient] *)

Module AgentClient.

Inductive Role : Type := system | user | assistant.

(** A [ChatCompletionMessageParam] of the conversation. *)
Record Message : Type := { role : Role; content : jsstring }.

(** The argument of [linearClient.createAgentActivity]. *)
Record AgentActivityCreateInput : Type :=
  { agentSessionId : jsstring; activityContent : Content }.

(** A call that reached a tool of [tools.ts], with its arguments in the
    order of the call. *)
Inductive ToolCall : Type :=
| CallGetCoordinates (city_name : jsstring)
| CallGetWeather (first second : Number).

(** What [openai.chat.completions.create] does: it resolves, and
    [response.choices[0]?.message?.content] is a string, or [null] or
    [undefined] ([None]); or something is thrown inside the [try] of
    [callOpenAI]. *)
Inductive ApiOutcome : Type :=
| ApiResolves (messageContent : option jsstring)
| ApiThrows (error : Thrown).

(** The state of one turn. [messages], [taskComplete] and [iterations] are
    the local variables of [handleUserPrompt]; the other three fields record
    what the turn did to its environment, oldest first: the activities
    handed to Linear, the transcripts sent to the model, and the tool calls
    made. *)
Record Session : Type := {
  messages : list Message;
  taskComplete : bool;
  iterations : nat;
  activities : list AgentActivityCreateInput;
  modelCalls : list (list Message);
  toolCalls : list ToolCall
}.

(** Code that reads and writes the session and may throw. The state reached
    when an exception is thrown is kept: what was published before a
    [throw] stays published. *)
Definition M (A : Type) : Type := Session -> Completion A * Session.

Definition ret {A} (a : A) : M A := fun s => (Normal a, s).

Definition bind {A B} (m : M A) (k : A -> M B) : M B :=
  fun s =>
    match m s with
    | (Normal a, s') => k a s'
    | (Throw e, s') => (Throw e, s')
    end.

Definition throw {A} (e : Thrown) : M A := fun s => (Throw e, s).

(** [try { body } catch (error) { handler }] *)
Definition tryCatch {A} (body : M A) (handler : Thrown -> M A) : M A :=
  fun s =>
    match body s with
    | (Normal a, s') => (Normal a, s')
    | (Throw e, s') => handler e s'
    end.

Definition liftCompletion {A} (c : Completion A) : M A := fun s => (c, s).

Notation "x <- m ;; k" := (bind m (fun x => k))
  (at level 61, m at next level, right associativity).
Notation "m ;; k" := (bind m (fun _ => k))
  (at level 61, right associativity).

(** [messages.push(m)] *)
Definition pushMessage (m : Message) : M unit :=
  fun s =>
    (Normal tt,
     {| messages := messages s ++ [m]; taskComplete := taskComplete s;
        iterations := iterations s; activities := activities s;
        modelCalls := modelCalls s; toolCalls := toolCalls s |}).

(** [taskComplete = true] *)
Definition setTaskComplete : M unit :=
  fun s =>
    (Normal tt,
     {| messages := messages s; taskComplete := true;
        iterations := iterations s; activities := activities s;
        modelCalls := modelCalls s; toolCalls := toolCalls s |}).

(** [iterations++] *)
Definition incrIterations : M unit :=
  fun s =>
    (Normal tt,
     {| messages := messages s; taskComplete := taskComplete s;
        iterations := S (iterations s); activities := activities s;
        modelCalls := modelCalls s; toolCalls := toolCalls s |}).

(** [await this.linearClient.createAgentActivity({ agentSessionId, content })]:
    the activity is recorded, in the order of the calls. Linear is taken to
    accept every activity: a call that rejects is outside this model (the
    source has no handling of its own for it). *)
Definition createAgentActivity (sessionId : jsstring) (c : Content)
    : M unit :=
  fun s =>
    (Normal tt,
     {| messages := messages s; taskComplete := taskComplete s;
        iterations := iterations s;
        activities := activities s
                      ++ [{| agentSessionId := sessionId;
                             activityContent := c |}];
        modelCalls := modelCalls s; toolCalls := toolCalls s |}).

Definition recordModelCall (transcript : list Message) : M unit :=
  fun s =>
    (Normal tt,
     {| messages := messages s; taskComplete := taskComplete s;
        iterations := iterations s; activities := activities s;
        modelCalls := modelCalls s ++ [transcript];
        toolCalls := toolCalls s |}).

Definition recordToolCall (call : ToolCall) : M unit :=
  fun s =>
    (Normal tt,
     {| messages := messages s; taskComplete := taskComplete s;
        iterations := iterations s; activities := activities s;
        modelCalls := modelCalls s; toolCalls := toolCalls s ++ [call] |}).

Definition doubleQuote : char := 34%N.
Definition comma : char := 44%N.

(** [!parameter] for [string | null]: [null] and the empty string. *)
Definition isFalsy (parameter : option jsstring) : bool :=
  match parameter with
  | None | Some [] => true
  | Some (_ :: _) => false
  end.

(** The string behind a [parameter] that passed the test above. *)
Definition stringOf (parameter : option jsstring) : jsstring :=
  match parameter with
  | Some p => p
  | None => []
  end.

(** [parameter.split(",").map((p) => parseFloat(p.trim()))] *)
Definition paramPartsOf (parameter : jsstring) : list Number :=
  List.map (fun p => parseFloat (trim p)) (split comma parameter).

(** [paramParts.length >= 2 && !isNaN(paramParts[0]) && !isNaN(paramParts[1])] *)
Definition twoNumbers (paramParts : list Number) : bool :=
  (2 <=? List.length paramParts)%nat
  && negb (isNaN (nth 0 paramParts NaN))
  && negb (isNaN (nth 1 paramParts NaN)).

Section Client.

(** The text exported by [prompt.ts]. *)
Variable prompt : jsstring.

(** The field [MAX_ITERATIONS]; the class sets it to 10. *)
Variable MAX_ITERATIONS : nat.

(** The model: what [create] does on a transcript, given how many calls
    were made before. *)
Variable create : nat -> list Message -> ApiOutcome.

(** The tools as the client sees them: [JSON.stringify(await tool(...))],
    or what the tool throws; the number is how many tool calls were made
    before. *)
Variable getCoordinates : nat -> jsstring -> Completion jsstring.
Variable getWeather : nat -> Number -> Number -> Completion jsstring.

(** [callOpenAI]: [content || "No response"], and every exception is
    thrown again as an [Error] with the prefix ["OpenAI API error: "]. *)
Definition callOpenAI (transcript : list Message) : M jsstring :=
  fun s =>
    let outcome := create (List.length (modelCalls s)) transcript in
    bind (recordModelCall transcript)
      (fun _ =>
         match outcome with
         | ApiResolves (Some (c :: rest)) => ret (c :: rest)
         | ApiResolves _ => ret (js "No response")
         | ApiThrows error =>
             throw (Error (js "OpenAI API error: " ++ messageOf error))
         end) s.

Definition invokeGetCoordinates (city_name : jsstring) : M jsstring :=
  fun s =>
    let outcome := getCoordinates (List.length (toolCalls s)) city_name in
    bind (recordToolCall (CallGetCoordinates city_name))
      (fun _ => liftCompletion outcome) s.

Definition invokeGetWeather (first second : Number) : M jsstring :=
  fun s =>
    let outcome := getWeather (List.length (toolCalls s)) first second in
    bind (recordToolCall (CallGetWeather first second))
      (fun _ => liftCompletion outcome) s.

(** The [switch (action)] of [executeAction]. [paramParts[i]] beyond the
    end is [undefined], for which [isNaN] is true; the length test comes
    first. *)
Definition switchAction (action : ToolName) (parameter : jsstring)
    : M jsstring :=
  if string_eqb action (js "getCoordinates") then
    invokeGetCoordinates (removeAll doubleQuote parameter)
  else if string_eqb action (js "getWeather") then
    let paramParts := paramPartsOf parameter in
    if twoNumbers paramParts then
      let lat := nth 0 paramParts NaN in
      let lng := nth 1 paramParts NaN in
      invokeGetWeather lng lat
    else throw (Error (js "Invalid parameter for getWeather action"))
  else throw (UnreachableCaseError action).

(** [executeAction]: the test of the parameter, then the [switch]. *)
Definition executeAction (action : ToolName) (parameter : option jsstring)
    : M jsstring :=
  if isFalsy parameter then
    throw (Error (js "Parameter is required for action execution"))
  else switchAction action (stringOf parameter).

(** The [try] block of the loop body. The pause of one second that ends
    the Thought and Action branches is left out. *)
Definition tryBlock (sessionId : jsstring) : M unit :=
  fun s =>
    (response <- callOpenAI (messages s) ;;
     content <- liftCompletion (mapResponseToLinearActivityContent response) ;;
     match content with
     | ThoughtContent _ =>
         createAgentActivity sessionId content ;;
         pushMessage {| role := assistant; content := response |}
     | ActionContent toolName parameter _ =>
         createAgentActivity sessionId content ;;
         toolResult <- executeAction toolName parameter ;;
         pushMessage {| role := assistant; content := response |} ;;
         pushMessage {| role := user;
                        content := js "Tool result: " ++ toolResult |} ;;
         createAgentActivity sessionId
           (ActionContent toolName (orNull parameter) (Some toolResult))
     | ResponseContent _ | ErrorContent _ | ElicitationContent _ =>
         createAgentActivity sessionId content ;;
         setTaskComplete
     end) s.

(** The [catch] block of the loop body. *)
Definition catchBlock (sessionId : jsstring) (error : Thrown) : M unit :=
  createAgentActivity sessionId
    (ErrorContent (js "Agent error: " ++ messageOf error)) ;;
  setTaskComplete.

Definition loopBody (sessionId : jsstring) : M unit :=
  incrIterations ;;
  tryCatch (tryBlock sessionId) (catchBlock sessionId).

(** [while (!taskComplete && iterations < this.MAX_ITERATIONS)] *)
Definition loopCondition (s : Session) : bool :=
  negb (taskComplete s) && (iterations s <? MAX_ITERATIONS)%nat.

(** The [while] loop, unrolled at most [fuel] times. *)
Fixpoint whileLoop (fuel : nat) (sessionId : jsstring) : M unit :=
  fun s =>
    match fuel with
    | O => ret tt s
    | S fuel' =>
        if loopCondition s
        then (loopBody sessionId ;; whileLoop fuel' sessionId) s
        else ret tt s
    end.

Definition maxIterationsMessage : jsstring :=
  js "The agent has reached the maximum number of iterations and will now stop.".

(** The statement after the loop. *)
Definition afterLoop (sessionId : jsstring) : M unit :=
  fun s =>
    if negb (taskComplete s) && (MAX_ITERATIONS <=? iterations s)%nat
    then createAgentActivity sessionId (ErrorContent maxIterationsMessage) s
    else ret tt s.

(** The declarations that open [handleUserPrompt]. *)
Definition startTurn (userPrompt : jsstring) : M unit :=
  fun s =>
    (Normal tt,
     {| messages := [ {| role := system; content := prompt |};
                      {| role := user; content := userPrompt |} ];
        taskComplete := false;
        iterations := 0;
        activities := activities s;
        modelCalls := modelCalls s;
        toolCalls := toolCalls s |}).

(** What follows the declarations: the loop and the statement after it.
    Every pass of the loop adds one to [iterations], so [MAX_ITERATIONS]
    less [iterations] passes are all the loop can make
    ([whileLoop_stops]). *)
Definition runTurn (sessionId : jsstring) : M unit :=
  fun s =>
    (whileLoop (MAX_ITERATIONS - iterations s) sessionId ;;
     afterLoop sessionId) s.

Definition handleUserPrompt (userPrompt sessionId : jsstring) : M unit :=
  startTurn userPrompt ;; runTurn sessionId.

(** The [while] loop with the number of passes it may make as a parameter
    that owes nothing to [MAX_ITERATIONS]: the guard is tested first, and
    the result is [None] when the guard still holds after [fuel] passes.
    Here only the guard ends the loop. *)
Fixpoint whileLoopWithin (fuel : nat) (sessionId : jsstring) (s : Session)
    : option (Completion unit * Session) :=
  if loopCondition s then
    match fuel with
    | O => None
    | S fuel' =>
        match loopBody sessionId s with
        | (Normal _, s') => whileLoopWithin fuel' sessionId s'
        | (Throw e, s') => Some (Throw e, s')
        end
    end
  else Some (Normal tt, s).

(** [handleUserPrompt] with that loop: the declarations, the loop, the
    statement after it. *)
Definition handleUserPromptWithin (fuel : nat)
    (userPrompt sessionId : jsstring) (s : Session)
    : option (Completion unit * Session) :=
  match startTurn userPrompt s with
  | (Normal _, s1) =>
      match whileLoopWithin fuel sessionId s1 with
      | Some (Normal _, s2) => Some (afterLoop sessionId s2)
      | Some (Throw e, s2) => Some (Throw e, s2)
      | None => None
      end
  | (Throw e, s1) => Some (Throw e, s1)
  end.

End Client.

(** The environment before a turn has done anything. *)
Definition freshSession : Session :=
  {| messages := []; taskComplete := false; iterations := 0;
     activities := []; modelCalls := []; toolCalls := [] |}.

End AgentClient.

Import AgentClient.

(** ** The earlier entry point: [runAgentMode] of [index.ts] *)

Module Worker.

(** The statements of [runAgentMode] that execute the tool of an ACTION:
    text, from [let toolResult = "Tool executed successfully"] to the end
    of the [if]; the value is [toolResult]. [toolName] and [params] are the
    two captures of the action pattern. *)
Definition executeTool
    (getCoordinates : nat -> jsstring -> Completion jsstring)
    (getWeather : nat -> Number -> Number -> Completion jsstring)
    (toolName params : jsstring) : M jsstring :=
  let toolResult := js "Tool executed successfully" in
  if string_eqb toolName (js "getCoordinates")
     && negb (isFalsy (Some params))
  then invokeGetCoordinates getCoordinates (removeAll doubleQuote params)
  else if string_eqb toolName (js "getWeather")
          && negb (isFalsy (Some params))
  then
    let paramParts := paramPartsOf params in
    if twoNumbers paramParts then
      let lat := nth 0 paramParts NaN in
      let lng := nth 1 paramParts NaN in
      invokeGetWeather getWeather lng lat
    else ret toolResult
  else ret toolResult.

End Worker.

(** ** [runAgentMode] of [index.ts]: the loop *)

Module RunAgentMode.

(** The content that [runAgentMode] hands to [createAgentActivity]: a type
    and a body, and for an action the tool name, a describing body and the
    parameter. *)
Inductive Content : Type :=
| ThoughtBody (body : jsstring)
| ActionBody (action body parameter : jsstring)
| ResponseBody (body : jsstring)
| ElicitationBody (body : jsstring)
| ErrorBody (body : jsstring).

(** The state of a run: the session (its local variables, the model calls
    and the tool calls; the field [activities] is not used here), and the
    activities of this shape that were published, with their session id,
    oldest first. *)
Definition State : Type := (Session * list (jsstring * Content))%type.

Definition RM (A : Type) : Type := State -> Completion A * State.

Definition ret {A} (a : A) : RM A := fun st => (Normal a, st).

Definition bind {A B} (m : RM A) (k : A -> RM B) : RM B :=
  fun st =>
    match m st with
    | (Normal a, st') => k a st'
    | (Throw e, st') => (Throw e, st')
    end.

Definition tryCatch {A} (body : RM A) (handler : Thrown -> RM A) : RM A :=
  fun st =>
    match body st with
    | (Normal a, st') => (Normal a, st')
    | (Throw e, st') => handler e st'
    end.

(** Code that works on the session alone. *)
Definition lift {A} (m : M A) : RM A :=
  fun st =>
    match m (fst st) with
    | (c, s') => (c, (s', snd st))
    end.

Declare Scope worker_scope.
Notation "x <- m ;; k" := (bind m (fun x => k))
  (at level 61, m at next level, right associativity) : worker_scope.
Notation "m ;; k" := (bind m (fun _ => k))
  (at level 61, right associativity) : worker_scope.
Local Open Scope worker_scope.

(** [await linearClient.createAgentActivity({ agentSessionId, content })];
    as for the client, Linear is taken to accept every activity. *)
Definition createAgentActivity (sessionId : jsstring) (c : Content)
    : RM unit :=
  fun st => (Normal tt, (fst st, snd st ++ [(sessionId, c)])).

(** [value || fallback] on a string. *)
Definition orElse (value fallback : jsstring) : jsstring :=
  match value with
  | [] => fallback
  | _ :: _ => value
  end.

Definition actionDescription (toolName : jsstring) : jsstring :=
  if string_eqb toolName (js "getCoordinates")
  then js "Getting coordinates for"
  else if string_eqb toolName (js "getWeather")
       then js "Getting weather for"
       else js "Executing".

Definition resultDescription (toolName : jsstring) : jsstring :=
  if string_eqb toolName (js "getCoordinates")
  then js "Got coordinates for"
  else if string_eqb toolName (js "getWeather")
       then js "Got weather for"
       else js "Executed".

(** [const maxIterations = 10] *)
Definition maxIterations : nat := 10.

Section Run.

Variable prompt : jsstring.
Variable create : nat -> list Message -> ApiOutcome.
Variable getCoordinates : nat -> jsstring -> Completion jsstring.
Variable getWeather : nat -> Number -> Number -> Completion jsstring.

(** The [try] block of the loop body. [callOpenAI] of [index.ts] is the
    method of the client with the key as an argument. An ACTION: text that
    the pattern does not match falls out of the [if] with nothing done. The
    pauses of one second are left out. *)
Definition tryBlock (sessionId : jsstring) : RM unit :=
  fun st =>
    (response <- lift (callOpenAI create (messages (fst st))) ;;
     if startsWith response (js "THINKING:") then
       createAgentActivity sessionId
         (ThoughtBody (trim (replace response (js "THINKING:") []))) ;;
       lift (pushMessage {| role := assistant; content := response |})
     else if startsWith response (js "ACTION:") then
       match actionPattern response with
       | Some (toolName, params) =>
           createAgentActivity sessionId
             (ActionBody toolName (actionDescription toolName)
                (orElse params [])) ;;
           toolResult <-
             lift (Worker.executeTool getCoordinates getWeather
                     toolName params) ;;
           createAgentActivity sessionId
             (ActionBody toolName (resultDescription toolName)
                (orElse params [])) ;;
           lift (pushMessage {| role := assistant; content := response |}) ;;
           lift (pushMessage
                   {| role := user;
                      content := js "Tool result: " ++ toolResult |})
       | None => ret tt
       end
     else if startsWith response (js "RESPONSE:") then
       createAgentActivity sessionId
         (ResponseBody (trim (replace response (js "RESPONSE:") []))) ;;
       lift setTaskComplete
     else if startsWith response (js "ELICITATION:") then
       createAgentActivity sessionId
         (ElicitationBody (trim (replace response (js "ELICITATION:") []))) ;;
       lift setTaskComplete
     else if startsWith response (js "ERROR:") then
       createAgentActivity sessionId
         (ErrorBody (trim (replace response (js "ERROR:") []))) ;;
       lift setTaskComplete
     else
       createAgentActivity sessionId
         (ThoughtBody (orElse response (js "Agent is processing..."))) ;;
       lift (pushMessage
               {| role := assistant;
                  content := orElse response (js "Processing...") |})) st.

(** The [catch] block of the loop body. *)
Definition catchBlock (sessionId : jsstring) (error : Thrown) : RM unit :=
  createAgentActivity sessionId
    (ErrorBody (js "Agent error: " ++ messageOf error)) ;;
  lift setTaskComplete.

Definition loopBody (sessionId : jsstring) : RM unit :=
  lift incrIterations ;;
  tryCatch (tryBlock sessionId) (catchBlock sessionId).

(** [while (!taskComplete && iterations < maxIterations)] *)
Definition loopCondition (st : State) : bool :=
  negb (taskComplete (fst st))
  && (iterations (fst st) <? maxIterations)%nat.

(** The [while] loop, unrolled at most [fuel] times. *)
Fixpoint whileLoop (fuel : nat) (sessionId : jsstring) : RM unit :=
  fun st =>
    match fuel with
    | O => ret tt st
    | S fuel' =>
        if loopCondition st
        then (loopBody sessionId ;; whileLoop fuel' sessionId) st
        else ret tt st
    end.

(** [runAgentMode]: the declarations, then the loop; nothing follows the
    loop. Every pass adds one to [iterations], so [maxIterations] passes
    are all the loop can make. *)
Definition runAgentMode (userPrompt sessionId : jsstring) : RM unit :=
  lift (startTurn prompt userPrompt) ;;
  whileLoop maxIterations sessionId.

(** The [while] loop with the number of passes it may make as a parameter
    that owes nothing to [maxIterations]: the guard is tested first, and
    the result is [None] when the guard still holds after [fuel] passes. *)
Fixpoint whileLoopWithin (fuel : nat) (sessionId : jsstring) (st : State)
    : option (Completion unit * State) :=
  if loopCondition st then
    match fuel with
    | O => None
    | S fuel' =>
        match loopBody sessionId st with
        | (Normal _, st') => whileLoopWithin fuel' sessionId st'
        | (Throw e, st') => Some (Throw e, st')
        end
    end
  else Some (Normal tt, st).

(** [runAgentMode] with that loop. *)
Definition runAgentModeWithin (fuel : nat) (userPrompt sessionId : jsstring)
    (st : State) : option (Completion unit * State) :=
  match lift (startTurn prompt userPrompt) st with
  | (Normal _, st1) => whileLoopWithin fuel sessionId st1
  | (Throw e, st1) => Some (Throw e, st1)
  end.

End Run.

End RunAgentMode.

(** ** [index.ts]: the routes and the webhook *)

Module Index.

Import RunAgentMode.
Local Open Scope worker_scope.

(** What the worker reads of a request: the path of its URL, its method,
    its text, and its linear-signature header. *)
Record Request : Type := {
  pathname : jsstring;
  method : jsstring;
  text : jsstring;
  linearSignature : option jsstring
}.

(** [new Response(body, { status, headers })] *)
Record Response : Type := {
  body : option jsstring;
  status : nat;
  headers : list (jsstring * jsstring)
}.

(** The fields of [Env] that the webhook route reads. The binding
    [WEATHER_BOT_TOKENS] may be missing; [get] on it is taken to resolve,
    with the stored text or with null. *)
Record Env : Type := {
  LINEAR_WEBHOOK_SECRET : jsstring;
  WEATHER_BOT_TOKENS : option (jsstring -> option jsstring)
}.

(** What the worker reads of a parsed payload: [type],
    [agentActivity?.content.body], [agentSession.comment?.body] and
    [agentSession.id]. *)
Record Payload : Type := {
  type : jsstring;
  agentActivityBody : option jsstring;
  commentBody : option jsstring;
  agentSessionId : jsstring
}.

Definition OAUTH_TOKEN_KEY : jsstring := js "linear_oauth_token".

(** [a || b] where [a] is a string or undefined. *)
Definition orString (a : option jsstring) (b : jsstring) : jsstring :=
  if isFalsy a then b else stringOf a.

Definition liftCompletion {A} (c : Completion A) : RM A :=
  fun st => (c, st).

(** "Weather bot says hello! " and the sun behind a cloud, U+1F324 U+FE0F. *)
Definition hello : Response :=
  {| body := Some (js "Weather bot says hello! "
                   ++ [55356; 57124; 65039]%N);
     status := 200; headers := [] |}.

Definition plain (text : jsstring) (status : nat) : Response :=
  {| body := Some text; status := status; headers := [] |}.

Section Routes.

Variable prompt : jsstring.
Variable create : nat -> list Message -> ApiOutcome.
Variable getCoordinates : nat -> jsstring -> Completion jsstring.
Variable getWeather : nat -> Number -> Number -> Completion jsstring.

(** [linearWebhooks.parseData(payloadBuffer, signature)] of the Linear SDK,
    for the secret the client was made with: the payload, or an exception
    when the signature does not fit. *)
Variable parseData : jsstring -> jsstring -> jsstring -> Completion Payload.

(** The two OAuth routes, which are not modelled. *)
Variable handleOAuthAuthorize : Request -> Env -> Response.
Variable handleOAuthCallback : Request -> Env -> Completion Response.

(** [handleWebhook]; the Linear client made from the token is the sink of
    the activities. *)
Definition handleWebhook (request : Request) (secret : jsstring) : RM unit :=
  parsedPayload <-
    liftCompletion
      (parseData secret (text request)
         (orString (linearSignature request) [])) ;;
  if negb (string_eqb (type parsedPayload) (js "AgentSessionEvent"))
  then ret tt
  else
    runAgentMode prompt create getCoordinates getWeather
      (orString (agentActivityBody parsedPayload)
         (orString (commentBody parsedPayload) []))
      (agentSessionId parsedPayload).

(** [fetch] *)
Definition fetch (request : Request) (env : Env) : RM Response :=
  if string_eqb (pathname request) (js "/") then ret hello
  else if string_eqb (pathname request) (js "/oauth/authorize")
  then ret (handleOAuthAuthorize request env)
  else if string_eqb (pathname request) (js "/oauth/callback")
  then liftCompletion (handleOAuthCallback request env)
  else if string_eqb (pathname request) (js "/webhook")
          && string_eqb (method request) (js "POST")
  then
    match WEATHER_BOT_TOKENS env with
    | None => ret (plain (js "Linear tokens not found") 500)
    | Some tokens =>
        let token := tokens OAUTH_TOKEN_KEY in
        if isFalsy token
        then ret (plain (js "Linear OAuth token not found") 500)
        else
          handleWebhook request (LINEAR_WEBHOOK_SECRET env) ;;
          ret (plain (js "OK") 200)
    end
  else ret (plain (js "OK") 200).

End Routes.

End Index.

(** ** [index.ts] with the client: the webhook *)

Module ClientIndex.

(** What the worker reads of a parsed payload: [type], [action],
    [agentSession.issue?.title], [agentSession.comment?.body],
    [agentActivity?.content.body] and [agentSession.id]. *)
Record Payload : Type := {
  type : jsstring;
  action : jsstring;
  issueTitle : option jsstring;
  commentBody : option jsstring;
  agentActivityBody : option jsstring;
  agentSessionId : jsstring
}.

(** A value that is a string or undefined, inside a template literal. *)
Definition template (value : option jsstring) : jsstring :=
  match value with
  | Some text => text
  | None => js "undefined"
  end.

(** [generateUserPrompt]; the line feed is the code unit 10. *)
Definition generateUserPrompt (webhook : Payload) : jsstring :=
  if string_eqb (action webhook) (js "created") then
    let issueTitle := issueTitle webhook in
    let commentBody := commentBody webhook in
    js "Issue: " ++ template issueTitle ++ [10; 10]%N
    ++ js "Task: " ++ template commentBody
  else js "Task: " ++ template (agentActivityBody webhook).

Section Webhook.

Variable prompt : jsstring.
Variable MAX_ITERATIONS : nat.
Variable create : nat -> list Message -> ApiOutcome.
Variable getCoordinates : nat -> jsstring -> Completion jsstring.
Variable getWeather : nat -> Number -> Number -> Completion jsstring.
Variable parseData : jsstring -> jsstring -> jsstring -> Completion Payload.

(** [handleWebhook]; the client made from the token and the key is the
    client of [handleUserPrompt]. *)
Definition handleWebhook (request : Index.Request) (secret : jsstring)
    : M unit :=
  parsedPayload <-
    liftCompletion
      (parseData secret (Index.text request)
         (Index.orString (Index.linearSignature request) [])) ;;
  if negb (string_eqb (type parsedPayload) (js "AgentSessionEvent"))
  then ret tt
  else
    handleUserPrompt prompt MAX_ITERATIONS create getCoordinates getWeather
      (generateUserPrompt parsedPayload) (agentSessionId parsedPayload).

End Webhook.

End ClientIndex.

(** ** [lib/oauth.ts]: the token of a workspace *)

Module OAuth.

(** The token response of Linear, as [OAuthTokenResponse] declares it: the
    fields that the code reads. Numbers of seconds and of milliseconds are
    integers. *)
Record OAuthTokenResponse : Type := {
  access_token : jsstring;
  refresh_token : option jsstring;
  expires_in : Z
}.

(** [StoredTokenData], as the code builds it. *)
Record StoredTokenData : Type := {
  stored_access_token : jsstring;
  stored_refresh_token : option jsstring;
  expires_at : Z
}.

(** What a key of the KV namespace holds: the JSON text of a
    [StoredTokenData], which [JSON.parse] gives back as it was written, or
    another text, which is taken not to be JSON (a token of the earlier
    format). *)
Inductive Stored : Type :=
| Json (tokenData : StoredTokenData)
| Legacy (token : jsstring).

(** The response to a request for a token. *)
Record HttpResponse : Type := {
  ok : bool;
  text : Completion jsstring;
  json : Completion OAuthTokenResponse
}.

(** The world of the module: the KV namespace, the number of operations on
    it, the number of times the clock was read, and the refresh tokens
    sent to Linear, oldest first. *)
Record World : Type := {
  store : jsstring -> option Stored;
  kvOps : nat;
  clockReads : nat;
  requests : list jsstring
}.

Definition OM (A : Type) : Type := World -> Completion A * World.

Definition ret {A} (a : A) : OM A := fun w => (Normal a, w).

Definition bind {A B} (m : OM A) (k : A -> OM B) : OM B :=
  fun w =>
    match m w with
    | (Normal a, w') => k a w'
    | (Throw e, w') => (Throw e, w')
    end.

Definition throw {A} (e : Thrown) : OM A := fun w => (Throw e, w).

Definition tryCatch {A} (body : OM A) (handler : Thrown -> OM A) : OM A :=
  fun w =>
    match body w with
    | (Normal a, w') => (Normal a, w')
    | (Throw e, w') => handler e w'
    end.

Definition liftCompletion {A} (c : Completion A) : OM A := fun w => (c, w).

Declare Scope oauth_scope.
Notation "x <- m ;; k" := (bind m (fun x => k))
  (at level 61, m at next level, right associativity) : oauth_scope.
Notation "m ;; k" := (bind m (fun _ => k))
  (at level 61, right associativity) : oauth_scope.
Local Open Scope oauth_scope.
Local Open Scope Z_scope.

(** [env.WEATHER_BOT_TOKENS]: whether the namespace is bound. *)
Record Env : Type := {
  WEATHER_BOT_TOKENS : bool
}.

Definition OAUTH_TOKEN_KEY_PREFIX : jsstring := js "linear_oauth_token_".

Definition getWorkspaceTokenKey (workspaceId : jsstring) : jsstring :=
  OAUTH_TOKEN_KEY_PREFIX ++ workspaceId.

(** [const bufferTime = 5 * 60 * 1000] *)
Definition bufferTime : Z := 5 * 60 * 1000.

Section Environment.

(** [Date.now()], by the number of earlier readings. *)
Variable now : nat -> Z.

(** Whether an operation on the namespace fails, by the number of earlier
    operations. *)
Variable kvFails : nat -> option Thrown.

(** [fetch("https://api.linear.app/oauth/token", ...)] for a refresh, by
    the number of earlier requests and the refresh token sent. *)
Variable tokenEndpoint : nat -> jsstring -> Completion HttpResponse.

(** What the engine throws for a method call on undefined. *)
Variable typeError : Thrown.

Definition kvGet (key : jsstring) : OM (option Stored) :=
  fun w =>
    let w' := {| store := store w; kvOps := S (kvOps w);
                 clockReads := clockReads w; requests := requests w |} in
    match kvFails (kvOps w) with
    | Some e => (Throw e, w')
    | None => (Normal (store w key), w')
    end.

Definition kvPut (key : jsstring) (value : Stored) : OM unit :=
  fun w =>
    match kvFails (kvOps w) with
    | Some e =>
        (Throw e,
         {| store := store w; kvOps := S (kvOps w);
            clockReads := clockReads w; requests := requests w |})
    | None =>
        (Normal tt,
         {| store := fun k => if string_eqb k key then Some value
                              else store w k;
            kvOps := S (kvOps w);
            clockReads := clockReads w; requests := requests w |})
    end.

Definition dateNow : OM Z :=
  fun w =>
    (Normal (now (clockReads w)),
     {| store := store w; kvOps := kvOps w;
        clockReads := S (clockReads w); requests := requests w |}).

Definition fetchToken (refreshToken : jsstring) : OM HttpResponse :=
  fun w =>
    (tokenEndpoint (List.length (requests w)) refreshToken,
     {| store := store w; kvOps := kvOps w; clockReads := clockReads w;
        requests := requests w ++ [refreshToken] |}).

(** [refreshAccessToken] *)
Definition refreshAccessToken (refreshToken : jsstring)
    : OM OAuthTokenResponse :=
  response <- fetchToken refreshToken ;;
  if negb (ok response) then
    errorText <- liftCompletion (text response) ;;
    throw (Error (js "Token refresh failed: " ++ errorText))
  else liftCompletion (json response).

(** [setOAuthTokenData] *)
Definition setOAuthTokenData (env : Env) (tokenData : StoredTokenData)
    (workspaceId : jsstring) : OM unit :=
  let key := getWorkspaceTokenKey workspaceId in
  if WEATHER_BOT_TOKENS env
  then kvPut key (Json tokenData)
  else throw typeError.

(** [getOAuthToken]; the value is the token, or [None] for null. *)
Definition getOAuthToken (env : Env) (workspaceId : jsstring)
    : OM (option jsstring) :=
  if negb (WEATHER_BOT_TOKENS env) then ret None
  else
    tryCatch
      (let key := getWorkspaceTokenKey workspaceId in
       storedData <- kvGet key ;;
       match storedData with
       | None => ret None
       | Some (Legacy _) => ret None
       | Some (Json tokenData) =>
           current <- dateNow ;;
           let isExpired := current >=? expires_at tokenData - bufferTime in
           if negb isExpired then ret (Some (stored_access_token tokenData))
           else if isFalsy (stored_refresh_token tokenData) then ret None
           else
             tryCatch
               (refreshedTokenData <-
                  refreshAccessToken
                    (stringOf (stored_refresh_token tokenData)) ;;
                current' <- dateNow ;;
                let newStoredTokenData :=
                  {| stored_access_token := access_token refreshedTokenData;
                     stored_refresh_token :=
                       refresh_token refreshedTokenData;
                     expires_at :=
                       current' + expires_in refreshedTokenData * 1000 |} in
                setOAuthTokenData env newStoredTokenData workspaceId ;;
                ret (Some (stored_access_token newStoredTokenData)))
               (fun refreshError => ret None)
       end)
      (fun error => ret None).

(** [hasOAuthToken] *)
Definition hasOAuthToken (env : Env) (workspaceId : jsstring) : OM bool :=
  token <- getOAuthToken env workspaceId ;;
  ret (match token with Some _ => true | None => false end).

End Environment.

End OAuth.

(** ** [index.ts] that answers before the run *)

Module AsyncIndex.

(** The fields of [Env] that [fetch] reads; a secret that is not set is
    undefined. *)
Record Env : Type := {
  LINEAR_WEBHOOK_SECRET : option jsstring;
  OPENAI_API_KEY : option jsstring;
  WEATHER_BOT_TOKENS : bool
}.

(** What [fetch] reads of a parsed payload. *)
Record Payload : Type := {
  type : jsstring;
  organizationId : jsstring
}.

(** A call [this.handleWebhook(webhook, token, openaiApiKey)] handed to
    [ctx.waitUntil]. *)
Record Task : Type := {
  webhook : Payload;
  linearAccessToken : jsstring;
  openaiApiKey : jsstring
}.

(** The world of the token store, and the tasks that the execution context
    holds, oldest first. *)
Definition State : Type := (OAuth.World * list Task)%type.

Definition FM (A : Type) : Type := State -> Completion A * State.

Definition ret {A} (a : A) : FM A := fun st => (Normal a, st).

Definition bind {A B} (m : FM A) (k : A -> FM B) : FM B :=
  fun st =>
    match m st with
    | (Normal a, st') => k a st'
    | (Throw e, st') => (Throw e, st')
    end.

Definition tryCatch {A} (body : FM A) (handler : Thrown -> FM A) : FM A :=
  fun st =>
    match body st with
    | (Normal a, st') => (Normal a, st')
    | (Throw e, st') => handler e st'
    end.

Definition liftCompletion {A} (c : Completion A) : FM A :=
  fun st => (c, st).

(** Code of [lib/oauth.ts]. *)
Definition lift {A} (m : OAuth.OM A) : FM A :=
  fun st =>
    match m (fst st) with
    | (c, w') => (c, (w', snd st))
    end.

(** [ctx.waitUntil(...)] *)
Definition waitUntil (task : Task) : FM unit :=
  fun st => (Normal tt, (fst st, snd st ++ [task])).

Declare Scope fetch_scope.
Notation "x <- m ;; k" := (bind m (fun x => k))
  (at level 61, m at next level, right associativity) : fetch_scope.
Notation "m ;; k" := (bind m (fun _ => k))
  (at level 61, right associativity) : fetch_scope.
Local Open Scope fetch_scope.

Section Routes.

Variable now : nat -> Z.
Variable kvFails : nat -> option Thrown.
Variable tokenEndpoint : nat -> jsstring -> Completion OAuth.HttpResponse.
Variable typeError : Thrown.

(** [linearWebhooks.parseData(payloadBuffer, linearSignature)], for the
    secret the object was made with. *)
Variable parseData : jsstring -> jsstring -> jsstring -> Completion Payload.

(** The two OAuth routes, which are not modelled; the callback may write
    to the token store. *)
Variable handleOAuthAuthorize : Index.Request -> Env -> Index.Response.
Variable handleOAuthCallback :
  Index.Request -> Env -> OAuth.OM Index.Response.

(** [fetch] *)
Definition fetch (request : Index.Request) (env : Env) : FM Index.Response :=
  if string_eqb (Index.pathname request) (js "/") then ret Index.hello
  else if string_eqb (Index.pathname request) (js "/oauth/authorize")
  then ret (handleOAuthAuthorize request env)
  else if string_eqb (Index.pathname request) (js "/oauth/callback")
  then lift (handleOAuthCallback request env)
  else if string_eqb (Index.pathname request) (js "/webhook")
          && string_eqb (Index.method request) (js "POST")
  then
    if isFalsy (LINEAR_WEBHOOK_SECRET env)
    then ret (Index.plain (js "Webhook secret not configured") 500)
    else if isFalsy (OPENAI_API_KEY env)
    then ret (Index.plain (js "OpenAI API key not configured") 500)
    else
      tryCatch
        (let linearSignature :=
           Index.orString (Index.linearSignature request) [] in
         parsedPayload <-
           liftCompletion
             (parseData (stringOf (LINEAR_WEBHOOK_SECRET env))
                (Index.text request) linearSignature) ;;
         if negb (string_eqb (type parsedPayload) (js "AgentSessionEvent"))
         then ret (Index.plain (js "Webhook received") 200)
         else
           token <-
             lift (OAuth.getOAuthToken now kvFails tokenEndpoint typeError
                     {| OAuth.WEATHER_BOT_TOKENS := WEATHER_BOT_TOKENS env |}
                     (organizationId parsedPayload)) ;;
           if isFalsy token
           then ret (Index.plain (js "Linear OAuth token not found") 500)
           else
             waitUntil
               {| webhook := parsedPayload;
                  linearAccessToken := stringOf token;
                  openaiApiKey := stringOf (OPENAI_API_KEY env) |} ;;
             ret (Index.plain (js "Webhook handled") 200))
        (fun error => ret (Index.plain (js "Error handling webhook") 500))
  else ret (Index.plain (js "OK") 200).

End Routes.

End AsyncIndex.

(** ** [tools.ts]: the three tools *)

Module Tools.

(** What a tool hands to [fetch]: the URL, the headers it sets, and the
    abort controller whose signal it passes, if it passes one. *)
Record Request : Type := {
  url : jsstring;
  headers : list (jsstring * jsstring);
  signal : option nat
}.

(** What a tool reads of the response: [ok], [status], [statusText] and
    [json()], whose value has the type that the cast at the call site
    declares, or is thrown when the body is not JSON. *)
Record Response (A : Type) : Type := {
  ok : bool;
  status : Number;
  statusText : jsstring;
  json : Completion A
}.

Arguments ok {A} _.
Arguments status {A} _.
Arguments statusText {A} _.
Arguments json {A} _.

(** An entry of the answer of OpenStreetMap. *)
Record Place : Type := {
  lat : jsstring;
  lon : jsstring;
  display_name : jsstring
}.

(** The answer of Open-Meteo; [current] may be missing. *)
Record Current : Type := {
  temperature_2m : Number;
  weathercode : Number
}.

Record Forecast : Type := { current : option Current }.

(** The answer of timeapi.io. *)
Record TimeData : Type := {
  date : jsstring;
  time : jsstring;
  timeZone : jsstring;
  dayOfWeek : jsstring;
  dstActive : bool
}.

(** What [getCoordinates] returns: [{ lat, lon, displayName }] or
    [{ error }]. *)
Inductive Coordinates : Type :=
| Found (latitude longitude : Number) (displayName : jsstring)
| NotFound (error : jsstring).

(** [{ lat, long }]; the field [lat] is [latitude] here, [lat] being the
    field of [Place]. *)
Record Position : Type := { latitude : Number; long : Number }.

(** A timer that [setTimeout] has set and nothing has cleared: its id, its
    delay in milliseconds, and the controller that its callback aborts. *)
Record Timer : Type := {
  timeoutId : nat;
  delay : N;
  aborts : nat
}.

(** The world of the tools: the requests made, oldest first, the timers
    that are pending, and how many timers and controllers were made. *)
Record World : Type := {
  requests : list Request;
  timers : list Timer;
  timersSet : nat;
  controllers : nat
}.

Definition TM (A : Type) : Type := World -> Completion A * World.

Definition ret {A} (a : A) : TM A := fun w => (Normal a, w).

Definition bind {A B} (m : TM A) (k : A -> TM B) : TM B :=
  fun w =>
    match m w with
    | (Normal a, w') => k a w'
    | (Throw e, w') => (Throw e, w')
    end.

Definition tryCatch {A} (body : TM A) (handler : Thrown -> TM A) : TM A :=
  fun w =>
    match body w with
    | (Normal a, w') => (Normal a, w')
    | (Throw e, w') => handler e w'
    end.

Definition liftCompletion {A} (c : Completion A) : TM A := fun w => (c, w).

Declare Scope tools_scope.
Notation "x <- m ;; k" := (bind m (fun x => k))
  (at level 61, m at next level, right associativity) : tools_scope.
Notation "m ;; k" := (bind m (fun _ => k))
  (at level 61, right associativity) : tools_scope.
Local Open Scope tools_scope.

(** [new AbortController()] *)
Definition newAbortController : TM nat :=
  fun w =>
    (Normal (controllers w),
     {| requests := requests w; timers := timers w;
        timersSet := timersSet w; controllers := S (controllers w) |}).

(** [setTimeout(() => controller.abort(), delay)] *)
Definition setTimeout (controller : nat) (delay : N) : TM nat :=
  fun w =>
    (Normal (timersSet w),
     {| requests := requests w;
        timers := timers w
                  ++ [ {| timeoutId := timersSet w; delay := delay;
                          aborts := controller |} ];
        timersSet := S (timersSet w); controllers := controllers w |}).

(** [clearTimeout(id)] *)
Definition clearTimeout (id : nat) : TM unit :=
  fun w =>
    (Normal tt,
     {| requests := requests w;
        timers := filter (fun t => negb (Nat.eqb (timeoutId t) id))
                    (timers w);
        timersSet := timersSet w; controllers := controllers w |}).

(** The table [weatherCodes]. *)
Definition weatherCodes : list (N * jsstring) :=
  [ (0, js "clear sky"); (1, js "mainly clear"); (2, js "partly cloudy");
    (3, js "overcast"); (45, js "fog"); (48, js "depositing rime fog");
    (51, js "light drizzle"); (53, js "moderate drizzle");
    (55, js "dense drizzle"); (56, js "light freezing drizzle");
    (57, js "dense freezing drizzle"); (61, js "slight rain");
    (63, js "moderate rain"); (65, js "heavy rain");
    (66, js "light freezing rain"); (67, js "heavy freezing rain");
    (71, js "slight snow"); (73, js "moderate snow"); (75, js "heavy snow");
    (77, js "snow grains"); (80, js "slight rain showers");
    (81, js "moderate rain showers"); (82, js "violent rain showers");
    (85, js "slight snow showers"); (86, js "heavy snow showers");
    (95, js "thunderstorm"); (96, js "thunderstorm with slight hail");
    (99, js "thunderstorm with heavy hail") ]%N.

(** The natural number that a Number is, if it is one. The keys of
    [weatherCodes] are natural numbers below 100, which render as their
    decimal digits: [weatherCodes[code]] is the entry whose key has the
    value of [code]. *)
Definition naturalOf (code : Number) : option N :=
  match code with
  | Decimal negative digits exp10 =>
      if N.eqb digits 0 then Some 0%N
      else if negative then None
      else match exp10 with
           | Z0 => Some digits
           | Zpos e => Some (digits * 10 ^ Npos e)%N
           | Zneg e =>
               if N.eqb (digits mod 10 ^ Npos e) 0
               then Some (digits / 10 ^ Npos e)%N
               else None
           end
  | _ => None
  end.

(** [getWeatherDescription]: [weatherCodes[code] || "unknown weather"];
    no description of the table is empty. *)
Definition getWeatherDescription (code : Number) : jsstring :=
  match naturalOf code with
  | Some key =>
      match find (fun entry => N.eqb (fst entry) key) weatherCodes with
      | Some entry => snd entry
      | None => js "unknown weather"
      end
  | None => js "unknown weather"
  end.

Section Upstream.

(** [fetch], by the upstream it is called for, with the number of earlier
    requests: it resolves with a response, or rejects (the network fails,
    or the signal aborts the request). *)
Variable fetchPlaces :
  nat -> Request -> Completion (Response (option (list Place))).
Variable fetchForecast :
  nat -> Request -> Completion (Response (option Forecast)).
Variable fetchTime :
  nat -> Request -> Completion (Response (option TimeData)).

(** [encodeURIComponent], which throws on a lone surrogate, and the
    rendering of a Number in a template literal; neither is modelled. *)
Variable encodeURIComponent : jsstring -> Completion jsstring.
Variable numberToString : Number -> jsstring.

Definition recordRequest (request : Request) : TM unit :=
  fun w =>
    (Normal tt,
     {| requests := requests w ++ [request]; timers := timers w;
        timersSet := timersSet w; controllers := controllers w |}).

Definition fetchWith {A} (upstream : nat -> Request -> Completion A)
    (request : Request) : TM A :=
  fun w =>
    let outcome := upstream (List.length (requests w)) request in
    bind (recordRequest request) (fun _ => liftCompletion outcome) w.

(** The request of [getCoordinates]. *)
Definition placesRequest (encoded : jsstring) : Request :=
  {| url := js "https://nominatim.openstreetmap.org/search?q=" ++ encoded
            ++ js "&format=jsonv2";
     headers :=
       [ (js "User-Agent",
          js "Linear-Demo-Agent/1.0 (https://demo-agent.linear.dev)");
         (js "Accept", js "application/json") ];
     signal := None |}.

(** [getCoordinates] *)
Definition getCoordinates (city_name : jsstring) : TM Coordinates :=
  tryCatch
    (encoded <- liftCompletion (encodeURIComponent city_name) ;;
     response <- fetchWith fetchPlaces (placesRequest encoded) ;;
     if negb (ok response) then
       ret (NotFound (js "OpenStreetMap API error: "
                      ++ numberToString (status response) ++ js " "
                      ++ statusText response))
     else
       data <- liftCompletion (json response) ;;
       match data with
       | Some (result :: _) =>
           ret (Found (parseFloat (lat result)) (parseFloat (lon result))
                  (display_name result))
       | _ => ret (NotFound (js "Location not found"))
       end)
    (fun error =>
       ret (NotFound (js "Failed to get coordinates: " ++ messageOf error))).

(** The request of [getWeather]. *)
Definition forecastRequest (params : Position) : Request :=
  {| url := js "https://api.open-meteo.com/v1/forecast?latitude="
            ++ numberToString (latitude params) ++ js "&longitude="
            ++ numberToString (long params)
            ++ js "&current=temperature_2m,weathercode";
     headers := [];
     signal := None |}.

(** The degree sign as the source text holds it: U+00C2 U+00B0. *)
Definition degrees : jsstring := [194; 176]%N.

(** [getWeather]; the status of the response is not read. *)
Definition getWeather (params : Position) : TM jsstring :=
  tryCatch
    (response <- fetchWith fetchForecast (forecastRequest params) ;;
     data <- liftCompletion (json response) ;;
     match data with
     | Some {| current := Some current |} =>
         let weatherDescription :=
           getWeatherDescription (weathercode current) in
         ret (numberToString (temperature_2m current) ++ degrees
              ++ js "C, " ++ weatherDescription)
     | _ => ret (js "Weather data not available")
     end)
    (fun error => ret (js "Failed to get weather: " ++ messageOf error)).

(** The request of [getTime]. *)
Definition timeRequest (params : Position) (controller : nat) : Request :=
  {| url := js "https://timeapi.io/api/Time/current/coordinate?latitude="
            ++ numberToString (latitude params) ++ js "&longitude="
            ++ numberToString (long params);
     headers := [];
     signal := Some controller |}.

(** [getTime]; when [fetch] rejects, [clearTimeout] is not reached. *)
Definition getTime (params : Position) : TM jsstring :=
  tryCatch
    (controller <- newAbortController ;;
     timeoutId <- setTimeout controller 60000%N ;;
     response <- fetchWith fetchTime (timeRequest params controller) ;;
     clearTimeout timeoutId ;;
     if negb (ok response) then
       ret (js "Time API error: " ++ numberToString (status response)
            ++ js " " ++ statusText response)
     else
       data <- liftCompletion (json response) ;;
       match data with
       | Some data =>
           let dstStatus :=
             if dstActive data then js " (DST active)" else [] in
           ret (dayOfWeek data ++ js ", " ++ date data ++ js " at "
                ++ time data ++ js " " ++ timeZone data ++ dstStatus)
       | None => ret (js "Time data not available")
       end)
    (fun error => ret (js "Failed to get time: " ++ messageOf error)).

End Upstream.

End Tools.

(** * Vocabulary of the statements *)

(** What stops a run: the end of the string, or a code unit outside the
    class. *)
Definition stopsAt (f : char -> bool) (r : jsstring) : Prop :=
  match r with
  | [] => True
  | c :: _ => f c = false
  end.

(** What it means for [/ACTION:\s*(\w+)\(([^)]+)\)/] to match at the start
    of [s] with captures [name] and [params]. *)
Definition MatchesAt (s name params : jsstring) : Prop :=
  exists ws rest,
    s = js "ACTION:" ++ ws ++ name ++ openParen :: params
                     ++ closeParen :: rest
    /\ forallb isSpace ws = true
    /\ name <> [] /\ forallb isWord name = true
    /\ params <> [] /\ forallb notCloseParen params = true.

(** The [body] of a content that has one. *)
Definition bodyOf (c : Content) : option jsstring :=
  match c with
  | ThoughtContent body | ResponseContent body
  | ElicitationContent body | ErrorContent body => Some body
  | ActionContent _ _ _ => None
  end.

Definition activityTypes (l : list AgentActivityCreateInput)
    : list L.AgentActivityType :=
  List.map (fun a => typeOf (activityContent a)) l.

(** What [callOpenAI] completes with, given what [create] did. *)
Definition replyOf (outcome : ApiOutcome) : Completion jsstring :=
  match outcome with
  | ApiResolves (Some (c :: rest)) => Normal (c :: rest)
  | ApiResolves _ => Normal (js "No response")
  | ApiThrows error =>
      Throw (Error (js "OpenAI API error: " ++ messageOf error))
  end.

(** The session with more tool calls on record. *)
Definition withToolCalls (s : Session) (calls : list ToolCall) : Session :=
  {| messages := messages s; taskComplete := taskComplete s;
     iterations := iterations s; activities := activities s;
     modelCalls := modelCalls s; toolCalls := toolCalls s ++ calls |}.

(** The tool that a call reached, and what the call completed with. *)
Definition toolOf (call : ToolCall) : ToolName :=
  match call with
  | CallGetCoordinates _ => js "getCoordinates"
  | CallGetWeather _ _ => js "getWeather"
  end.

Definition outcomeOf
    (getCoordinates : nat -> jsstring -> Completion jsstring)
    (getWeather : nat -> Number -> Number -> Completion jsstring)
    (n : nat) (call : ToolCall) : Completion jsstring :=
  match call with
  | CallGetCoordinates city_name => getCoordinates n city_name
  | CallGetWeather first second => getWeather n first second
  end.

(** The start of a numeral: [Infinity], a digit, or a dot and a digit. *)
Definition numeralStart (t : jsstring) : bool :=
  startsWith t (js "Infinity")
  || match t with
     | c :: t' =>
         isDigit c
         || (N.eqb c 46
             && match t' with
                | d :: _ => isDigit d
                | [] => false
                end)
     | [] => false
     end.

(** A text begins with a number when, after its leading white space and an
    optional sign, a numeral starts. What follows the numeral is free:
    ["12abc"] begins with a number, ["abc"] and ["-"] do not. *)
Definition beginsWithNumber (field : jsstring) : bool :=
  numeralStart (snd (readSign (trimStart field))).

(** A parameter of getWeather is valid when it has two comma-separated
    fields at least and the first two begin with a number. *)
Definition validWeatherParameter (parameter : jsstring) : bool :=
  match split comma parameter with
  | a :: b :: _ => beginsWithNumber a && beginsWithNumber b
  | _ => false
  end.

(** A valid parameter of a tool: for getWeather as above; for
    getCoordinates every parameter that is not empty. *)
Definition validParameter (action : ToolName) (parameter : jsstring) : bool :=
  if string_eqb action (js "getWeather")
  then validWeatherParameter parameter
  else true.

(** The session at the end of a cycle that published [published], pushed
    [pushed] on the transcript, and left [taskComplete] at [done]. *)
Definition cycleEnd (s : Session) (pushed : list Message)
    (published : list Content) (sessionId : jsstring) (done : bool)
    (calls : list ToolCall) : Session :=
  {| messages := messages s ++ pushed;
     taskComplete := done;
     iterations := S (iterations s);
     activities :=
       activities s
       ++ List.map (fun c => {| agentSessionId := sessionId;
                                activityContent := c |}) published;
     modelCalls := modelCalls s ++ [messages s];
     toolCalls := toolCalls s ++ calls |}.

(** A model that always answers with a THINKING: text. *)
Definition alwaysThinking (create : nat -> list Message -> ApiOutcome)
    : Prop :=
  forall n transcript,
    exists r, create n transcript = ApiResolves (Some r)
              /\ startsWith r (js "THINKING:") = true.

(** ** Environments for the examples *)

Module Examples.

Definition prompt : jsstring :=
  js "You're a helpful weather assistant that can get weather information for any city.".

Definition userPrompt : jsstring := js "Task: What's the weather in Paris?".

Definition sessionId : jsstring := js "session-1".

(** The value the class gives [MAX_ITERATIONS]. *)
Definition MAX_ITERATIONS : nat := 10.

(** A model that only ever thinks. *)
Definition thinkingModel (n : nat) (transcript : list Message)
    : ApiOutcome :=
  ApiResolves (Some (js "THINKING: I need the coordinates of Paris first")).

(** A model that answers without any keyword. *)
Definition chattyModel (n : nat) (transcript : list Message) : ApiOutcome :=
  ApiResolves (Some (js "The weather in Paris is sunny")).

(** A model that asks for the weather at a latitude that is not a number,
    and would give a final response if it were called again. *)
Definition badLatitudeModel (n : nat) (transcript : list Message)
    : ApiOutcome :=
  match n with
  | O => ApiResolves (Some (js "ACTION: getWeather(abc, -74.0)"))
  | S _ => ApiResolves (Some (js "RESPONSE: I could not read the latitude"))
  end.

(** A model that asks for the weather at 40.0, -74.0 and then responds. *)
Definition weatherModel (n : nat) (transcript : list Message)
    : ApiOutcome :=
  match n with
  | O => ApiResolves (Some (js "ACTION: getWeather(40.0, -74.0)"))
  | S _ => ApiResolves (Some (js "RESPONSE: It is 22 degrees and sunny"))
  end.

Definition getCoordinates (n : nat) (city_name : jsstring)
    : Completion jsstring :=
  Normal (js "{}").

Definition getWeather (n : nat) (first second : Number)
    : Completion jsstring :=
  Normal (js "22 degrees, clear sky").

(** A model that asks for the time and would respond if it were called
    again. *)
Definition timeModel (n : nat) (transcript : list Message) : ApiOutcome :=
  match n with
  | O => ApiResolves (Some (js "ACTION: getTime(40.7128, -74.0060)"))
  | S _ => ApiResolves (Some (js "RESPONSE: The current time is 10:00 AM"))
  end.

(** The conversation of the prompt's examples: a thought, the coordinates
    of Paris, the weather there, and the response. *)
Definition parisModel (n : nat) (transcript : list Message) : ApiOutcome :=
  match n with
  | 0 => ApiResolves (Some (js "THINKING: The user wants the weather in Paris"))
  | 1 => ApiResolves
           (Some (js "ACTION: getCoordinates(" ++ [doubleQuote]
                  ++ js "Paris" ++ [doubleQuote] ++ js ")"))
  | 2 => ApiResolves (Some (js "ACTION: getWeather(48.85, 2.35)"))
  | _ => ApiResolves (Some (js "RESPONSE: The weather in Paris is sunny"))
  end.

(** The session when the loop of a turn is about to start. *)
Definition turnStart : Session :=
  snd (startTurn prompt userPrompt freshSession).

End Examples.

(** * Vocabulary of the further statements *)

(** The activity types that end a turn. *)
Definition terminalType (t : L.AgentActivityType) : bool :=
  match t with
  | L.Response | L.Elicitation | L.Error => true
  | L.Thought | L.Action => false
  end.

Definition terminal (c : Content) : bool := terminalType (typeOf c).

(** Each transcript of the list is the one before it with at least one
    message more. *)
Fixpoint strictlyGrowing (calls : list (list Message)) : Prop :=
  match calls with
  | [] => True
  | t1 :: rest =>
      match rest with
      | [] => True
      | t2 :: _ => (exists ext, ext <> [] /\ t2 = t1 ++ ext)
      end /\ strictlyGrowing rest
  end.

(** The transcript that opens a turn. *)
Definition openingTranscript (prompt userPrompt : jsstring) : list Message :=
  [ {| role := system; content := prompt |};
    {| role := user; content := userPrompt |} ].

Definition nonSystem (m : Message) : bool :=
  match role m with
  | system => false
  | _ => true
  end.

(** The contents [l], as activities of the session [sessionId]. *)
Definition publishedAs (sessionId : jsstring) (l : list Content)
    : list AgentActivityCreateInput :=
  List.map (fun c => {| agentSessionId := sessionId;
                        activityContent := c |}) l.

(** ** More environments for the examples *)

Module MoreExamples.

(** A model whose call fails. *)
Definition failingModel (n : nat) (transcript : list Message) : ApiOutcome :=
  ApiThrows (ErrorObject (js "429 rate limit exceeded")).

(** A model that returns no content. *)
Definition silentModel (n : nat) (transcript : list Message) : ApiOutcome :=
  ApiResolves None.

(** A model that asks the user a question. *)
Definition askingModel (n : nat) (transcript : list Message) : ApiOutcome :=
  ApiResolves (Some (js "ELICITATION: Which city would you like?")).

End MoreExamples.

(** ** Environments for the examples of [runAgentMode] *)

Module WorkerExamples.

(** A model that asks for a tool without arguments. *)
Definition malformedModel (n : nat) (transcript : list Message)
    : ApiOutcome :=
  ApiResolves (Some (js "ACTION: getWeather")).

(** A model that asks for a tool that does not exist. *)
Definition unknownToolModel (n : nat) (transcript : list Message)
    : ApiOutcome :=
  ApiResolves (Some (js "ACTION: getForecast(Paris)")).

(** The state in which the loop of [runAgentMode] starts. *)
Definition runStart : RunAgentMode.State := (Examples.turnStart, []).

End WorkerExamples.

(** ** Environments for the examples of [index.ts] *)

Module IndexExamples.

(** A signed webhook of an agent session. *)
Definition sessionEvent : Index.Payload :=
  {| Index.type := js "AgentSessionEvent";
     Index.agentActivityBody := None;
     Index.commentBody := Some (js "What is the weather in Paris?");
     Index.agentSessionId := Examples.sessionId |}.

(** The SDK accepts the signature "good" and no other. *)
Definition parseData (secret text signature : jsstring)
    : Completion Index.Payload :=
  if string_eqb signature (js "good")
  then Normal sessionEvent
  else Throw (ErrorObject (js "Invalid webhook signature")).

Definition handleOAuthAuthorize (request : Index.Request) (env : Index.Env)
    : Index.Response :=
  {| Index.body := None; Index.status := 302;
     Index.headers :=
       [(js "Location", js "https://linear.app/oauth/authorize")] |}.

Definition handleOAuthCallback (request : Index.Request) (env : Index.Env)
    : Completion Index.Response :=
  Normal (Index.plain (js "Missing required OAuth parameters") 400).

Definition env : Index.Env :=
  {| Index.LINEAR_WEBHOOK_SECRET := js "secret";
     Index.WEATHER_BOT_TOKENS :=
       Some (fun key => if string_eqb key (js "linear_oauth_token")
                        then Some (js "lin_oauth_token") else None) |}.

Definition signedWebhook : Index.Request :=
  {| Index.pathname := js "/webhook"; Index.method := js "POST";
     Index.text := js "{}"; Index.linearSignature := Some (js "good") |}.

Definition forgedWebhook : Index.Request :=
  {| Index.pathname := js "/webhook"; Index.method := js "POST";
     Index.text := js "{}"; Index.linearSignature := None |}.

End IndexExamples.

(** ** Environments for the examples of [lib/oauth.ts] *)

Module OAuthExamples.

Definition env : OAuth.Env := {| OAuth.WEATHER_BOT_TOKENS := true |}.

(** A clock that advances by a millisecond at every reading. *)
Definition now (n : nat) : Z := 1000000 + Z.of_nat n.

Definition kvFails (n : nat) : option Thrown := None.

Definition granted : OAuth.OAuthTokenResponse :=
  {| OAuth.access_token := js "new-token";
     OAuth.refresh_token := Some (js "new-refresh");
     OAuth.expires_in := 3600 |}.

(** Linear grants every refresh. *)
Definition tokenEndpoint (n : nat) (refreshToken : jsstring)
    : Completion OAuth.HttpResponse :=
  Normal {| OAuth.ok := true; OAuth.text := Normal [];
            OAuth.json := Normal granted |}.

(** Linear refuses every refresh. *)
Definition refusingEndpoint (n : nat) (refreshToken : jsstring)
    : Completion OAuth.HttpResponse :=
  Normal {| OAuth.ok := false; OAuth.text := Normal (js "invalid_grant");
            OAuth.json := Normal granted |}.

Definition typeError : Thrown :=
  ErrorObject (js "Cannot read properties of undefined").

(** A token that expires long after the clock of the examples. *)
Definition freshToken : OAuth.StoredTokenData :=
  {| OAuth.stored_access_token := js "token";
     OAuth.stored_refresh_token := Some (js "refresh");
     OAuth.expires_at := 5000000 |}.

(** A token that expires in less than five minutes. *)
Definition staleToken : OAuth.StoredTokenData :=
  {| OAuth.stored_access_token := js "token";
     OAuth.stored_refresh_token := Some (js "refresh");
     OAuth.expires_at := 1200000 |}.

Definition emptyWorld : OAuth.World :=
  {| OAuth.store := fun _ => None; OAuth.kvOps := 0;
     OAuth.clockReads := 0; OAuth.requests := [] |}.

Definition staleWorld : OAuth.World :=
  {| OAuth.store :=
       fun key => if string_eqb key (js "linear_oauth_token_acme")
                  then Some (OAuth.Json staleToken) else None;
     OAuth.kvOps := 0; OAuth.clockReads := 0; OAuth.requests := [] |}.

End OAuthExamples.

(** ** Environments for the examples of the webhook of the client *)

Module ClientIndexExamples.

(** A session created from an issue without a comment. *)
Definition created : ClientIndex.Payload :=
  {| ClientIndex.type := js "AgentSessionEvent";
     ClientIndex.action := js "created";
     ClientIndex.issueTitle := Some (js "Weather in Paris");
     ClientIndex.commentBody := None;
     ClientIndex.agentActivityBody := None;
     ClientIndex.agentSessionId := Examples.sessionId |}.

Definition parseData (secret text signature : jsstring)
    : Completion ClientIndex.Payload :=
  if string_eqb signature (js "good")
  then Normal created
  else Throw (ErrorObject (js "Invalid webhook signature")).

End ClientIndexExamples.

(** ** Environments for the examples of the later [index.ts] *)

Module AsyncIndexExamples.

Definition env : AsyncIndex.Env :=
  {| AsyncIndex.LINEAR_WEBHOOK_SECRET := Some (js "secret");
     AsyncIndex.OPENAI_API_KEY := Some (js "sk-key");
     AsyncIndex.WEATHER_BOT_TOKENS := true |}.

(** A signed webhook of the workspace acme. *)
Definition sessionEvent : AsyncIndex.Payload :=
  {| AsyncIndex.type := js "AgentSessionEvent";
     AsyncIndex.organizationId := js "acme" |}.

Definition parseData (secret text signature : jsstring)
    : Completion AsyncIndex.Payload :=
  if string_eqb signature (js "good")
  then Normal sessionEvent
  else Throw (ErrorObject (js "Invalid webhook signature")).

Definition handleOAuthAuthorize (request : Index.Request)
    (env : AsyncIndex.Env) : Index.Response :=
  {| Index.body := None; Index.status := 302;
     Index.headers :=
       [(js "Location", js "https://linear.app/oauth/authorize")] |}.

Definition handleOAuthCallback (request : Index.Request)
    (env : AsyncIndex.Env) : OAuth.OM Index.Response :=
  OAuth.ret (Index.plain (js "Missing required OAuth parameters") 400).

(** The token of acme is stale and nothing is scheduled. *)
Definition start : AsyncIndex.State := (OAuthExamples.staleWorld, []).

End AsyncIndexExamples.

(** ** Environments for the examples of [tools.ts] *)

Module ToolsExamples.

Definition encodeURIComponent (text : jsstring) : Completion jsstring :=
  Normal text.

(** The rendering of the numbers of the examples. *)
Definition numberToString (x : Number) : jsstring :=
  match x with
  | Decimal false 22 0 => js "22"
  | Decimal false 500 0 => js "500"
  | Decimal false 503 0 => js "503"
  | Decimal false 40 0 => js "40"
  | Decimal true 74 0 => js "-74"
  | _ => js "NaN"
  end.

Definition newYork : Tools.Position :=
  {| Tools.latitude := Decimal false 40 0;
     Tools.long := Decimal true 74 0 |}.

(** The network is down. *)
Definition unreachable {A} (n : nat) (request : Tools.Request)
    : Completion (Tools.Response A) :=
  Throw (ErrorObject (js "fetch failed")).

(** The request is aborted. *)
Definition aborted {A} (n : nat) (request : Tools.Request)
    : Completion (Tools.Response A) :=
  Throw (ErrorObject (js "The operation was aborted")).

(** The upstream answers 503, with a body that is not JSON. *)
Definition unavailable {A} (n : nat) (request : Tools.Request)
    : Completion (Tools.Response A) :=
  Normal {| Tools.ok := false; Tools.status := Decimal false 503 0;
            Tools.statusText := js "Service Unavailable";
            Tools.json :=
              Throw (ErrorObject (js "Unexpected token < in JSON")) |}.

(** Open-Meteo answers 500, and the body holds current data all the
    same. *)
Definition failingForecast (n : nat) (request : Tools.Request)
    : Completion (Tools.Response (option Tools.Forecast)) :=
  Normal {| Tools.ok := false; Tools.status := Decimal false 500 0;
            Tools.statusText := js "Internal Server Error";
            Tools.json :=
              Normal (Some {| Tools.current :=
                                Some {| Tools.temperature_2m :=
                                          Decimal false 22 0;
                                        Tools.weathercode :=
                                          Decimal false 0 0 |} |}) |}.

Definition start : Tools.World :=
  {| Tools.requests := []; Tools.timers := []; Tools.timersSet := 0;
     Tools.controllers := 0 |}.

End ToolsExamples.

(** * Properties *)

(** ** Strings *)

Lemma char_eqb_eq (a b : char) : char_eqb a b = true <-> a = b.
Proof. apply N.eqb_eq. Qed.

Lemma char_eqb_refl (a : char) : char_eqb a a = true.
Proof. apply N.eqb_refl. Qed.

Lemma string_eqb_eq (a b : jsstring) : string_eqb a b = true <-> a = b.
Proof.
  revert b; induction a as [|x a IH]; intros [|y b]; simpl;
    try (split; [discriminate | discriminate]); try tauto.
  rewrite andb_true_iff, char_eqb_eq, IH.
  split; [intros [-> ->]; reflexivity | intros H; inversion H; auto].
Qed.

Lemma startsWith_app (p r : jsstring) : startsWith (p ++ r) p = true.
Proof.
  induction p as [|c p IH]; simpl; [reflexivity|].
  rewrite char_eqb_refl; exact IH.
Qed.

Lemma startsWith_inv (s p : jsstring) :
  startsWith s p = true -> s = p ++ skipn (List.length p) s.
Proof.
  revert s; induction p as [|c p IH]; intros s H; simpl in *.
  - reflexivity.
  - destruct s as [|d s]; [discriminate|].
    apply andb_true_iff in H; destruct H as [Hc Hs].
    apply char_eqb_eq in Hc; subst d.
    simpl; f_equal; apply IH; exact Hs.
Qed.

(** When the pattern is a prefix, its first occurrence is that prefix. *)
Lemma replace_prefix (s p : jsstring) :
  startsWith s p = true -> replace s p [] = skipn (List.length p) s.
Proof.
  intros H; destruct s; simpl; rewrite H; reflexivity.
Qed.

Lemma dropWhile_app (f : char -> bool) (a r : jsstring) :
  forallb f a = true -> dropWhile f (a ++ r) = dropWhile f r.
Proof.
  induction a as [|c a IH]; simpl; intros H; [reflexivity|].
  apply andb_true_iff in H; destruct H as [Hc Ha].
  rewrite Hc; auto.
Qed.

Lemma dropWhile_stop (f : char -> bool) (r : jsstring) :
  stopsAt f r -> dropWhile f r = r.
Proof. destruct r; simpl; intros H; [reflexivity | rewrite H; reflexivity]. Qed.

Lemma dropWhile_spec (f : char -> bool) (s : jsstring) :
  exists a, s = a ++ dropWhile f s /\ forallb f a = true
            /\ stopsAt f (dropWhile f s).
Proof.
  induction s as [|c s (a & E & Ha & Hs)]; simpl.
  - exists []; simpl; auto.
  - destruct (f c) eqn:Hc.
    + exists (c :: a); simpl; rewrite Hc, Ha; repeat split; auto.
      f_equal; exact E.
    + exists []; simpl; auto.
Qed.

Lemma dropWhile_stops (f : char -> bool) (s : jsstring) :
  stopsAt f (dropWhile f s).
Proof.
  induction s as [|c s IH]; simpl; [exact I|].
  destruct (f c) eqn:Hc; [exact IH | simpl; exact Hc].
Qed.

Lemma dropWhile_idempotent (f : char -> bool) (s : jsstring) :
  dropWhile f (dropWhile f s) = dropWhile f s.
Proof. apply dropWhile_stop, dropWhile_stops. Qed.

(** [trimEnd] cuts a run of white space off the end. *)
Lemma trimEnd_prefix (t : jsstring) :
  exists tail, t = trimEnd t ++ tail /\ forallb isSpace tail = true.
Proof.
  unfold trimEnd.
  destruct (dropWhile_spec isSpace (rev t)) as (a & E & Ha & _).
  exists (rev a); split.
  - rewrite <- rev_app_distr, <- E, rev_involutive; reflexivity.
  - rewrite forallb_forall in *; intros x Hx; apply Ha.
    apply in_rev; exact Hx.
Qed.

(** *** Texts that begin with a number *)

Lemma startsWith_app_spaces (x ws p : jsstring) :
  forallb isSpace ws = true ->
  forallb (fun c => negb (isSpace c)) p = true ->
  startsWith (x ++ ws) p = startsWith x p.
Proof.
  revert x; induction p as [|c p IH]; intros x Hws Hp; [reflexivity|].
  simpl in Hp; apply andb_true_iff in Hp; destruct Hp as [Hc Hp].
  destruct x as [|d x]; simpl.
  - destruct ws as [|w ws]; [reflexivity|].
    simpl in Hws; apply andb_true_iff in Hws; destruct Hws as [Hw _].
    destruct (char_eqb w c) eqn:E; [|reflexivity].
    apply char_eqb_eq in E; subst w.
    rewrite Hw in Hc; discriminate.
  - rewrite IH by assumption; reflexivity.
Qed.

Lemma numeralStart_app_spaces (x ws : jsstring) :
  forallb isSpace ws = true ->
  numeralStart (x ++ ws) = numeralStart x.
Proof.
  intros Hws; unfold numeralStart.
  rewrite (startsWith_app_spaces x ws (js "Infinity") Hws eq_refl).
  f_equal.
  assert (Hd : forall w, isSpace w = true -> isDigit w = false).
  { intros w Hw; destruct (isDigit w) eqn:D; [|reflexivity].
    unfold isDigit in D; apply andb_true_iff in D; destruct D as [D1 D2].
    apply N.leb_le in D1, D2.
    unfold isSpace in Hw.
    repeat (apply orb_true_iff in Hw; destruct Hw as [Hw|Hw]);
      repeat match goal with
        | H : (_ && _) = true |- _ => apply andb_true_iff in H; destruct H
        | H : N.leb _ _ = true |- _ => apply N.leb_le in H
        | H : N.eqb _ _ = true |- _ => apply N.eqb_eq in H
        end; lia. }
  assert (Hp : forall w, isSpace w = true -> N.eqb w 46 = false).
  { intros w Hw; destruct (N.eqb w 46) eqn:D; [|reflexivity].
    apply N.eqb_eq in D; subst w; discriminate. }
  destruct x as [|c [|d x]]; simpl.
  - destruct ws as [|w ws]; [reflexivity|].
    simpl in Hws; apply andb_true_iff in Hws; destruct Hws as [Hw _].
    rewrite (Hd w Hw), (Hp w Hw); reflexivity.
  - destruct ws as [|w ws]; [reflexivity|].
    simpl in Hws; apply andb_true_iff in Hws; destruct Hws as [Hw _].
    rewrite (Hd w Hw); reflexivity.
  - reflexivity.
Qed.

Lemma beginsWithNumber_app_spaces (u ws : jsstring) :
  forallb isSpace ws = true ->
  beginsWithNumber (u ++ ws) = beginsWithNumber u.
Proof.
  intros Hws; unfold beginsWithNumber, trimStart.
  induction u as [|c u IH]; simpl app.
  - pose proof (dropWhile_app isSpace ws [] Hws) as E.
    rewrite app_nil_r in E; rewrite E; reflexivity.
  - simpl dropWhile; destruct (isSpace c) eqn:Hc; [exact IH|].
    unfold readSign.
    destruct (N.eqb c 43); [apply numeralStart_app_spaces; exact Hws|].
    destruct (N.eqb c 45); [apply numeralStart_app_spaces; exact Hws|].
    apply (numeralStart_app_spaces (c :: u)); exact Hws.
Qed.

Lemma beginsWithNumber_trim (field : jsstring) :
  beginsWithNumber (trim field) = beginsWithNumber field.
Proof.
  unfold trim.
  destruct (trimEnd_prefix (trimStart field)) as (tail & E & Htail).
  transitivity (beginsWithNumber (trimStart field)).
  - rewrite E at 2; symmetry; apply beginsWithNumber_app_spaces; exact Htail.
  - unfold beginsWithNumber, trimStart; rewrite dropWhile_idempotent.
    reflexivity.
Qed.

(** [parseFloat] gives NaN exactly for the texts that do not begin with a
    number. *)
Lemma parseFloat_isNaN (field : jsstring) :
  isNaN (parseFloat field) = negb (beginsWithNumber field).
Proof.
  unfold parseFloat, beginsWithNumber, numeralStart.
  destruct (readSign (trimStart field)) as [neg t]; cbn [snd].
  destruct (startsWith t (js "Infinity")); [reflexivity|].
  cbn [orb].
  destruct t as [|c t]; [reflexivity|].
  cbn [span].
  destruct (isDigit c) eqn:Dc.
  - destruct (span isDigit t) as [ds r1].
    destruct r1 as [|p r1]; [reflexivity|].
    destruct (N.eqb p 46); [destruct (span isDigit r1)|]; reflexivity.
  - cbn [orb].
    destruct (N.eqb c 46) eqn:Pc; [|reflexivity].
    cbn [andb].
    destruct t as [|d t]; [reflexivity|].
    cbn [span]; destruct (isDigit d); [|reflexivity].
    destruct (span isDigit t); reflexivity.
Qed.

(** The test of the executor on the parameter of getWeather, read off the
    text of the parameter. *)
Lemma twoNumbers_valid (parameter : jsstring) :
  twoNumbers (paramPartsOf parameter) = validWeatherParameter parameter.
Proof.
  unfold twoNumbers, paramPartsOf, validWeatherParameter.
  destruct (split comma parameter) as [|a [|b more]]; try reflexivity.
  cbn [List.map List.length nth Nat.leb andb].
  rewrite !parseFloat_isNaN, !negb_involutive, !beginsWithNumber_trim.
  reflexivity.
Qed.

Lemma span_app (f : char -> bool) (a r : jsstring) :
  forallb f a = true -> stopsAt f r -> span f (a ++ r) = (a, r).
Proof.
  induction a as [|c a IH]; simpl; intros Ha Hr.
  - destruct r; simpl in *; [reflexivity | rewrite Hr; reflexivity].
  - apply andb_true_iff in Ha; destruct Ha as [Hc Ha].
    rewrite Hc, IH; auto.
Qed.

Lemma span_spec (f : char -> bool) (s a r : jsstring) :
  span f s = (a, r) -> s = a ++ r /\ forallb f a = true /\ stopsAt f r.
Proof.
  revert a r; induction s as [|c s IH]; simpl; intros a r H.
  - inversion H; subst; simpl; auto.
  - destruct (f c) eqn:Hc.
    + destruct (span f s) as [a' r'] eqn:E. inversion H; subst.
      destruct (IH a' r eq_refl) as (-> & Ha & Hr).
      simpl; rewrite Hc, Ha; auto.
    + inversion H; subst; simpl; auto.
Qed.

Lemma split_no_sep (sep : char) (s : jsstring) :
  forallb (fun c => negb (char_eqb c sep)) s = true -> split sep s = [s].
Proof.
  induction s as [|c s IH]; simpl; intros H; [reflexivity|].
  apply andb_true_iff in H; destruct H as [Hc Hs].
  apply negb_true_iff in Hc; rewrite Hc, IH; auto.
Qed.

Lemma split_app (sep : char) (a b : jsstring) :
  forallb (fun c => negb (char_eqb c sep)) a = true ->
  split sep (a ++ sep :: b) = a :: split sep b.
Proof.
  induction a as [|c a IH]; simpl; intros H.
  - rewrite char_eqb_refl; reflexivity.
  - apply andb_true_iff in H; destruct H as [Hc Hs].
    apply negb_true_iff in Hc; rewrite Hc, IH; auto.
Qed.

(** ** The keyword table *)

Ltac split_prefix :=
  repeat match goal with
         | H : _ && _ = true |- _ =>
             apply andb_true_iff in H; destruct H
         | H : char_eqb _ _ = true |- _ => apply char_eqb_eq in H
         end.

Ltac table_cases H :=
  simpl in H;
  repeat (destruct H as [H | H]; [symmetry in H | ]); [ .. | contradiction ].

(** Two keywords that both begin a text are one entry of the table: the
    text's first two code units decide the keyword. *)
Lemma keyword_unique (response : jsstring)
    (e1 e2 : L.AgentActivityType * jsstring) :
  In e1 typeToKeyword -> In e2 typeToKeyword ->
  startsWith response (snd e1) = true ->
  startsWith response (snd e2) = true -> e1 = e2.
Proof.
  intros H1 H2 S1 S2.
  table_cases H1; table_cases H2; subst e1 e2; try reflexivity;
    destruct response as [|c0 [|c1 r]]; simpl in S1, S2;
    try discriminate; split_prefix; subst; discriminate.
Qed.

(** The keys of the table are distinct. *)
Lemma type_unique (t : L.AgentActivityType)
    (e1 e2 : L.AgentActivityType * jsstring) :
  In e1 typeToKeyword -> In e2 typeToKeyword ->
  L.eqb (fst e1) t = true -> L.eqb (fst e2) t = true -> e1 = e2.
Proof.
  intros H1 H2 S1 S2.
  table_cases H1; table_cases H2; subst e1 e2; try reflexivity;
    destruct t; simpl in S1, S2; discriminate.
Qed.

Section Find.

Variable A : Type.
Variable f : A -> bool.

(** [find] on a list with at most one hit does not depend on the order. *)
Lemma find_permutation (l l' : list A) :
  Permutation l l' ->
  (forall x y, In x l -> In y l -> f x = true -> f y = true -> x = y) ->
  find f l = find f l'.
Proof.
  induction 1 as [| a l l' P IH | a b l | l l' l'' P1 IH1 P2 IH2];
    intros U; simpl.
  - reflexivity.
  - destruct (f a); [reflexivity|].
    apply IH; intros x y Hx Hy; apply U; right; assumption.
  - destruct (f a) eqn:Ha, (f b) eqn:Hb; try reflexivity.
    f_equal; apply U; simpl; auto.
  - rewrite IH1 by exact U.
    apply IH2; intros x y Hx Hy.
    apply U; eapply Permutation_in; try eassumption;
      apply Permutation_sym; assumption.
Qed.

Lemma find_unique (l : list A) (x : A) :
  In x l -> f x = true ->
  (forall y, In y l -> f y = true -> y = x) -> find f l = Some x.
Proof.
  induction l as [|a l IH]; simpl; intros Hin Hx U; [contradiction|].
  destruct (f a) eqn:Ha.
  - f_equal; apply U; auto.
  - destruct Hin as [-> | Hin]; [congruence|].
    apply IH; auto.
Qed.

End Find.

Lemma findType_permutation (table : list (L.AgentActivityType * jsstring))
    (response : jsstring) :
  Permutation typeToKeyword table ->
  findType table response = findType typeToKeyword response.
Proof.
  intros P; unfold findType; f_equal; symmetry.
  apply find_permutation; [exact P|].
  intros x y Hx Hy; apply keyword_unique; assumption.
Qed.

Lemma keywordOf_permutation (table : list (L.AgentActivityType * jsstring))
    (t : L.AgentActivityType) :
  Permutation typeToKeyword table ->
  keywordOf table t = keywordOf typeToKeyword t.
Proof.
  intros P; unfold keywordOf.
  rewrite <- (find_permutation _ (fun entry => L.eqb (fst entry) t) _ _ P);
    [reflexivity|].
  intros x y Hx Hy; apply type_unique; assumption.
Qed.

Lemma findType_keyword (response : jsstring) (t : L.AgentActivityType)
    (keyword : jsstring) :
  In (t, keyword) typeToKeyword -> startsWith response keyword = true ->
  findType typeToKeyword response = Some t.
Proof.
  intros Hin Hs; unfold findType.
  rewrite (find_unique _ (fun entry => startsWith response (snd entry))
             typeToKeyword (t, keyword)); auto.
  intros y Hy Sy; apply (keyword_unique response); auto.
Qed.

Lemma findType_none (response : jsstring) :
  findType typeToKeyword response = None <->
  forall t keyword, In (t, keyword) typeToKeyword ->
                    startsWith response keyword = false.
Proof.
  unfold findType; split.
  - intros H t keyword Hin.
    destruct (find _ _) eqn:F; [discriminate|].
    apply (find_none _ _ F (t, keyword) Hin).
  - intros H. destruct (find _ _) as [[t k]|] eqn:F; [|reflexivity].
    apply find_some in F; destruct F as [Hin Hs]; simpl in Hs.
    rewrite (H t k Hin) in Hs; discriminate.
Qed.

(** ** The action pattern *)

Lemma isWord_not_space (c : char) : isWord c = true -> isSpace c = false.
Proof.
  unfold isWord, isSpace, isDigit; intros H.
  apply not_true_is_false; intros K.
  repeat rewrite ?orb_true_iff, ?andb_true_iff, ?N.leb_le, ?N.eqb_eq in H.
  repeat rewrite ?orb_true_iff, ?andb_true_iff, ?N.leb_le, ?N.eqb_eq in K.
  lia.
Qed.

Lemma notCloseParen_false (c : char) :
  notCloseParen c = false -> c = closeParen.
Proof.
  unfold notCloseParen; intros H.
  apply negb_false_iff, char_eqb_eq in H; exact H.
Qed.

Lemma nonempty_word_stops_space (name r : jsstring) :
  name <> [] -> forallb isWord name = true -> stopsAt isSpace (name ++ r).
Proof.
  destruct name as [|c name]; [congruence|]; simpl; intros _ H.
  apply andb_true_iff in H; destruct H as [H _].
  apply isWord_not_space; exact H.
Qed.

(** The function [actionPatternAt] finds a match exactly when there is one,
    and there is at most one: the greedy choices of the pattern are forced. *)
Lemma actionPatternAt_spec (s name params : jsstring) :
  actionPatternAt s = Some (name, params) <-> MatchesAt s name params.
Proof.
  unfold actionPatternAt, MatchesAt; split.
  - destruct (startsWith s (js "ACTION:")) eqn:Hp; [|discriminate].
    apply startsWith_inv in Hp.
    change (List.length (js "ACTION:")) with 7 in Hp.
    destruct (dropWhile_spec isSpace (skipn 7 s)) as (ws & Ews & Hws & _).
    destruct (span isWord (dropWhile isSpace (skipn 7 s)))
      as [nm afterName] eqn:Sn.
    apply span_spec in Sn; destruct Sn as (En & Hn & _).
    destruct nm as [|n0 nm]; [discriminate|].
    destruct afterName as [|c afterOpen]; [discriminate|].
    destruct (char_eqb c openParen) eqn:Hc; [|discriminate].
    apply char_eqb_eq in Hc; subst c.
    destruct (span notCloseParen afterOpen) as [ps afterParams] eqn:Sp.
    apply span_spec in Sp; destruct Sp as (Ep & Hps & Hstop).
    destruct ps as [|p0 ps]; [discriminate|].
    destruct afterParams as [|d rest]; [discriminate|].
    intros H; inversion H; subst name params; clear H.
    simpl in Hstop; apply notCloseParen_false in Hstop; subst d.
    exists ws, rest; repeat split; try assumption; try discriminate.
    rewrite Hp at 1; f_equal. rewrite Ews at 1; f_equal.
    rewrite En; simpl; do 2 f_equal. rewrite Ep; reflexivity.
  - intros (ws & rest & -> & Hws & Hne & Hn & Hpe & Hp).
    rewrite startsWith_app.
    change (skipn 7 (js "ACTION:" ++ ?x)) with x.
    rewrite dropWhile_app by exact Hws.
    rewrite dropWhile_stop by (apply nonempty_word_stops_space; assumption).
    rewrite span_app; [| exact Hn | reflexivity].
    destruct name as [|n0 name]; [congruence|].
    rewrite char_eqb_refl, span_app; [| exact Hp | simpl; reflexivity].
    destruct params; [congruence | reflexivity].
Qed.

(** A match names one pair of captures. *)
Lemma MatchesAt_unique (s name name' params params' : jsstring) :
  MatchesAt s name params -> MatchesAt s name' params' ->
  name = name' /\ params = params'.
Proof.
  intros H H'; apply actionPatternAt_spec in H, H'.
  rewrite H in H'; inversion H'; auto.
Qed.

Lemma actionPattern_here (s name params : jsstring) :
  actionPatternAt s = Some (name, params) ->
  actionPattern s = Some (name, params).
Proof. intros H; destruct s; cbn [actionPattern]; rewrite H; reflexivity. Qed.

Lemma actionPattern_next (c : char) (s : jsstring) :
  actionPatternAt (c :: s) = None -> actionPattern (c :: s) = actionPattern s.
Proof. intros H; cbn [actionPattern]; rewrite H; reflexivity. Qed.

(** The leftmost match: [pre] is what the search skips. *)
Lemma actionPattern_spec (s name params : jsstring) :
  actionPattern s = Some (name, params) <->
  exists pre post,
    s = pre ++ post /\ MatchesAt post name params
    /\ forall a b, pre = a ++ b -> b <> [] ->
                   actionPatternAt (b ++ post) = None.
Proof.
  split.
  - induction s as [|c s IH]; cbn [actionPattern].
    + destruct (actionPatternAt []) eqn:E; [|discriminate].
      intros H; inversion H; subst.
      exists [], []; repeat split; [apply actionPatternAt_spec; exact E|].
      intros a b Hab Hb; destruct a, b; simpl in *; congruence.
    + destruct (actionPatternAt (c :: s)) eqn:E.
      * intros H; inversion H; subst.
        exists [], (c :: s); repeat split;
          [apply actionPatternAt_spec; exact E|].
        intros a b Hab Hb; destruct a, b; simpl in *; congruence.
      * intros H; destruct (IH H) as (pre & post & -> & Hm & Hskip).
        exists (c :: pre), post; repeat split; auto.
        intros a b Hab Hb. destruct a as [|a0 a]; simpl in Hab.
        -- subst b; exact E.
        -- inversion Hab; subst; eapply Hskip; eauto.
  - intros (pre & post & -> & Hm & Hskip).
    apply actionPatternAt_spec in Hm.
    induction pre as [|c pre IH]; simpl app.
    + apply actionPattern_here; exact Hm.
    + rewrite actionPattern_next.
      * apply IH; intros a b Hab Hb.
        apply (Hskip (c :: a) b); [simpl; f_equal; exact Hab | exact Hb].
      * apply (Hskip [] (c :: pre)); [reflexivity | discriminate].
Qed.

(** ** The classifier *)

Lemma actionPattern_nonempty (s name params : jsstring) :
  actionPattern s = Some (name, params) -> name <> [] /\ params <> [].
Proof.
  intros H; apply actionPattern_spec in H.
  destruct H as (_ & _ & _ & (_ & _ & _ & _ & Hn & _ & Hp & _) & _); auto.
Qed.

Ltac keyword_value :=
  match goal with
  | |- context [keywordOf typeToKeyword ?t] =>
      let v := eval cbv in (keywordOf typeToKeyword t) in
      change (keywordOf typeToKeyword t) with v
  end.

(** A text that begins with a keyword other than ACTION:. *)
Lemma mapResponse_body (response : jsstring) (type : L.AgentActivityType)
    (keyword : jsstring) :
  In (type, keyword) typeToKeyword -> type <> L.Action ->
  startsWith response keyword = true ->
  exists c,
    mapResponseToLinearActivityContent response = Normal c
    /\ typeOf c = type
    /\ bodyOf c = Some (trim (skipn (List.length keyword) response)).
Proof.
  intros Hin Hty Hs.
  pose proof (findType_keyword _ _ _ Hin Hs) as F.
  unfold mapResponseToLinearActivityContent, mapResponseWith; rewrite F.
  table_cases Hin; inversion Hin; subst type keyword; clear Hin;
    try congruence;
    (eexists; split; [reflexivity|]; split; [reflexivity|];
     keyword_value; rewrite (replace_prefix _ _ Hs); reflexivity).
Qed.

(** A text that begins with ACTION:. *)
Lemma mapResponse_action (response : jsstring) :
  startsWith response (js "ACTION:") = true ->
  mapResponseToLinearActivityContent response
  = match actionPattern response with
    | Some (name, params) =>
        if isToolName name then
          Normal (ActionContent name (Some params) None)
        else Throw (Error (js "Invalid tool name: " ++ name))
    | None => Throw (UnreachableCaseError (js "action"))
    end.
Proof.
  intros Hs.
  assert (F : findType typeToKeyword response = Some L.Action).
  { apply (findType_keyword response L.Action (js "ACTION:"));
      [simpl; auto | exact Hs]. }
  unfold mapResponseToLinearActivityContent, mapResponseWith; rewrite F.
  destruct (actionPattern response) as [[name params]|] eqn:E;
    [|reflexivity].
  destruct (isToolName name); simpl negb; cbv iota; [|reflexivity].
  destruct (actionPattern_nonempty _ _ _ E) as [_ Hp].
  destruct params; [congruence | reflexivity].
Qed.

(** C2, as the code has it. A text that begins with THINKING:, RESPONSE:,
    ELICITATION: or ERROR: is classified as an activity of that kind, and
    its body is the text without the leading keyword, trimmed. A text that
    begins with ACTION: is classified as an Action activity only when the
    pattern [ACTION:\s*(\w+)\(([^)]+)\)] matches somewhere in it and the
    name of the leftmost match is a tool name; the activity then carries
    that name and the text between the parentheses and no result. With a
    name outside the enumeration, or without a match, the classifier
    throws. *)
Theorem classification_by_keyword (response : jsstring)
    (type : L.AgentActivityType) (keyword : jsstring) :
  In (type, keyword) typeToKeyword ->
  startsWith response keyword = true ->
  match type with
  | L.Action =>
      match actionPattern response with
      | Some (name, params) =>
          if isToolName name then
            mapResponseToLinearActivityContent response
            = Normal (ActionContent name (Some params) None)
          else
            mapResponseToLinearActivityContent response
            = Throw (Error (js "Invalid tool name: " ++ name))
      | None =>
          mapResponseToLinearActivityContent response
          = Throw (UnreachableCaseError (js "action"))
      end
  | _ =>
      exists c,
        mapResponseToLinearActivityContent response = Normal c
        /\ typeOf c = type
        /\ bodyOf c = Some (trim (skipn (List.length keyword) response))
  end.
Proof.
  intros Hin Hs.
  destruct type;
    try (apply (mapResponse_body response _ keyword Hin);
         [discriminate | exact Hs]).
  assert (K : keyword = js "ACTION:")
    by (table_cases Hin; inversion Hin; reflexivity).
  subst keyword; rewrite (mapResponse_action response Hs).
  destruct (actionPattern response) as [[name params]|]; [|reflexivity].
  destruct (isToolName name); reflexivity.
Qed.

(** The example of the specification: ["RESPONSE:  Sunny, 22°C "]; the
    degree sign is the code unit 176. *)
Lemma classification_by_keyword_witness :
  exists c,
    mapResponseToLinearActivityContent
      (js "RESPONSE:  Sunny, 22" ++ [176%N] ++ js "C ") = Normal c
    /\ typeOf c = L.Response
    /\ bodyOf c = Some (js "Sunny, 22" ++ [176%N] ++ js "C").
Proof.
  exact (classification_by_keyword
           (js "RESPONSE:  Sunny, 22" ++ [176%N] ++ js "C ")
           L.Response (js "RESPONSE:")
           (or_intror (or_intror (or_introl eq_refl))) eq_refl).
Defined.

(** C2 as stated fails: this text begins with ACTION: and with no other
    keyword, and the classifier returns no activity for it. *)
Lemma action_keyword_without_call_throws :
  startsWith (js "ACTION: getWeather") (js "ACTION:") = true
  /\ (forall type keyword,
        In (type, keyword) typeToKeyword ->
        startsWith (js "ACTION: getWeather") keyword = true ->
        type = L.Action)
  /\ ~ (exists c,
          mapResponseToLinearActivityContent (js "ACTION: getWeather")
          = Normal c).
Proof.
  split; [reflexivity|]; split.
  - intros type keyword Hin Hs.
    table_cases Hin; inversion Hin; subst; try reflexivity;
      vm_compute in Hs; discriminate.
  - intros [c H]; vm_compute in H; discriminate.
Qed.

(** C9. At most one keyword of the table begins a given text, because no
    keyword is a prefix of another; so the classifier gives the same result
    whatever the order in which the table is scanned. *)
Theorem keyword_order_irrelevant (response : jsstring) :
  (forall e1 e2,
      In e1 typeToKeyword -> In e2 typeToKeyword ->
      startsWith response (snd e1) = true ->
      startsWith response (snd e2) = true -> e1 = e2)
  /\ (forall e1 e2,
        In e1 typeToKeyword -> In e2 typeToKeyword ->
        startsWith (snd e1) (snd e2) = true -> e1 = e2)
  /\ (forall table,
        Permutation typeToKeyword table ->
        mapResponseWith table response
        = mapResponseToLinearActivityContent response).
Proof.
  split; [|split].
  - intros e1 e2; apply keyword_unique.
  - intros e1 e2 H1 H2 Hs.
    apply (keyword_unique (snd e1)); auto.
    rewrite <- (app_nil_r (snd e1)) at 1; apply startsWith_app.
  - intros table P.
    unfold mapResponseToLinearActivityContent, mapResponseWith.
    rewrite (findType_permutation table response P).
    rewrite !(keywordOf_permutation table _ P); reflexivity.
Qed.

(** The table read backwards classifies an ERROR: text as the table does. *)
Lemma keyword_order_irrelevant_witness :
  mapResponseWith (rev typeToKeyword) (js "ERROR: the tool failed")
  = mapResponseToLinearActivityContent (js "ERROR: the tool failed").
Proof.
  exact (proj2 (proj2 (keyword_order_irrelevant (js "ERROR: the tool failed")))
           (rev typeToKeyword) (Permutation_rev typeToKeyword)).
Defined.

(** *** Texts in which the pattern has no match *)

Lemma not_A_no_match (c : char) (r : jsstring) :
  char_eqb c 65%N = false -> actionPatternAt (c :: r) = None.
Proof.
  intros H; unfold actionPatternAt; simpl startsWith; rewrite H; reflexivity.
Qed.

Lemma isSpace_not_A (c : char) : isSpace c = true -> char_eqb c 65%N = false.
Proof.
  unfold isSpace, char_eqb; intros H.
  apply not_true_is_false; intros K; apply N.eqb_eq in K; subst c.
  discriminate.
Qed.

Lemma actionPattern_skip_spaces (ws r : jsstring) :
  forallb isSpace ws = true -> actionPattern (ws ++ r) = actionPattern r.
Proof.
  induction ws as [|c ws IH]; simpl app; intros H; [reflexivity|].
  simpl in H; apply andb_true_iff in H; destruct H as [Hc Hws].
  rewrite actionPattern_next; [auto|].
  apply not_A_no_match, isSpace_not_A; exact Hc.
Qed.

(** Word characters followed by a parenthesis do not spell the keyword:
    its colon is not a word character. *)
Lemma word_then_paren_not_keyword (n r : jsstring) :
  forallb isWord n = true ->
  startsWith (n ++ openParen :: r) (js "ACTION:") = false.
Proof.
  intros H; apply not_true_is_false; intros K.
  apply startsWith_inv in K.
  destruct n as [|c0 [|c1 [|c2 [|c3 [|c4 [|c5 [|c6 n]]]]]]];
    simpl in K; inversion K; subst; simpl in H; discriminate.
Qed.

Lemma actionPattern_skip_word (n r : jsstring) :
  forallb isWord n = true ->
  actionPattern (n ++ openParen :: r) = actionPattern (openParen :: r).
Proof.
  induction n as [|c n IH]; simpl app; intros H; [reflexivity|].
  rewrite actionPattern_next.
  - apply IH. simpl in H; apply andb_true_iff in H; tauto.
  - unfold actionPatternAt.
    change (c :: n ++ openParen :: r) with ((c :: n) ++ openParen :: r).
    rewrite (word_then_paren_not_keyword (c :: n) r H); reflexivity.
Qed.

(** In [ACTION: name()] and what follows it, the pattern matches where it
    matches in what follows, and nowhere else. *)
Lemma empty_argument_list_match (ws name tail : jsstring) :
  forallb isSpace ws = true -> forallb isWord name = true ->
  actionPattern (js "ACTION:" ++ ws ++ name
                 ++ openParen :: closeParen :: tail)
  = actionPattern tail.
Proof.
  intros Hws Hname.
  assert (Here : actionPatternAt (js "ACTION:" ++ ws ++ name
                                  ++ openParen :: closeParen :: tail) = None).
  { unfold actionPatternAt; rewrite startsWith_app.
    change (skipn 7 (js "ACTION:" ++ ?x)) with x.
    rewrite dropWhile_app by exact Hws.
    rewrite dropWhile_stop.
    - rewrite span_app; [| exact Hname | reflexivity].
      destruct name; reflexivity.
    - destruct name as [|c name]; simpl; [reflexivity|].
      simpl in Hname; apply andb_true_iff in Hname.
      apply isWord_not_space; tauto. }
  change (js "ACTION:" ++ ?x)
    with (65 :: 67 :: 84 :: 73 :: 79 :: 78 :: 58 :: x)%N in *.
  rewrite actionPattern_next by exact Here.
  do 6 (rewrite actionPattern_next by reflexivity).
  rewrite actionPattern_skip_spaces by exact Hws.
  rewrite actionPattern_skip_word by exact Hname.
  do 2 (rewrite actionPattern_next by reflexivity).
  reflexivity.
Qed.

(** An Action activity that the classifier returns has a parameter with at
    least one code unit, and no result. *)
Lemma classified_action_parameter (response : jsstring) (action : ToolName)
    (parameter result : option jsstring) :
  mapResponseToLinearActivityContent response
  = Normal (ActionContent action parameter result) ->
  (exists p, parameter = Some p /\ p <> []) /\ result = None.
Proof.
  unfold mapResponseToLinearActivityContent, mapResponseWith.
  destruct (findType typeToKeyword response) as [[]|]; try discriminate.
  destruct (actionPattern response) as [[name params]|] eqn:E;
    [|discriminate].
  destruct (isToolName name); simpl negb; cbv iota; [|discriminate].
  destruct (actionPattern_nonempty _ _ _ E) as [_ Hp].
  destruct params as [|p0 params]; [congruence|].
  intros H; inversion H; subst.
  split; [|reflexivity].
  exists (p0 :: params); split; [reflexivity | discriminate].
Qed.

(** C10, as the code has it. An Action activity returned by the classifier
    carries a parameter that is a string with at least one code unit (and
    no result yet), so the test [!parameter] of [executeAction] fails for
    it and the executor goes on to its [switch]: the branch "Parameter is
    required for action execution" is not taken. A text that begins with
    [ACTION: name()], with nothing between the parentheses, is classified
    by what follows the parentheses, because the pattern is not anchored:
    the classifier throws when nothing there matches the pattern, and when
    something does, the text is an Action of the leftmost call there if
    that names a tool, and an invalid tool name if not. *)
Theorem classified_action_has_parameter :
  (forall response action parameter result,
      mapResponseToLinearActivityContent response
      = Normal (ActionContent action parameter result) ->
      (exists p, parameter = Some p /\ p <> [])
      /\ result = None
      /\ isFalsy parameter = false
      /\ forall getCoordinates getWeather,
           executeAction getCoordinates getWeather action parameter
           = switchAction getCoordinates getWeather action
               (stringOf parameter))
  /\ (forall ws name tail,
        forallb isSpace ws = true -> forallb isWord name = true ->
        mapResponseToLinearActivityContent
          (js "ACTION:" ++ ws ++ name ++ openParen :: closeParen :: tail)
        = match actionPattern tail with
          | None => Throw (UnreachableCaseError (js "action"))
          | Some (later, params) =>
              if isToolName later
              then Normal (ActionContent later (Some params) None)
              else Throw (Error (js "Invalid tool name: " ++ later))
          end).
Proof.
  split.
  - intros response action parameter result H.
    destruct (classified_action_parameter _ _ _ _ H)
      as ((p & -> & Hp) & ->).
    destruct p as [|p0 p]; [congruence|].
    repeat split; try reflexivity.
    exists (p0 :: p); split; [reflexivity | discriminate].
  - intros ws name tail Hws Hname.
    rewrite mapResponse_action by apply startsWith_app.
    rewrite empty_argument_list_match by assumption.
    destruct (actionPattern tail) as [[later params]|] eqn:E;
      [|reflexivity].
    destruct (actionPattern_nonempty _ _ _ E) as [_ Hp].
    destruct params as [|p0 params]; [congruence|].
    destruct (isToolName later); reflexivity.
Qed.

(** [ACTION: getWeather(40.7128, -74.0060)] and [ACTION: getWeather()]. *)
Lemma classified_action_has_parameter_witness :
  ((exists p, Some (js "40.7128, -74.0060") = Some p /\ p <> [])
   /\ @None jsstring = None
   /\ isFalsy (Some (js "40.7128, -74.0060")) = false
   /\ forall getCoordinates getWeather,
        executeAction getCoordinates getWeather (js "getWeather")
          (Some (js "40.7128, -74.0060"))
        = switchAction getCoordinates getWeather (js "getWeather")
            (js "40.7128, -74.0060"))
  /\ mapResponseToLinearActivityContent (js "ACTION: getWeather()")
     = Throw (UnreachableCaseError (js "action")).
Proof.
  split.
  - exact (proj1 classified_action_has_parameter
             (js "ACTION: getWeather(40.7128, -74.0060)")
             (js "getWeather") (Some (js "40.7128, -74.0060")) None
             eq_refl).
  - exact (proj2 classified_action_has_parameter
             (js " ") (js "getWeather") [] eq_refl eq_refl).
Defined.

(** C10 as stated fails. This text begins with ACTION: and an empty
    argument list, and a call with arguments follows on the next line: the
    classifier returns the Action of that call, and the executor calls the
    tool. *)
Lemma empty_argument_list_then_call_is_executed :
  let response :=
    js "ACTION: getWeather()" ++ [10%N]
    ++ js "ACTION: getWeather(48.85, 2.35)" in
  mapResponseToLinearActivityContent response
  = Normal (ActionContent (js "getWeather") (Some (js "48.85, 2.35")) None)
  /\ executeAction Examples.getCoordinates Examples.getWeather
       (js "getWeather") (Some (js "48.85, 2.35")) freshSession
     = (Normal (js "22 degrees, clear sky"),
        withToolCalls freshSession
          [CallGetWeather (Decimal false 235 (-2))
             (Decimal false 4885 (-2))]).
Proof. vm_compute; split; reflexivity. Qed.

(** ** The executor and the loop body *)

Section Turn.

Variable MAX_ITERATIONS : nat.
Variable create : nat -> list Message -> ApiOutcome.
Variable getCoordinates : nat -> jsstring -> Completion jsstring.
Variable getWeather : nat -> Number -> Number -> Completion jsstring.
Variable sessionId : jsstring.

Local Abbreviation callOpenAI' := (callOpenAI create).
Local Abbreviation executeAction' := (executeAction getCoordinates getWeather).
Local Abbreviation switchAction' := (switchAction getCoordinates getWeather).
Local Abbreviation loopBody' := (loopBody create getCoordinates getWeather sessionId).
Local Abbreviation whileLoop' :=
  (fun fuel => whileLoop MAX_ITERATIONS create getCoordinates getWeather
                 fuel sessionId).
Local Abbreviation runTurn' :=
  (runTurn MAX_ITERATIONS create getCoordinates getWeather sessionId).

Lemma withToolCalls_nil (s : Session) : withToolCalls s [] = s.
Proof. destruct s; unfold withToolCalls; simpl; rewrite app_nil_r; reflexivity. Qed.

Lemma callOpenAI_run (transcript : list Message) (s : Session) :
  callOpenAI' transcript s
  = (replyOf (create (List.length (modelCalls s)) transcript),
     {| messages := messages s; taskComplete := taskComplete s;
        iterations := iterations s; activities := activities s;
        modelCalls := modelCalls s ++ [transcript];
        toolCalls := toolCalls s |}).
Proof.
  unfold callOpenAI, bind, recordModelCall, ret, throw, replyOf.
  destruct (create _ _) as [[[|c rest]|]|e]; reflexivity.
Qed.

(** The executor reads nothing of the session but the number of tool calls
    made, and changes nothing but the record of tool calls. *)
Lemma switchAction_frame (action : ToolName) (parameter : jsstring)
    (s : Session) :
  exists c calls,
    (List.length calls <= 1)%nat /\
    forall s', toolCalls s' = toolCalls s ->
               switchAction' action parameter s'
               = (c, withToolCalls s' calls).
Proof.
  unfold switchAction.
  destruct (string_eqb action (js "getCoordinates")).
  { exists (getCoordinates (List.length (toolCalls s))
              (removeAll doubleQuote parameter)).
    exists [CallGetCoordinates (removeAll doubleQuote parameter)].
    split; [simpl; lia|]; intros s' E.
    unfold invokeGetCoordinates, bind, recordToolCall, liftCompletion.
    rewrite <- E; reflexivity. }
  destruct (string_eqb action (js "getWeather")).
  { destruct (twoNumbers (paramPartsOf parameter)).
    - exists (getWeather (List.length (toolCalls s))
                (nth 1 (paramPartsOf parameter) NaN)
                (nth 0 (paramPartsOf parameter) NaN)).
      exists [CallGetWeather (nth 1 (paramPartsOf parameter) NaN)
                (nth 0 (paramPartsOf parameter) NaN)].
      split; [simpl; lia|]; intros s' E.
      unfold invokeGetWeather, bind, recordToolCall, liftCompletion.
      rewrite <- E; reflexivity.
    - eexists; exists []; split; [simpl; lia|]; intros s' _.
      rewrite withToolCalls_nil; reflexivity. }
  eexists; exists []; split; [simpl; lia|]; intros s' _.
  rewrite withToolCalls_nil; reflexivity.
Qed.

Lemma executeAction_frame (action : ToolName) (parameter : option jsstring)
    (s : Session) :
  exists c calls,
    (List.length calls <= 1)%nat /\
    forall s', toolCalls s' = toolCalls s ->
               executeAction' action parameter s'
               = (c, withToolCalls s' calls).
Proof.
  unfold executeAction; destruct (isFalsy parameter).
  - eexists; exists []; split; [simpl; lia|]; intros s' _.
    rewrite withToolCalls_nil; reflexivity.
  - apply switchAction_frame.
Qed.

Ltac run_cycle :=
  unfold loopBody, tryCatch, tryBlock, catchBlock, bind, incrIterations;
  cbn [messages taskComplete iterations activities modelCalls toolCalls];
  rewrite callOpenAI_run;
  cbn [messages taskComplete iterations activities modelCalls toolCalls].

(** A cycle in which the model call or the classifier throws. *)
Lemma loopBody_throw (s : Session) (error : Thrown) :
  replyOf (create (List.length (modelCalls s)) (messages s)) = Throw error
  \/ (exists r,
        replyOf (create (List.length (modelCalls s)) (messages s)) = Normal r
        /\ mapResponseToLinearActivityContent r = Throw error) ->
  loopBody' s
  = (Normal tt,
     cycleEnd s []
       [ErrorContent (js "Agent error: " ++ messageOf error)] sessionId true
       []).
Proof.
  intros H; run_cycle.
  destruct H as [H | (r & H & C)]; rewrite H.
  - unfold cycleEnd; simpl; rewrite !app_nil_r; reflexivity.
  - unfold liftCompletion; rewrite C.
    unfold cycleEnd; simpl; rewrite !app_nil_r; reflexivity.
Qed.

(** A cycle in which the model's text is classified as something other
    than an Action. *)
Lemma loopBody_body (s : Session) (r : jsstring) (c : Content) :
  replyOf (create (List.length (modelCalls s)) (messages s)) = Normal r ->
  mapResponseToLinearActivityContent r = Normal c ->
  typeOf c <> L.Action ->
  loopBody' s
  = (Normal tt,
     match typeOf c with
     | L.Thought =>
         cycleEnd s [ {| role := assistant; content := r |} ] [c] sessionId
           (taskComplete s) []
     | _ => cycleEnd s [] [c] sessionId true []
     end).
Proof.
  intros H C T; run_cycle; rewrite H.
  unfold liftCompletion; rewrite C.
  destruct c; simpl in T; try congruence;
    unfold cycleEnd; simpl; rewrite ?app_nil_r; reflexivity.
Qed.

(** A cycle in which the model's text is classified as an Action. The
    intent is published before the executor runs; what follows depends on
    whether the executor returns or throws. *)
Lemma loopBody_action (s : Session) (r : jsstring) (action : ToolName)
    (parameter result : option jsstring) (outcome : Completion jsstring)
    (calls : list ToolCall) :
  replyOf (create (List.length (modelCalls s)) (messages s)) = Normal r ->
  mapResponseToLinearActivityContent r
  = Normal (ActionContent action parameter result) ->
  executeAction' action parameter s = (outcome, withToolCalls s calls) ->
  loopBody' s
  = (Normal tt,
     match outcome with
     | Normal toolResult =>
         cycleEnd s
           [ {| role := assistant; content := r |};
             {| role := user; content := js "Tool result: " ++ toolResult |} ]
           [ ActionContent action parameter result;
             ActionContent action (orNull parameter) (Some toolResult) ]
           sessionId (taskComplete s) calls
     | Throw error =>
         cycleEnd s []
           [ ActionContent action parameter result;
             ErrorContent (js "Agent error: " ++ messageOf error) ]
           sessionId true calls
     end).
Proof.
  intros H C X; run_cycle; rewrite H.
  unfold liftCompletion; rewrite C.
  unfold createAgentActivity at 1;
    cbn [messages taskComplete iterations activities modelCalls toolCalls].
  destruct (executeAction_frame action parameter s)
    as (c' & calls' & _ & F).
  pose proof (F s eq_refl) as Fs; rewrite X in Fs.
  assert (Ec : c' = outcome) by (apply (f_equal fst) in Fs; auto).
  assert (Ecalls : calls' = calls).
  { apply (f_equal (fun p => toolCalls (snd p))) in Fs; simpl in Fs.
    apply app_inv_head in Fs; auto. }
  subst c' calls'; clear Fs.
  match goal with
  | |- context [executeAction' action parameter ?s1] =>
      rewrite (F s1 eq_refl)
  end.
  destruct outcome;
    unfold cycleEnd, withToolCalls, createAgentActivity, pushMessage,
      setTaskComplete; simpl;
    rewrite <- ?app_assoc, ?app_nil_r; reflexivity.
Qed.

(** Every cycle ends normally, calls the model once, publishes something,
    and either leaves [taskComplete] as it was or sets it. *)
Lemma loopBody_cycle (s : Session) :
  exists pushed published done calls,
    loopBody' s = (Normal tt, cycleEnd s pushed published sessionId done calls)
    /\ published <> []
    /\ (List.length calls <= 1)%nat
    /\ (done = true \/ done = taskComplete s).
Proof.
  destruct (replyOf (create (List.length (modelCalls s)) (messages s)))
    as [r | e] eqn:R.
  2:{ do 4 eexists; split; [apply loopBody_throw; left; exact R|].
      repeat split; [discriminate | simpl; lia | auto]. }
  destruct (mapResponseToLinearActivityContent r) as [c | e] eqn:C.
  2:{ do 4 eexists; split; [apply loopBody_throw; right; eauto|].
      repeat split; [discriminate | simpl; lia | auto]. }
  destruct (L.eqb (typeOf c) L.Action) eqn:T.
  - destruct c; try discriminate.
    destruct (executeAction_frame action parameter s)
      as (outcome & calls & Hc & F).
    rewrite (loopBody_action s r action parameter result outcome calls R C
               (F s eq_refl)).
    destruct outcome; do 4 eexists; (split; [reflexivity|]);
      repeat split; try discriminate; auto.
  - rewrite (loopBody_body s r c R C)
      by (intros E; rewrite E in T; discriminate).
    destruct c; try discriminate; do 4 eexists; (split; [reflexivity|]);
      repeat split; try discriminate; simpl; auto.
Qed.

(** ** The loop *)

Lemma loopCondition_lt (s : Session) :
  loopCondition MAX_ITERATIONS s = true ->
  taskComplete s = false /\ (iterations s < MAX_ITERATIONS)%nat.
Proof.
  unfold loopCondition; intros H; apply andb_true_iff in H.
  destruct H as [H1 H2]; apply negb_true_iff in H1; apply Nat.ltb_lt in H2.
  auto.
Qed.

(** More fuel than the distance to [MAX_ITERATIONS] changes nothing. *)
Lemma whileLoop_fuel (fuel : nat) :
  forall s, (MAX_ITERATIONS - iterations s <= fuel)%nat ->
            whileLoop' fuel s
            = whileLoop' (MAX_ITERATIONS - iterations s) s.
Proof.
  induction fuel as [|fuel IH]; intros s Hle.
  - replace (MAX_ITERATIONS - iterations s) with 0 by lia; reflexivity.
  - destruct (loopCondition MAX_ITERATIONS s) eqn:Cond.
    + destruct (loopCondition_lt s Cond) as [_ Hlt].
      destruct (MAX_ITERATIONS - iterations s) as [|k] eqn:K; [lia|].
      cbn [whileLoop]; rewrite Cond; unfold bind.
      destruct (loopBody_cycle s) as (p & q & d & c & E & _); rewrite E.
      rewrite IH by (simpl; lia).
      replace (MAX_ITERATIONS - iterations (cycleEnd s p q sessionId d c))
        with k by (simpl; lia).
      reflexivity.
    + cbn [whileLoop]; rewrite Cond.
      destruct (MAX_ITERATIONS - iterations s); cbn [whileLoop];
        rewrite ?Cond; reflexivity.
Qed.

(** The equation of the [while] statement. *)
Lemma whileLoop_unfold (s : Session) :
  whileLoop' (MAX_ITERATIONS - iterations s) s
  = if loopCondition MAX_ITERATIONS s
    then bind loopBody'
           (fun _ s' => whileLoop' (MAX_ITERATIONS - iterations s') s') s
    else ret tt s.
Proof.
  destruct (loopCondition MAX_ITERATIONS s) eqn:Cond.
  - destruct (loopCondition_lt s Cond) as [_ Hlt].
    destruct (MAX_ITERATIONS - iterations s) as [|k] eqn:K; [lia|].
    cbn [whileLoop]; rewrite Cond; unfold bind.
    destruct (loopBody_cycle s) as (p & q & d & c & E & _); rewrite E.
    replace (MAX_ITERATIONS - iterations (cycleEnd s p q sessionId d c))
      with k by (simpl; lia).
    reflexivity.
  - destruct (MAX_ITERATIONS - iterations s); cbn [whileLoop];
      rewrite ?Cond; reflexivity.
Qed.

(** The loop ends, normally, in a state where its condition is false: it
    did not stop for lack of fuel. Along the way the model was called once
    per pass. *)
Lemma whileLoop_stops (n : nat) :
  forall s, MAX_ITERATIONS - iterations s = n ->
    let r := whileLoop' n s in
    fst r = Normal tt
    /\ loopCondition MAX_ITERATIONS (snd r) = false
    /\ List.length (modelCalls (snd r)) + iterations s
       = List.length (modelCalls s) + iterations (snd r)
    /\ (iterations s <= iterations (snd r))%nat
    /\ (iterations s <= MAX_ITERATIONS ->
        iterations (snd r) <= MAX_ITERATIONS)%nat.
Proof.
  induction n as [|n IH]; intros s Hn; cbn zeta.
  - cbn [whileLoop]; unfold ret; cbn [fst snd].
    repeat split; try lia.
    unfold loopCondition. replace (iterations s <? MAX_ITERATIONS)%nat
      with false by (symmetry; apply Nat.ltb_ge; lia).
    apply andb_false_r.
  - cbn [whileLoop].
    destruct (loopCondition MAX_ITERATIONS s) eqn:Cond.
    + unfold bind.
      destruct (loopBody_cycle s) as (p & q & d & c & E & _); rewrite E.
      assert (Hn' : MAX_ITERATIONS
                    - iterations (cycleEnd s p q sessionId d c) = n)
        by (simpl; lia).
      specialize (IH _ Hn'); cbn zeta in IH; cbv beta.
      remember (whileLoop' n (cycleEnd s p q sessionId d c)) as X eqn:EX.
      clear EX; destruct IH as (I1 & I2 & I3 & I4 & I5).
      simpl in I3, I4, I5; rewrite length_app in I3; simpl in I3.
      repeat split; auto; lia.
    + unfold ret; cbn [fst snd]; repeat split; auto; lia.
Qed.

(** A cycle that sets [taskComplete] is the last one of its turn, and the
    statement after the loop adds nothing. *)
Lemma runTurn_last_cycle (s s1 : Session) :
  loopCondition MAX_ITERATIONS s = true ->
  loopBody' s = (Normal tt, s1) -> taskComplete s1 = true ->
  runTurn' s = (Normal tt, s1).
Proof.
  intros Cond E Done.
  unfold runTurn, bind; rewrite whileLoop_unfold, Cond.
  unfold bind; rewrite E.
  assert (Stop : loopCondition MAX_ITERATIONS s1 = false)
    by (unfold loopCondition; rewrite Done; reflexivity).
  rewrite whileLoop_unfold, Stop.
  unfold ret, afterLoop; rewrite Done; reflexivity.
Qed.

Lemma thinking_reply (n : nat) (transcript : list Message) :
  alwaysThinking create ->
  exists r body,
    replyOf (create n transcript) = Normal r
    /\ mapResponseToLinearActivityContent r = Normal (ThoughtContent body).
Proof.
  intros H; destruct (H n transcript) as (r & E & S).
  destruct (mapResponse_body r L.Thought (js "THINKING:")
              (or_introl eq_refl)) as (c & C & T & _);
    [discriminate | exact S |].
  destruct c; try discriminate.
  exists r, body; split; [|exact C].
  rewrite E; destruct r; [discriminate | reflexivity].
Qed.

Lemma thinking_loop (n : nat) :
  alwaysThinking create ->
  forall s, MAX_ITERATIONS - iterations s = n ->
    (iterations s <= MAX_ITERATIONS)%nat -> taskComplete s = false ->
    exists s' thoughts,
      whileLoop' n s = (Normal tt, s')
      /\ taskComplete s' = false
      /\ iterations s' = MAX_ITERATIONS
      /\ activities s' = activities s ++ thoughts
      /\ activityTypes thoughts = repeat L.Thought n
      /\ List.length (modelCalls s') = List.length (modelCalls s) + n
      /\ toolCalls s' = toolCalls s.
Proof.
  intros Think; induction n as [|n IH]; intros s Hn Hle Hrun.
  - exists s, []; cbn [whileLoop]; unfold ret.
    rewrite app_nil_r; repeat split; auto; lia.
  - cbn [whileLoop].
    unfold loopCondition; rewrite Hrun.
    replace (iterations s <? MAX_ITERATIONS)%nat with true
      by (symmetry; apply Nat.ltb_lt; lia).
    simpl andb; cbv iota; unfold bind.
    destruct (thinking_reply (List.length (modelCalls s)) (messages s) Think)
      as (r & body & R & C).
    rewrite (loopBody_body s r _ R C) by discriminate.
    cbn [typeOf]; cbv iota beta.
    destruct (IH (cycleEnd s [ {| role := assistant; content := r |} ]
                    [ThoughtContent body] sessionId (taskComplete s) []))
      as (s' & thoughts & E & I1 & I2 & I3 & I4 & I5 & I6);
      [simpl; lia | simpl; lia | exact Hrun |].
    exists s', ({| agentSessionId := sessionId;
                   activityContent := ThoughtContent body |} :: thoughts).
    rewrite E; repeat split; auto.
    + rewrite I3; simpl; rewrite <- app_assoc; reflexivity.
    + unfold activityTypes in *; simpl; rewrite I4; reflexivity.
    + rewrite I5; simpl; rewrite length_app; simpl; lia.
    + rewrite I6; simpl; apply app_nil_r.
Qed.

(** However many passes the loop is allowed, from the distance to
    [MAX_ITERATIONS] on, the guard ends it before the allowance does, and
    it comes out as [whileLoop] on that distance does. *)
Lemma whileLoopWithin_enough (fuel : nat) :
  forall s, (MAX_ITERATIONS - iterations s <= fuel)%nat ->
    whileLoopWithin MAX_ITERATIONS create getCoordinates getWeather fuel
      sessionId s
    = Some (whileLoop' (MAX_ITERATIONS - iterations s) s).
Proof.
  induction fuel as [|fuel IH]; intros s Hle;
    rewrite whileLoop_unfold; cbn [whileLoopWithin];
    destruct (loopCondition MAX_ITERATIONS s) eqn:Cond; try reflexivity.
  - destruct (loopCondition_lt s Cond) as [_ Hlt]; lia.
  - destruct (loopCondition_lt s Cond) as [_ Hlt].
    unfold bind.
    destruct (loopBody_cycle s) as (p & q & d & c & E & _); rewrite E.
    apply IH; simpl; lia.
Qed.

Lemma handleUserPromptWithin_enough (prompt userPrompt : jsstring)
    (s0 : Session) (fuel : nat) :
  (MAX_ITERATIONS <= fuel)%nat ->
  handleUserPromptWithin prompt MAX_ITERATIONS create getCoordinates
    getWeather fuel userPrompt sessionId s0
  = Some (handleUserPrompt prompt MAX_ITERATIONS create getCoordinates
            getWeather userPrompt sessionId s0).
Proof.
  intros Hle.
  unfold handleUserPromptWithin, handleUserPrompt, runTurn, bind.
  cbn [startTurn].
  rewrite whileLoopWithin_enough by (simpl; lia).
  set (s1 := {| messages := _ |}).
  pose proof (whileLoop_stops _ s1 eq_refl) as Stops.
  cbn zeta in Stops; destruct Stops as (Normally & _).
  destruct (whileLoop' (MAX_ITERATIONS - iterations s1) s1) as [c s2].
  cbn [fst] in Normally; subst c; reflexivity.
Qed.

(** The turn as [handleUserPrompt] computes it. *)
Lemma handleUserPrompt_bounded (prompt userPrompt : jsstring)
    (s0 : Session) :
  let turn :=
    handleUserPrompt prompt MAX_ITERATIONS create getCoordinates getWeather
      userPrompt sessionId s0 in
  fst turn = Normal tt
  /\ List.length (modelCalls (snd turn))
     = List.length (modelCalls s0) + iterations (snd turn)
  /\ (iterations (snd turn) <= MAX_ITERATIONS)%nat
  /\ (List.length (modelCalls (snd turn))
      <= List.length (modelCalls s0) + MAX_ITERATIONS)%nat
  /\ (alwaysThinking create ->
      exists thoughts,
        iterations (snd turn) = MAX_ITERATIONS
        /\ List.length (modelCalls (snd turn))
           = List.length (modelCalls s0) + MAX_ITERATIONS
        /\ activities (snd turn)
           = activities s0 ++ thoughts
             ++ [ {| agentSessionId := sessionId;
                     activityContent := ErrorContent maxIterationsMessage |} ]
        /\ activityTypes thoughts = repeat L.Thought MAX_ITERATIONS
        /\ toolCalls (snd turn) = toolCalls s0).
Proof.
  cbn zeta.
  change (handleUserPrompt prompt MAX_ITERATIONS create getCoordinates
            getWeather userPrompt sessionId s0)
    with (runTurn' (snd (startTurn prompt userPrompt s0))).
  set (s1 := snd (startTurn prompt userPrompt s0)).
  assert (I0 : iterations s1 = 0) by reflexivity.
  assert (T0 : taskComplete s1 = false) by reflexivity.
  assert (A0 : activities s1 = activities s0) by reflexivity.
  assert (C0 : modelCalls s1 = modelCalls s0) by reflexivity.
  assert (X0 : toolCalls s1 = toolCalls s0) by reflexivity.
  clearbody s1.
  unfold runTurn, bind.
  assert (General := whileLoop_stops _ s1 eq_refl).
  cbn zeta in General.
  destruct General as (G1 & G2 & G3 & G4 & G5).
  assert (Think := fun H => thinking_loop _ H s1 eq_refl).
  destruct (whileLoop' (MAX_ITERATIONS - iterations s1) s1) as [c s2] eqn:W.
  cbn [fst snd] in *; subst c; cbv beta iota.
  assert (M : modelCalls (snd (afterLoop MAX_ITERATIONS sessionId s2))
              = modelCalls s2
              /\ iterations (snd (afterLoop MAX_ITERATIONS sessionId s2))
                 = iterations s2
              /\ fst (afterLoop MAX_ITERATIONS sessionId s2) = Normal tt).
  { unfold afterLoop.
    destruct (negb (taskComplete s2) && _); repeat split; reflexivity. }
  destruct M as (M1 & M2 & F).
  rewrite I0, C0 in *.
  repeat split.
  - exact F.
  - rewrite M1, M2; lia.
  - rewrite M2; apply G5; lia.
  - rewrite M1; specialize (G5 (Nat.le_0_l _)); lia.
  - intros H.
    destruct (Think H (Nat.le_0_l _) T0)
      as (s' & thoughts & E & T1 & T2 & T3 & T4 & T5 & T6).
    inversion E; subst s'; clear E.
    exists thoughts; unfold afterLoop; rewrite T1, T2, Nat.leb_refl.
    simpl; rewrite T3, T5, T6, A0, X0, <- app_assoc.
    rewrite Nat.sub_0_r in *.
    repeat split; auto.
Qed.

(** C1. In every turn the model is called at most [MAX_ITERATIONS] times:
    however many passes the loop is allowed, from [MAX_ITERATIONS] on, it
    is the guard that ends it; the turn ends normally, each pass of the
    loop calls the model once and the counter never passes the maximum.
    With a model that always answers with a THINKING: text, the turn makes
    exactly [MAX_ITERATIONS] passes and model calls, each publishing a
    Thought, and then publishes the maximum-iterations Error activity, the
    last activity of the turn, without calling the model again. *)
Theorem loop_bounded_by_max_iterations (prompt userPrompt : jsstring)
    (s0 : Session) (fuel : nat) :
  (MAX_ITERATIONS <= fuel)%nat ->
  exists turn,
    handleUserPromptWithin prompt MAX_ITERATIONS create getCoordinates
      getWeather fuel userPrompt sessionId s0
    = Some turn
    /\ fst turn = Normal tt
    /\ List.length (modelCalls (snd turn))
       = List.length (modelCalls s0) + iterations (snd turn)
    /\ (iterations (snd turn) <= MAX_ITERATIONS)%nat
    /\ (List.length (modelCalls (snd turn))
        <= List.length (modelCalls s0) + MAX_ITERATIONS)%nat
    /\ (alwaysThinking create ->
        exists thoughts,
          iterations (snd turn) = MAX_ITERATIONS
          /\ List.length (modelCalls (snd turn))
             = List.length (modelCalls s0) + MAX_ITERATIONS
          /\ activities (snd turn)
             = activities s0 ++ thoughts
               ++ [ {| agentSessionId := sessionId;
                       activityContent :=
                         ErrorContent maxIterationsMessage |} ]
          /\ activityTypes thoughts = repeat L.Thought MAX_ITERATIONS
          /\ toolCalls (snd turn) = toolCalls s0).
Proof.
  intros Hle.
  exists (handleUserPrompt prompt MAX_ITERATIONS create getCoordinates
            getWeather userPrompt sessionId s0).
  split; [apply handleUserPromptWithin_enough; exact Hle|].
  exact (handleUserPrompt_bounded prompt userPrompt s0).
Qed.

Lemma callOpenAI_reply (s : Session) (r : jsstring) :
  fst (callOpenAI' (messages s) s) = Normal r ->
  replyOf (create (List.length (modelCalls s)) (messages s)) = Normal r.
Proof. rewrite callOpenAI_run; auto. Qed.

(** C3. When the text the model returns in a running cycle is a
    classification error (no keyword begins it, or it begins with ACTION:
    and the pattern's leftmost match names a tool outside the enumeration,
    or it begins with ACTION: and the pattern has no match), the classifier
    throws, that cycle publishes one activity, an Error with the thrown
    message after "Agent error: ", and the turn ends there: nothing is
    added to the transcript, no tool is called, and the model call of that
    cycle is the last one of the turn. *)
Theorem classification_error_ends_turn (s : Session) (r : jsstring) :
  loopCondition MAX_ITERATIONS s = true ->
  fst (callOpenAI' (messages s) s) = Normal r ->
  (forall type keyword,
      In (type, keyword) typeToKeyword -> startsWith r keyword = false)
  \/ (startsWith r (js "ACTION:") = true
      /\ exists name params,
           actionPattern r = Some (name, params)
           /\ isToolName name = false)
  \/ (startsWith r (js "ACTION:") = true /\ actionPattern r = None) ->
  exists message,
    mapResponseToLinearActivityContent r = Throw (ErrorObject message)
    /\ runTurn' s
       = (Normal tt,
          cycleEnd s [] [ErrorContent (js "Agent error: " ++ message)]
            sessionId true []).
Proof.
  intros Cond R Bad; apply callOpenAI_reply in R.
  assert (C : exists message,
             mapResponseToLinearActivityContent r
             = Throw (ErrorObject message)).
  { destruct Bad as [None_ | [(Hs & name & params & P & T) | (Hs & P)]].
    - apply findType_none in None_.
      unfold mapResponseToLinearActivityContent, mapResponseWith.
      rewrite None_; eexists; reflexivity.
    - rewrite (mapResponse_action r Hs), P, T; eexists; reflexivity.
    - rewrite (mapResponse_action r Hs), P; eexists; reflexivity. }
  destruct C as [message C]; exists message; split; [exact C|].
  apply runTurn_last_cycle; [exact Cond | | reflexivity].
  rewrite (loopBody_throw s (ErrorObject message)); [reflexivity|].
  right; exists r; auto.
Qed.

(** C4, as the code has it. A parameter that is [null] or empty makes the
    executor throw "Parameter is required for action execution". A
    getWeather parameter is refused, with "Invalid parameter for getWeather
    action", exactly when it has no comma or one of its first two
    comma-separated fields does not begin with a number; a field that only
    begins with a number, and the fields after the second, do not count,
    and the tool is then called. In both cases of refusal no tool is
    called. An Action cycle in which the executor throws without calling a
    tool publishes the intent and then an Error activity whose body is
    "Agent error: " followed by the message; nothing is added to the
    transcript and the turn ends with that cycle. *)
Theorem invalid_parameter_ends_turn :
  (forall action parameter s,
      isFalsy parameter = true ->
      executeAction' action parameter s
      = (Throw (Error (js "Parameter is required for action execution")), s))
  /\ (forall parameter s,
        isFalsy (Some parameter) = false ->
        validWeatherParameter parameter = false ->
        executeAction' (js "getWeather") (Some parameter) s
        = (Throw (Error (js "Invalid parameter for getWeather action")), s))
  /\ (forall parameter s,
        isFalsy (Some parameter) = false ->
        validWeatherParameter parameter = true ->
        exists first second,
          executeAction' (js "getWeather") (Some parameter) s
          = (getWeather (List.length (toolCalls s)) first second,
             withToolCalls s [CallGetWeather first second]))
  /\ (forall s r action parameter result error,
        loopCondition MAX_ITERATIONS s = true ->
        fst (callOpenAI' (messages s) s) = Normal r ->
        mapResponseToLinearActivityContent r
        = Normal (ActionContent action parameter result) ->
        executeAction' action parameter s = (Throw error, s) ->
        runTurn' s
        = (Normal tt,
           cycleEnd s []
             [ ActionContent action parameter result;
               ErrorContent (js "Agent error: " ++ messageOf error) ]
             sessionId true [])).
Proof.
  split; [|split; [|split]].
  - intros action parameter s H; unfold executeAction; rewrite H; reflexivity.
  - intros parameter s H T; unfold executeAction, switchAction.
    rewrite H.
    change (string_eqb (js "getWeather") (js "getCoordinates")) with false.
    change (string_eqb (js "getWeather") (js "getWeather")) with true.
    cbv iota zeta; cbn [stringOf]; rewrite twoNumbers_valid, T; reflexivity.
  - intros parameter s H T; unfold executeAction, switchAction.
    rewrite H.
    change (string_eqb (js "getWeather") (js "getCoordinates")) with false.
    change (string_eqb (js "getWeather") (js "getWeather")) with true.
    cbv iota zeta; cbn [stringOf]; rewrite twoNumbers_valid, T.
    eexists; eexists; reflexivity.
  - intros s r action parameter result error Cond R C X.
    apply callOpenAI_reply in R.
    apply runTurn_last_cycle; [exact Cond | | reflexivity].
    rewrite (loopBody_action s r action parameter result (Throw error) []
               R C); [reflexivity|].
    rewrite withToolCalls_nil; exact X.
Qed.

(** C5, as the code has it. An Action cycle in which the executor returns
    publishes exactly two activities: the intent, without result, and then
    the same tool name and parameter with the result. (What the executor
    completes with depends on the session only through the tool calls made
    so far, which the start of the cycle does not change; the hypothesis
    reads it off the session at the start of the cycle.) *)
Theorem action_cycle_publishes_intent_then_result (s : Session)
    (r : jsstring) (action : ToolName) (parameter result : option jsstring)
    (toolResult : jsstring) :
  fst (callOpenAI' (messages s) s) = Normal r ->
  mapResponseToLinearActivityContent r
  = Normal (ActionContent action parameter result) ->
  fst (executeAction' action parameter s) = Normal toolResult ->
  fst (loopBody' s) = Normal tt
  /\ activities (snd (loopBody' s))
     = activities s
       ++ [ {| agentSessionId := sessionId;
               activityContent := ActionContent action parameter None |};
            {| agentSessionId := sessionId;
               activityContent :=
                 ActionContent action parameter (Some toolResult) |} ]
  /\ taskComplete (snd (loopBody' s)) = taskComplete s.
Proof.
  intros R C X; apply callOpenAI_reply in R.
  destruct (classified_action_parameter r action parameter result C)
    as ((p & -> & Hp) & ->).
  destruct (executeAction_frame action (Some p) s) as (c & calls & _ & F).
  specialize (F s eq_refl); rewrite F in X; simpl in X; subst c.
  rewrite (loopBody_action s r action (Some p) None (Normal toolResult)
             calls R C F).
  destruct p; [congruence|]; repeat split.
Qed.

(** C6. For a getWeather parameter [a,b] whose two fields are numbers, the
    executor calls the weather tool once, with the number read from [b] as
    first argument and the number read from [a] as second argument; the
    tool step of the earlier [runAgentMode] does the same. *)
Theorem getWeather_receives_longitude_first (a b : jsstring) (s : Session) :
  forallb (fun c => negb (char_eqb c comma)) a = true ->
  forallb (fun c => negb (char_eqb c comma)) b = true ->
  isNaN (parseFloat (trim a)) = false ->
  isNaN (parseFloat (trim b)) = false ->
  executeAction' (js "getWeather") (Some (a ++ comma :: b)) s
  = (getWeather (List.length (toolCalls s))
       (parseFloat (trim b)) (parseFloat (trim a)),
     withToolCalls s
       [CallGetWeather (parseFloat (trim b)) (parseFloat (trim a))])
  /\ Worker.executeTool getCoordinates getWeather (js "getWeather")
       (a ++ comma :: b) s
     = (getWeather (List.length (toolCalls s))
          (parseFloat (trim b)) (parseFloat (trim a)),
        withToolCalls s
          [CallGetWeather (parseFloat (trim b)) (parseFloat (trim a))]).
Proof.
  intros Ha Hb Na Nb.
  assert (Parts : paramPartsOf (a ++ comma :: b)
                  = [parseFloat (trim a); parseFloat (trim b)]).
  { unfold paramPartsOf.
    rewrite (split_app comma a b Ha), (split_no_sep comma b Hb).
    reflexivity. }
  assert (Two : twoNumbers (paramPartsOf (a ++ comma :: b)) = true).
  { rewrite Parts; unfold twoNumbers; simpl; rewrite Na, Nb; reflexivity. }
  assert (Truthy : isFalsy (Some (a ++ comma :: b)) = false)
    by (destruct a; reflexivity).
  split.
  - unfold executeAction; rewrite Truthy; unfold switchAction.
    change (string_eqb (js "getWeather") (js "getCoordinates")) with false.
    change (string_eqb (js "getWeather") (js "getWeather")) with true.
    cbv iota zeta; cbn [stringOf]; rewrite Two, Parts; reflexivity.
  - unfold Worker.executeTool, jsstring; rewrite Truthy.
    change (string_eqb (js "getWeather") (js "getCoordinates")) with false.
    change (string_eqb (js "getWeather") (js "getWeather")) with true.
    cbv iota zeta; simpl andb; cbv iota; rewrite Two, Parts; reflexivity.
Qed.

(** The two cases the [switch] has: with a parameter that is not empty,
    ["getCoordinates"] calls the geocoding tool on the parameter without its
    double quotes. (For ["getWeather"] see C6.) *)
Lemma getCoordinates_is_dispatched (parameter : jsstring) (s : Session) :
  isFalsy (Some parameter) = false ->
  executeAction' (js "getCoordinates") (Some parameter) s
  = (getCoordinates (List.length (toolCalls s))
       (removeAll doubleQuote parameter),
     withToolCalls s
       [CallGetCoordinates (removeAll doubleQuote parameter)]).
Proof.
  intros H; unfold executeAction; rewrite H; reflexivity.
Qed.

End Turn.

(** A tool call names its tool. *)
Lemma executeAction_dispatch
    (getCoordinates : nat -> jsstring -> Completion jsstring)
    (getWeather : nat -> Number -> Number -> Completion jsstring)
    (action : ToolName) (parameter : jsstring) (s : Session) :
  isFalsy (Some parameter) = false ->
  (isToolName action = false ->
   executeAction getCoordinates getWeather action (Some parameter) s
   = (Throw (UnreachableCaseError action), s))
  /\ (isToolName action = true ->
      validParameter action parameter = true ->
      exists call,
        toolOf call = action
        /\ executeAction getCoordinates getWeather action (Some parameter) s
           = (outcomeOf getCoordinates getWeather
                (List.length (toolCalls s)) call,
              withToolCalls s [call])).
Proof.
  intros Truthy; unfold executeAction, switchAction, isToolName,
    validParameter.
  rewrite Truthy; cbn [stringOf].
  destruct (string_eqb action (js "getCoordinates")) eqn:C.
  - apply string_eqb_eq in C; subst action.
    split; [discriminate|]; intros _ _.
    exists (CallGetCoordinates (removeAll doubleQuote parameter)).
    split; reflexivity.
  - destruct (string_eqb action (js "getWeather")) eqn:W.
    + apply string_eqb_eq in W; subst action.
      split; [discriminate|]; intros _ Valid.
      rewrite twoNumbers_valid, Valid.
      exists (CallGetWeather (nth 1 (paramPartsOf parameter) NaN)
                (nth 0 (paramPartsOf parameter) NaN)).
      split; reflexivity.
    + split; [reflexivity | discriminate].
Qed.


(** ** The theorems at work *)



(** Ten thoughts, ten model calls, then the maximum-iterations Error, with
    twenty-five passes allowed. *)
Lemma loop_bounded_by_max_iterations_witness :
  alwaysThinking Examples.thinkingModel
  /\ exists turn,
       handleUserPromptWithin Examples.prompt Examples.MAX_ITERATIONS
         Examples.thinkingModel Examples.getCoordinates Examples.getWeather
         25 Examples.userPrompt Examples.sessionId freshSession
       = Some turn
       /\ iterations (snd turn) = 10
       /\ List.length (modelCalls (snd turn)) = 10
       /\ activityTypes (activities (snd turn))
          = repeat L.Thought 10 ++ [L.Error].
Proof.
  assert (H : alwaysThinking Examples.thinkingModel)
    by (intros n t; eexists; split; reflexivity).
  split; [exact H|].
  destruct (loop_bounded_by_max_iterations
              Examples.MAX_ITERATIONS Examples.thinkingModel
              Examples.getCoordinates Examples.getWeather
              Examples.sessionId Examples.prompt Examples.userPrompt
              freshSession 25 ltac:(unfold Examples.MAX_ITERATIONS; lia))
    as (turn & Run & _ & _ & _ & _ & Think).
  destruct (Think H) as (thoughts & I & C & A & T & _).
  exists turn; split; [exact Run|].
  split; [exact I|]; split; [exact C|].
  rewrite A; unfold activityTypes in *; simpl.
  rewrite map_app, T; reflexivity.
Defined.

(** A text without keyword ends the turn at once with an Error activity. *)
Lemma classification_error_ends_turn_witness :
  exists message,
    mapResponseToLinearActivityContent (js "The weather in Paris is sunny")
    = Throw (ErrorObject message)
    /\ runTurn Examples.MAX_ITERATIONS Examples.chattyModel
         Examples.getCoordinates Examples.getWeather Examples.sessionId
         Examples.turnStart
       = (Normal tt,
          cycleEnd Examples.turnStart []
            [ErrorContent (js "Agent error: " ++ message)]
            Examples.sessionId true []).
Proof.
  apply (classification_error_ends_turn Examples.MAX_ITERATIONS
           Examples.chattyModel Examples.getCoordinates Examples.getWeather
           Examples.sessionId Examples.turnStart
           (js "The weather in Paris is sunny")).
  - reflexivity.
  - reflexivity.
  - left; intros type keyword Hin.
    table_cases Hin; inversion Hin; subst; reflexivity.
Defined.

(** ["abc, -74.0"]: no tool call, an Error activity, and the turn is over.
    ["12abc, -74.0"] and ["1, 2, abc"] are accepted. *)
Lemma invalid_parameter_ends_turn_witness :
  executeAction Examples.getCoordinates Examples.getWeather
    (js "getWeather") None freshSession
  = (Throw (Error (js "Parameter is required for action execution")),
     freshSession)
  /\ validWeatherParameter (js "abc, -74.0") = false
  /\ executeAction Examples.getCoordinates Examples.getWeather
       (js "getWeather") (Some (js "abc, -74.0")) freshSession
     = (Throw (Error (js "Invalid parameter for getWeather action")),
        freshSession)
  /\ validWeatherParameter (js "12abc, -74.0") = true
  /\ validWeatherParameter (js "1, 2, abc") = true
  /\ (exists first second,
        executeAction Examples.getCoordinates Examples.getWeather
          (js "getWeather") (Some (js "12abc, -74.0")) freshSession
        = (Normal (js "22 degrees, clear sky"),
           withToolCalls freshSession [CallGetWeather first second]))
  /\ runTurn Examples.MAX_ITERATIONS Examples.badLatitudeModel
       Examples.getCoordinates Examples.getWeather Examples.sessionId
       Examples.turnStart
     = (Normal tt,
        cycleEnd Examples.turnStart []
          [ ActionContent (js "getWeather") (Some (js "abc, -74.0")) None;
            ErrorContent
              (js "Agent error: Invalid parameter for getWeather action") ]
          Examples.sessionId true []).
Proof.
  pose proof (invalid_parameter_ends_turn Examples.MAX_ITERATIONS
                Examples.badLatitudeModel Examples.getCoordinates
                Examples.getWeather Examples.sessionId)
    as (H1 & H2 & H3 & H4).
  split; [|split; [|split; [|split; [|split; [|split]]]]].
  - apply H1; reflexivity.
  - reflexivity.
  - apply H2; reflexivity.
  - reflexivity.
  - reflexivity.
  - destruct (H3 (js "12abc, -74.0") freshSession eq_refl eq_refl)
      as (first & second & Run).
    exists first, second; exact Run.
  - apply (H4 Examples.turnStart (js "ACTION: getWeather(abc, -74.0)")
             (js "getWeather") (Some (js "abc, -74.0")) None
             (Error (js "Invalid parameter for getWeather action")));
      reflexivity.
Defined.

(** C4 as stated fails. The model asks for [getWeather(abc, -74.0)] and
    would answer again if it were asked: the tool is not called, but
    nothing is added to the transcript, [taskComplete] is set, and the
    model is not called a second time. *)
Lemma invalid_weather_parameter_stops_loop :
  let turn :=
    handleUserPrompt Examples.prompt Examples.MAX_ITERATIONS
      Examples.badLatitudeModel Examples.getCoordinates Examples.getWeather
      Examples.userPrompt Examples.sessionId freshSession in
  toolCalls (snd turn) = []
  /\ messages (snd turn) = messages Examples.turnStart
  /\ taskComplete (snd turn) = true
  /\ List.length (modelCalls (snd turn)) = 1
  /\ activityTypes (activities (snd turn)) = [L.Action; L.Error].
Proof. vm_compute; repeat split. Qed.

(** A cycle whose executor returns: intent, then result. *)
Lemma action_cycle_publishes_intent_then_result_witness :
  let cycle :=
    loopBody Examples.weatherModel Examples.getCoordinates
      Examples.getWeather Examples.sessionId Examples.turnStart in
  fst cycle = Normal tt
  /\ activities (snd cycle)
     = [ {| agentSessionId := Examples.sessionId;
            activityContent :=
              ActionContent (js "getWeather") (Some (js "40.0, -74.0"))
                None |};
         {| agentSessionId := Examples.sessionId;
            activityContent :=
              ActionContent (js "getWeather") (Some (js "40.0, -74.0"))
                (Some (js "22 degrees, clear sky")) |} ]
  /\ taskComplete (snd cycle) = false.
Proof.
  exact (action_cycle_publishes_intent_then_result Examples.weatherModel
           Examples.getCoordinates Examples.getWeather Examples.sessionId
           Examples.turnStart (js "ACTION: getWeather(40.0, -74.0)")
           (js "getWeather") (Some (js "40.0, -74.0")) None
           (js "22 degrees, clear sky") eq_refl eq_refl eq_refl).
Defined.

(** C5 as stated fails. In the cycle of [getWeather(abc, -74.0)] the intent
    is published, the executor throws, and the second activity of the cycle
    is an Error, not the Action with its result. *)
Lemma action_cycle_with_throw_publishes_error :
  activities
    (snd (loopBody Examples.badLatitudeModel Examples.getCoordinates
            Examples.getWeather Examples.sessionId Examples.turnStart))
  = [ {| agentSessionId := Examples.sessionId;
         activityContent :=
           ActionContent (js "getWeather") (Some (js "abc, -74.0")) None |};
      {| agentSessionId := Examples.sessionId;
         activityContent :=
           ErrorContent
             (js "Agent error: Invalid parameter for getWeather action") |} ].
Proof. vm_compute; reflexivity. Qed.

(** ["40.0, -74.0"]: the tool receives -74.0 and then 40.0. *)
Lemma getWeather_receives_longitude_first_witness :
  executeAction Examples.getCoordinates Examples.getWeather
    (js "getWeather") (Some (js "40.0, -74.0")) freshSession
  = (Normal (js "22 degrees, clear sky"),
     withToolCalls freshSession
       [CallGetWeather (Decimal true 740 (-1)) (Decimal false 400 (-1))])
  /\ Worker.executeTool Examples.getCoordinates Examples.getWeather
       (js "getWeather") (js "40.0, -74.0") freshSession
     = (Normal (js "22 degrees, clear sky"),
        withToolCalls freshSession
          [CallGetWeather (Decimal true 740 (-1)) (Decimal false 400 (-1))]).
Proof.
  exact (getWeather_receives_longitude_first Examples.getCoordinates
           Examples.getWeather (js "40.0") (js " -74.0") freshSession
           eq_refl eq_refl eq_refl eq_refl).
Defined.

(** ** The model at work *)

Example parseFloat_decimal :
  parseFloat (js " -74.0060") = Decimal true 740060 (-4).
Proof. reflexivity. Qed.

Example parseFloat_prefix :
  parseFloat (js "1.5e3km") = Decimal false 15 2.
Proof. reflexivity. Qed.

Example parseFloat_incomplete_exponent :
  parseFloat (js "12e+") = Decimal false 12 0.
Proof. reflexivity. Qed.

Example parseFloat_not_a_number :
  parseFloat (js "abc") = NaN /\ parseFloat (js ".") = NaN
  /\ parseFloat [] = NaN.
Proof. repeat split. Qed.

Example split_fields :
  split comma (js "40.7128, -74.0060") = [js "40.7128"; js " -74.0060"]
  /\ split comma [] = [[]]
  /\ split comma (js "a,,b") = [js "a"; []; js "b"].
Proof. repeat split. Qed.

Example trim_both_ends :
  trim (js "  Sunny, 22 C ") = js "Sunny, 22 C".
Proof. reflexivity. Qed.

Example replace_first_occurrence :
  replace (js "ERROR: an ERROR: inside") (js "ERROR:") []
  = js " an ERROR: inside".
Proof. reflexivity. Qed.

(** The pattern is not anchored: a later call is found when the text does
    not start with one. *)
Example actionPattern_leftmost :
  actionPattern (js "ACTION: first I call ACTION:getTime(1,2) then stop")
  = Some (js "getTime", js "1,2").
Proof. reflexivity. Qed.

Example classify_unknown_tool :
  mapResponseToLinearActivityContent (js "ACTION: lookup(Paris)")
  = Throw (Error (js "Invalid tool name: lookup")).
Proof. reflexivity. Qed.

Example classify_no_keyword :
  mapResponseToLinearActivityContent (js "thinking: lower case")
  = Throw (UnreachableCaseError (js "undefined")).
Proof. reflexivity. Qed.

(** The conversation about Paris: four model calls, six activities, two
    tool calls, and the transcript that the last model call received. *)
Example paris_turn :
  let turn :=
    handleUserPrompt Examples.prompt Examples.MAX_ITERATIONS
      Examples.parisModel Examples.getCoordinates Examples.getWeather
      Examples.userPrompt Examples.sessionId freshSession in
  fst turn = Normal tt
  /\ activityTypes (activities (snd turn))
     = [L.Thought; L.Action; L.Action; L.Action; L.Action; L.Response]
  /\ toolCalls (snd turn)
     = [ CallGetCoordinates (js "Paris");
         CallGetWeather (Decimal false 235 (-2)) (Decimal false 4885 (-2)) ]
  /\ List.length (modelCalls (snd turn)) = 4
  /\ List.map role (messages (snd turn))
     = [system; user; assistant; assistant; user; assistant; user]
  /\ taskComplete (snd turn) = true.
Proof. vm_compute; repeat split. Qed.

(** * Further properties of the session loop *)

Section MoreTurn.

Variable MAX_ITERATIONS : nat.
Variable create : nat -> list Message -> ApiOutcome.
Variable getCoordinates : nat -> jsstring -> Completion jsstring.
Variable getWeather : nat -> Number -> Number -> Completion jsstring.
Variable sessionId : jsstring.

Local Abbreviation callOpenAI' := (callOpenAI create).
Local Abbreviation executeAction' := (executeAction getCoordinates getWeather).
Local Abbreviation loopBody' :=
  (loopBody create getCoordinates getWeather sessionId).
Local Abbreviation whileLoop' :=
  (fun fuel => whileLoop MAX_ITERATIONS create getCoordinates getWeather
                 fuel sessionId).
Local Abbreviation runTurn' :=
  (runTurn MAX_ITERATIONS create getCoordinates getWeather sessionId).

(** The two ways a cycle can end. Either it sets [taskComplete], adds
    nothing to the transcript, and the last activity it publishes is a
    Response, an Elicitation or an Error (after at most the intent of an
    action); or it leaves [taskComplete] alone, adds one or two messages,
    none of them a system message, and publishes one or two activities that
    are Thoughts or Actions. *)
Lemma loopBody_shape (s : Session) :
  exists pushed published done calls,
    loopBody' s = (Normal tt, cycleEnd s pushed published sessionId done calls)
    /\ (List.length calls <= 1)%nat
    /\ ((done = true /\ pushed = []
         /\ exists pre c,
              published = pre ++ [c] /\ terminal c = true
              /\ forallb (fun x => negb (terminal x)) pre = true
              /\ (List.length pre <= 1)%nat)
        \/ (done = taskComplete s /\ pushed <> []
            /\ (List.length pushed <= 2)%nat
            /\ forallb nonSystem pushed = true
            /\ published <> []
            /\ (List.length published <= 2)%nat
            /\ forallb (fun x => negb (terminal x)) published = true)).
Proof.
  destruct (replyOf (create (List.length (modelCalls s)) (messages s)))
    as [r | e] eqn:R.
  2:{ do 4 eexists; split; [apply loopBody_throw; left; exact R|].
      split; [simpl; lia|]; left; repeat split.
      exists [], (ErrorContent (js "Agent error: " ++ messageOf e)).
      repeat split; simpl; lia. }
  destruct (mapResponseToLinearActivityContent r) as [c | e] eqn:C.
  2:{ do 4 eexists; split; [apply loopBody_throw; right; eauto|].
      split; [simpl; lia|]; left; repeat split.
      exists [], (ErrorContent (js "Agent error: " ++ messageOf e)).
      repeat split; simpl; lia. }
  destruct (L.eqb (typeOf c) L.Action) eqn:T.
  - destruct c; try discriminate.
    destruct (executeAction_frame getCoordinates getWeather action
                parameter s) as (outcome & calls & Hc & F).
    rewrite (loopBody_action _ _ _ _ s r action parameter result outcome
               calls R C (F s eq_refl)).
    destruct outcome as [toolResult | error]; do 4 eexists;
      (split; [reflexivity|]); (split; [exact Hc|]).
    + right; repeat split; try discriminate; simpl; lia.
    + left; repeat split.
      exists [ActionContent action parameter result],
        (ErrorContent (js "Agent error: " ++ messageOf error)).
      repeat split; simpl; lia.
  - rewrite (loopBody_body _ getCoordinates getWeather sessionId s r c R C)
      by (intros E; rewrite E in T; discriminate).
    destruct c; try discriminate; do 4 eexists; (split; [reflexivity|]);
      (split; [simpl; lia|]).
    + right; repeat split; try discriminate; simpl; lia.
    + left; repeat split; eexists [], _; repeat split; simpl; lia.
    + left; repeat split; eexists [], _; repeat split; simpl; lia.
    + left; repeat split; eexists [], _; repeat split; simpl; lia.
Qed.

Lemma whileLoop_done (n : nat) (s : Session) :
  taskComplete s = true -> whileLoop' n s = (Normal tt, s).
Proof.
  intros H; destruct n; cbn [whileLoop]; [reflexivity|].
  unfold loopCondition; rewrite H; reflexivity.
Qed.

(** What the loop does from a state in which the task is not complete. *)
Lemma whileLoop_shape (n : nat) :
  forall s, MAX_ITERATIONS - iterations s = n -> taskComplete s = false ->
    exists s' newActs newCalls newMsgs newTools,
      whileLoop' n s = (Normal tt, s')
      /\ activities s' = activities s ++ publishedAs sessionId newActs
      /\ modelCalls s' = modelCalls s ++ newCalls
      /\ messages s' = messages s ++ newMsgs
      /\ toolCalls s' = toolCalls s ++ newTools
      /\ iterations s' = iterations s + List.length newCalls
      /\ (iterations s <= MAX_ITERATIONS -> iterations s' <= MAX_ITERATIONS)%nat
      /\ (List.length newTools <= List.length newCalls)%nat
      /\ (List.length newActs <= 2 * List.length newCalls)%nat
      /\ forallb nonSystem newMsgs = true
      /\ (forall t, In t newCalls ->
                    exists a b, newMsgs = a ++ b /\ t = messages s ++ a)
      /\ match newCalls with
         | [] => True
         | t :: _ => t = messages s
         end
      /\ strictlyGrowing newCalls
      /\ ((taskComplete s' = true
           /\ exists pre c, newActs = pre ++ [c] /\ terminal c = true
                            /\ forallb (fun x => negb (terminal x)) pre = true)
          \/ (taskComplete s' = false
              /\ (MAX_ITERATIONS <= iterations s')%nat
              /\ forallb (fun x => negb (terminal x)) newActs = true)).
Proof.
  induction n as [|n IH]; intros s Hn Hrun.
  - exists s, [], [], [], []; cbn [whileLoop]; unfold ret, publishedAs.
    simpl; rewrite !app_nil_r.
    repeat split; auto; try lia; try (intros t []).
    right; repeat split; auto; lia.
  - cbn [whileLoop]; unfold loopCondition; rewrite Hrun.
    replace (iterations s <? MAX_ITERATIONS)%nat with true
      by (symmetry; apply Nat.ltb_lt; lia).
    simpl andb; cbv iota; unfold bind.
    destruct (loopBody_shape s)
      as (pushed & published & done & calls & E & Hcalls & Shape).
    rewrite E.
    destruct Shape as [(-> & -> & pre & c & -> & Tc & Tpre & Lpre)
                      | (-> & Hpushed & Lpushed & Npushed & Hpub & Lpub
                         & Tpub)].
    + rewrite whileLoop_done by reflexivity.
      exists (cycleEnd s [] (pre ++ [c]) sessionId true calls),
        (pre ++ [c]), [messages s], [], calls.
      simpl; rewrite !app_nil_r.
      repeat split; auto; try lia.
      * rewrite length_app; simpl; lia.
      * intros t [<- | []]; exists [], []; rewrite !app_nil_r; auto.
      * left; split; [reflexivity|]; exists pre, c; auto.
    + rewrite Hrun.
      destruct (IH (cycleEnd s pushed published sessionId false calls))
        as (s' & acts & cs & msgs & tools & W & A & C & M & T & I & IM & LT & LA
            & NS & Pre & Hd & G & Sh); [simpl; lia | reflexivity |].
      exists s', (published ++ acts), (messages s :: cs), (pushed ++ msgs),
        (calls ++ tools).
      simpl in A, C, M, T, I, IM, Hd.
      rewrite W, A, C, M, T, I.
      unfold publishedAs; rewrite map_app, !length_app, forallb_app.
      rewrite <- !app_assoc; simpl.
      repeat split; auto; try lia.
      * rewrite Npushed, NS; reflexivity.
      * intros t [<- | Hin].
        -- exists [], (pushed ++ msgs); rewrite !app_nil_r; auto.
        -- destruct (Pre t Hin) as (a & b & -> & ->).
           exists (pushed ++ a), b; simpl; rewrite <- ?app_assoc; auto.
      * destruct cs as [|t2 cs']; [trivial|].
        subst t2; exists pushed; auto.
      * destruct Sh as [(D & pre & c & -> & Tc & Tpre) | (D & Hmax & Tacts)].
        -- left; split; [exact D|].
           exists (published ++ pre), c; rewrite <- app_assoc, forallb_app.
           rewrite Tpub, Tpre; auto.
        -- right; repeat split; auto; [lia|].
           rewrite forallb_app, Tpub, Tacts; reflexivity.
Qed.


(** A whole turn from a state in which the task is not complete. *)
Lemma runTurn_shape (s : Session) :
  taskComplete s = false -> (iterations s <= MAX_ITERATIONS)%nat ->
  exists s' pre c newCalls newMsgs newTools,
    runTurn' s = (Normal tt, s')
    /\ activities s' = activities s ++ publishedAs sessionId (pre ++ [c])
    /\ terminal c = true
    /\ forallb (fun x => negb (terminal x)) pre = true
    /\ modelCalls s' = modelCalls s ++ newCalls
    /\ messages s' = messages s ++ newMsgs
    /\ toolCalls s' = toolCalls s ++ newTools
    /\ (iterations s + List.length newCalls <= MAX_ITERATIONS)%nat
    /\ (List.length newTools <= List.length newCalls)%nat
    /\ (List.length pre <= 2 * List.length newCalls)%nat
    /\ forallb nonSystem newMsgs = true
    /\ (forall t, In t newCalls ->
                  exists a b, newMsgs = a ++ b /\ t = messages s ++ a)
    /\ match newCalls with
       | [] => True
       | t :: _ => t = messages s
       end
    /\ strictlyGrowing newCalls.
Proof.
  intros Hrun Hle.
  destruct (whileLoop_shape _ s eq_refl Hrun)
    as (s' & acts & cs & msgs & tools & W & A & C & M & T & I & IM & LT & LA
        & NS & Pre & Hd & G & Sh).
  unfold runTurn, bind; rewrite W; unfold afterLoop.
  specialize (IM Hle).
  destruct Sh as [(D & pre & c & -> & Tc & Tpre) | (D & Hmax & Tacts)];
    rewrite D.
  - exists s', pre, c, cs, msgs, tools; simpl andb; cbv iota; unfold ret.
    rewrite length_app in LA; simpl in LA.
    repeat split; auto; lia.
  - replace (MAX_ITERATIONS <=? iterations s')%nat with true
      by (symmetry; apply Nat.leb_le; exact Hmax).
    simpl andb; cbv iota.
    eexists; exists acts, (ErrorContent maxIterationsMessage), cs, msgs, tools.
    split; [reflexivity|]; simpl.
    rewrite A, C, M, T; unfold publishedAs; rewrite map_app, <- app_assoc.
    repeat split; auto; lia.
Qed.

(** X1. A reply that begins with RESPONSE:, ELICITATION: or ERROR: ends
    the turn in its cycle: one activity of that kind is published, with the
    trimmed text after the keyword as body; the reply is not added to the
    transcript, no tool is called and the model is not called again. *)
Theorem terminal_reply_ends_turn (s : Session) (r : jsstring)
    (type : L.AgentActivityType) (keyword : jsstring) :
  loopCondition MAX_ITERATIONS s = true ->
  fst (callOpenAI' (messages s) s) = Normal r ->
  In (type, keyword) typeToKeyword -> terminalType type = true ->
  startsWith r keyword = true ->
  exists c,
    typeOf c = type
    /\ bodyOf c = Some (trim (skipn (List.length keyword) r))
    /\ runTurn' s = (Normal tt, cycleEnd s [] [c] sessionId true []).
Proof.
  intros Cond R Hin Ht Hs; apply callOpenAI_reply in R.
  destruct (mapResponse_body r type keyword Hin) as (c & C & T & B);
    [intros ->; discriminate | exact Hs |].
  exists c; repeat split; auto.
  apply runTurn_last_cycle; [exact Cond | | ].
  - rewrite (loopBody_body _ getCoordinates getWeather sessionId s r c R C)
      by (rewrite T; intros ->; discriminate).
    rewrite T; destruct type; try discriminate; reflexivity.
  - reflexivity.
Qed.

(** X2. When the model call of a cycle fails, the turn ends in that cycle:
    one Error activity is published, whose body names the failure after
    "Agent error: OpenAI API error: "; the call is not tried again. *)
Theorem model_failure_ends_turn (s : Session) (error : Thrown) :
  loopCondition MAX_ITERATIONS s = true ->
  create (List.length (modelCalls s)) (messages s) = ApiThrows error ->
  runTurn' s
  = (Normal tt,
     cycleEnd s []
       [ErrorContent (js "Agent error: " ++ js "OpenAI API error: "
                      ++ messageOf error)]
       sessionId true []).
Proof.
  intros Cond E.
  apply runTurn_last_cycle; [exact Cond | | reflexivity].
  rewrite (loopBody_throw _ getCoordinates getWeather sessionId s
             (Error (js "OpenAI API error: " ++ messageOf error)));
    [reflexivity|].
  left; rewrite E; reflexivity.
Qed.

(** X3. A model reply without content ([null], [undefined] or the empty
    string) is read as "No response", which no keyword begins: the turn
    ends with the Error activity of the unreachable case. *)
Theorem empty_reply_ends_turn (s : Session) :
  loopCondition MAX_ITERATIONS s = true ->
  create (List.length (modelCalls s)) (messages s) = ApiResolves None
  \/ create (List.length (modelCalls s)) (messages s)
     = ApiResolves (Some []) ->
  fst (callOpenAI' (messages s) s) = Normal (js "No response")
  /\ runTurn' s
     = (Normal tt,
        cycleEnd s []
          [ErrorContent (js "Agent error: Unreachable case: undefined")]
          sessionId true []).
Proof.
  intros Cond E.
  assert (R : replyOf (create (List.length (modelCalls s)) (messages s))
              = Normal (js "No response"))
    by (destruct E as [E | E]; rewrite E; reflexivity).
  split; [rewrite callOpenAI_run; exact R|].
  apply runTurn_last_cycle; [exact Cond | | reflexivity].
  rewrite (loopBody_throw _ getCoordinates getWeather sessionId s
             (UnreachableCaseError (js "undefined"))); [reflexivity|].
  right; exists (js "No response"); split; [exact R | reflexivity].
Qed.

(** X4. A reply that begins with THINKING: does not end the turn: its
    trimmed text is published as a Thought, and the reply as the model gave
    it, keyword included, is added to the transcript as an assistant
    message. *)
Theorem thought_keeps_raw_reply (s : Session) (r : jsstring) :
  fst (callOpenAI' (messages s) s) = Normal r ->
  startsWith r (js "THINKING:") = true ->
  loopBody' s
  = (Normal tt,
     cycleEnd s [ {| role := assistant; content := r |} ]
       [ThoughtContent (trim (skipn 9 r))] sessionId (taskComplete s) []).
Proof.
  intros R Hs; apply callOpenAI_reply in R.
  destruct (mapResponse_body r L.Thought (js "THINKING:")
              (or_introl eq_refl)) as (c & C & T & B);
    [discriminate | exact Hs |].
  destruct c; try discriminate.
  simpl in B; inversion B; subst body.
  rewrite (loopBody_body _ getCoordinates getWeather sessionId s r _ R C)
    by discriminate.
  reflexivity.
Qed.

(** X5. When the executor returns in an Action cycle, the transcript gets
    two messages: the reply as the model gave it, as assistant, and
    "Tool result: " followed by the tool's text, as user; the turn goes
    on. *)
Theorem tool_result_is_fed_back (s : Session) (r : jsstring)
    (action : ToolName) (parameter result : option jsstring)
    (toolResult : jsstring) :
  fst (callOpenAI' (messages s) s) = Normal r ->
  mapResponseToLinearActivityContent r
  = Normal (ActionContent action parameter result) ->
  fst (executeAction' action parameter s) = Normal toolResult ->
  messages (snd (loopBody' s))
  = messages s
    ++ [ {| role := assistant; content := r |};
         {| role := user; content := js "Tool result: " ++ toolResult |} ]
  /\ taskComplete (snd (loopBody' s)) = taskComplete s
  /\ modelCalls (snd (loopBody' s)) = modelCalls s ++ [messages s].
Proof.
  intros R C X; apply callOpenAI_reply in R.
  destruct (executeAction_frame getCoordinates getWeather action parameter s)
    as (c & calls & _ & F).
  specialize (F s eq_refl); rewrite F in X; simpl in X; subst c.
  rewrite (loopBody_action _ _ _ _ s r action parameter result
             (Normal toolResult) calls R C F).
  repeat split.
Qed.

(** X6. In every turn, however many passes the loop is allowed from
    [MAX_ITERATIONS] on, the activities published are some Thoughts and
    Actions followed by exactly one Response, Elicitation or Error, which is
    the last activity of the turn; the Thoughts and Actions are at most
    twice as many as the calls of the model. *)
Theorem turn_ends_with_one_terminal_activity (prompt userPrompt : jsstring)
    (s0 : Session) (fuel : nat) :
  (MAX_ITERATIONS <= fuel)%nat ->
  exists s' pre c calls,
    handleUserPromptWithin prompt MAX_ITERATIONS create getCoordinates
      getWeather fuel userPrompt sessionId s0
    = Some (Normal tt, s')
    /\ activities s' = activities s0 ++ publishedAs sessionId (pre ++ [c])
    /\ terminal c = true
    /\ forallb (fun x => negb (terminal x)) pre = true
    /\ modelCalls s' = modelCalls s0 ++ calls
    /\ (List.length pre <= 2 * List.length calls)%nat.
Proof.
  intros Hle.
  rewrite (handleUserPromptWithin_enough MAX_ITERATIONS create
             getCoordinates getWeather sessionId prompt userPrompt s0 fuel
             Hle).
  change (handleUserPrompt prompt MAX_ITERATIONS create getCoordinates
            getWeather userPrompt sessionId s0)
    with (runTurn' (snd (startTurn prompt userPrompt s0))).
  destruct (runTurn_shape (snd (startTurn prompt userPrompt s0)) eq_refl
              (Nat.le_0_l _))
    as (s' & pre & c & cs & msgs & tools & E & A & Tc & Tpre & C & _ & _
        & _ & _ & Lpre & _).
  rewrite E; exists s', pre, c, cs; simpl in A, C |- *.
  repeat split; auto.
Qed.

(** X7. The transcript of a turn only grows. The first model call receives
    the system prompt and the user prompt; every later call receives the
    transcript of the call before it with at least one message more; every
    transcript sent is the opening transcript followed by messages that are
    not system messages, and is a prefix of the transcript at the end of
    the turn. *)
Theorem transcripts_strictly_grow (prompt userPrompt : jsstring)
    (s0 : Session) :
  let turn :=
    handleUserPrompt prompt MAX_ITERATIONS create getCoordinates getWeather
      userPrompt sessionId s0 in
  exists calls added,
    modelCalls (snd turn) = modelCalls s0 ++ calls
    /\ messages (snd turn) = openingTranscript prompt userPrompt ++ added
    /\ forallb nonSystem added = true
    /\ match calls with
       | [] => True
       | first :: _ => first = openingTranscript prompt userPrompt
       end
    /\ strictlyGrowing calls
    /\ (forall t, In t calls ->
                  exists a b,
                    added = a ++ b
                    /\ t = openingTranscript prompt userPrompt ++ a).
Proof.
  cbn zeta.
  change (handleUserPrompt prompt MAX_ITERATIONS create getCoordinates
            getWeather userPrompt sessionId s0)
    with (runTurn' (snd (startTurn prompt userPrompt s0))).
  destruct (runTurn_shape (snd (startTurn prompt userPrompt s0)) eq_refl
              (Nat.le_0_l _))
    as (s' & pre & c & cs & msgs & tools & E & _ & _ & _ & C & M & _
        & _ & _ & _ & NS & Pre & Hd & G).
  rewrite E; exists cs, msgs; simpl in C, M, Pre, Hd |- *.
  repeat split; auto.
Qed.

(** X8. A cycle calls at most one tool, and the guard stops the loop at
    [MAX_ITERATIONS] passes however many it is allowed from there on: a
    turn makes no more tool calls than model calls, and no more than
    [MAX_ITERATIONS] of either. *)
Theorem tool_calls_bounded (prompt userPrompt : jsstring) (s0 : Session)
    (fuel : nat) :
  (MAX_ITERATIONS <= fuel)%nat ->
  exists s' tools calls,
    handleUserPromptWithin prompt MAX_ITERATIONS create getCoordinates
      getWeather fuel userPrompt sessionId s0
    = Some (Normal tt, s')
    /\ toolCalls s' = toolCalls s0 ++ tools
    /\ modelCalls s' = modelCalls s0 ++ calls
    /\ (List.length tools <= List.length calls)%nat
    /\ (List.length calls <= MAX_ITERATIONS)%nat.
Proof.
  intros Hle.
  rewrite (handleUserPromptWithin_enough MAX_ITERATIONS create
             getCoordinates getWeather sessionId prompt userPrompt s0 fuel
             Hle).
  change (handleUserPrompt prompt MAX_ITERATIONS create getCoordinates
            getWeather userPrompt sessionId s0)
    with (runTurn' (snd (startTurn prompt userPrompt s0))).
  destruct (runTurn_shape (snd (startTurn prompt userPrompt s0)) eq_refl
              (Nat.le_0_l _))
    as (s' & pre & c & cs & msgs & tools & E & _ & _ & _ & C & _ & T
        & Hb & LT & _).
  rewrite E; exists s', tools, cs; simpl in C, T, Hb |- *.
  repeat split; auto.
Qed.

End MoreTurn.

(** ** The further properties at work *)

(** The conversation about Paris, with a dozen passes allowed. *)
Lemma turn_ends_with_one_terminal_activity_witness :
  exists s' pre c calls,
    handleUserPromptWithin Examples.prompt Examples.MAX_ITERATIONS
      Examples.parisModel Examples.getCoordinates Examples.getWeather
      12 Examples.userPrompt Examples.sessionId freshSession
    = Some (Normal tt, s')
    /\ activities s' = publishedAs Examples.sessionId (pre ++ [c])
    /\ terminal c = true
    /\ modelCalls s' = calls
    /\ (List.length pre <= 2 * List.length calls)%nat.
Proof.
  destruct (turn_ends_with_one_terminal_activity Examples.MAX_ITERATIONS
              Examples.parisModel Examples.getCoordinates
              Examples.getWeather Examples.sessionId Examples.prompt
              Examples.userPrompt freshSession 12
              ltac:(unfold Examples.MAX_ITERATIONS; lia))
    as (s' & pre & c & calls & Run & A & Tc & _ & C & L).
  exists s', pre, c, calls; repeat split; assumption.
Defined.

Lemma tool_calls_bounded_witness :
  exists s' tools calls,
    handleUserPromptWithin Examples.prompt Examples.MAX_ITERATIONS
      Examples.parisModel Examples.getCoordinates Examples.getWeather
      12 Examples.userPrompt Examples.sessionId freshSession
    = Some (Normal tt, s')
    /\ toolCalls s' = tools
    /\ modelCalls s' = calls
    /\ (List.length tools <= List.length calls)%nat
    /\ (List.length calls <= 10)%nat.
Proof.
  destruct (tool_calls_bounded Examples.MAX_ITERATIONS
              Examples.parisModel Examples.getCoordinates
              Examples.getWeather Examples.sessionId Examples.prompt
              Examples.userPrompt freshSession 12
              ltac:(unfold Examples.MAX_ITERATIONS; lia))
    as (s' & tools & calls & Run & T & C & L1 & L2).
  exists s', tools, calls; repeat split; assumption.
Defined.

(** An ELICITATION: reply ends the turn with the question as only
    activity. *)
Lemma terminal_reply_ends_turn_witness :
  exists c,
    typeOf c = L.Elicitation
    /\ bodyOf c = Some (js "Which city would you like?")
    /\ runTurn Examples.MAX_ITERATIONS MoreExamples.askingModel
         Examples.getCoordinates Examples.getWeather Examples.sessionId
         Examples.turnStart
       = (Normal tt,
          cycleEnd Examples.turnStart [] [c] Examples.sessionId true []).
Proof.
  exact (terminal_reply_ends_turn Examples.MAX_ITERATIONS
           MoreExamples.askingModel Examples.getCoordinates
           Examples.getWeather Examples.sessionId Examples.turnStart
           (js "ELICITATION: Which city would you like?")
           L.Elicitation (js "ELICITATION:") eq_refl eq_refl
           (or_intror (or_intror (or_intror (or_introl eq_refl))))
           eq_refl eq_refl).
Defined.

(** A rate-limited model call. *)
Lemma model_failure_ends_turn_witness :
  runTurn Examples.MAX_ITERATIONS MoreExamples.failingModel
    Examples.getCoordinates Examples.getWeather Examples.sessionId
    Examples.turnStart
  = (Normal tt,
     cycleEnd Examples.turnStart []
       [ErrorContent
          (js "Agent error: OpenAI API error: 429 rate limit exceeded")]
       Examples.sessionId true []).
Proof.
  exact (model_failure_ends_turn Examples.MAX_ITERATIONS
           MoreExamples.failingModel Examples.getCoordinates
           Examples.getWeather Examples.sessionId Examples.turnStart
           (ErrorObject (js "429 rate limit exceeded")) eq_refl eq_refl).
Defined.

(** A reply whose content is [null]. *)
Lemma empty_reply_ends_turn_witness :
  fst (callOpenAI MoreExamples.silentModel (messages Examples.turnStart)
         Examples.turnStart) = Normal (js "No response")
  /\ runTurn Examples.MAX_ITERATIONS MoreExamples.silentModel
       Examples.getCoordinates Examples.getWeather Examples.sessionId
       Examples.turnStart
     = (Normal tt,
        cycleEnd Examples.turnStart []
          [ErrorContent (js "Agent error: Unreachable case: undefined")]
          Examples.sessionId true []).
Proof.
  exact (empty_reply_ends_turn Examples.MAX_ITERATIONS
           MoreExamples.silentModel Examples.getCoordinates
           Examples.getWeather Examples.sessionId Examples.turnStart
           eq_refl (or_introl eq_refl)).
Defined.

(** The first cycle of the model that only thinks. *)
Lemma thought_keeps_raw_reply_witness :
  loopBody Examples.thinkingModel Examples.getCoordinates
    Examples.getWeather Examples.sessionId Examples.turnStart
  = (Normal tt,
     cycleEnd Examples.turnStart
       [ {| role := assistant;
            content :=
              js "THINKING: I need the coordinates of Paris first" |} ]
       [ThoughtContent (js "I need the coordinates of Paris first")]
       Examples.sessionId false []).
Proof.
  exact (thought_keeps_raw_reply Examples.thinkingModel
           Examples.getCoordinates Examples.getWeather Examples.sessionId
           Examples.turnStart
           (js "THINKING: I need the coordinates of Paris first")
           eq_refl eq_refl).
Defined.

(** The weather of 40.0, -74.0 goes back to the model. *)
Lemma tool_result_is_fed_back_witness :
  let cycle :=
    loopBody Examples.weatherModel Examples.getCoordinates
      Examples.getWeather Examples.sessionId Examples.turnStart in
  messages (snd cycle)
  = messages Examples.turnStart
    ++ [ {| role := assistant;
            content := js "ACTION: getWeather(40.0, -74.0)" |};
         {| role := user;
            content := js "Tool result: 22 degrees, clear sky" |} ]
  /\ taskComplete (snd cycle) = false
  /\ modelCalls (snd cycle) = [messages Examples.turnStart].
Proof.
  exact (tool_result_is_fed_back Examples.weatherModel
           Examples.getCoordinates Examples.getWeather Examples.sessionId
           Examples.turnStart (js "ACTION: getWeather(40.0, -74.0)")
           (js "getWeather") (Some (js "40.0, -74.0")) None
           (js "22 degrees, clear sky") eq_refl eq_refl eq_refl).
Defined.
(** * Further properties of the classifier and the executor *)

Lemma trimEnd_keeps_start (t : jsstring) :
  stopsAt isSpace t -> stopsAt isSpace (trimEnd t).
Proof.
  intros H; destruct (trimEnd_prefix t) as (tail & E & _).
  destruct (trimEnd t) as [|c u]; [exact I|].
  rewrite E in H; exact H.
Qed.

Lemma trimEnd_idempotent (t : jsstring) : trimEnd (trimEnd t) = trimEnd t.
Proof.
  unfold trimEnd; rewrite rev_involutive, dropWhile_idempotent; reflexivity.
Qed.

Lemma trim_trimStart (s : jsstring) : trimStart (trim s) = trim s.
Proof.
  unfold trim, trimStart at 1.
  apply dropWhile_stop, trimEnd_keeps_start, dropWhile_stops.
Qed.

Lemma trim_trimEnd (s : jsstring) : trimEnd (trim s) = trim s.
Proof. unfold trim; apply trimEnd_idempotent. Qed.

(** X9. A text [ACTION:], optional white space, a name of word characters,
    and a parenthesised argument without closing parenthesis inside is
    classified by its name alone: for a tool name it is an Action that
    carries the name and the argument as written, quotes and spaces
    included, whatever follows the closing parenthesis; for any other name
    the classifier throws "Invalid tool name". *)
Theorem well_formed_action_is_classified (ws name params rest : jsstring) :
  forallb isSpace ws = true ->
  name <> [] -> forallb isWord name = true ->
  params <> [] -> forallb notCloseParen params = true ->
  mapResponseToLinearActivityContent
    (js "ACTION:" ++ ws ++ name ++ openParen :: params
     ++ closeParen :: rest)
  = if isToolName name
    then Normal (ActionContent name (Some params) None)
    else Throw (Error (js "Invalid tool name: " ++ name)).
Proof.
  intros Hws Hne Hn Hpe Hp.
  rewrite mapResponse_action by apply startsWith_app.
  rewrite (actionPattern_here _ name params); [reflexivity|].
  apply actionPatternAt_spec; exists ws, rest; repeat split; assumption.
Qed.

Lemma well_formed_action_is_classified_witness :
  mapResponseToLinearActivityContent
    (js "ACTION: getCoordinates(" ++ [doubleQuote] ++ js "New York"
     ++ [doubleQuote] ++ js ") and then the weather")
  = Normal (ActionContent (js "getCoordinates")
              (Some ([doubleQuote] ++ js "New York" ++ [doubleQuote]))
              None).
Proof.
  exact (well_formed_action_is_classified (js " ") (js "getCoordinates")
           ([doubleQuote] ++ js "New York" ++ [doubleQuote])
           (js " and then the weather") eq_refl
           ltac:(discriminate) eq_refl ltac:(discriminate) eq_refl).
Defined.

(** X10. The keyword has to be the very beginning of the text, in capitals:
    a text that is empty or whose first code unit is none of T, A, R, E
    (a space or a line feed before the keyword, a keyword in lower case)
    makes the classifier throw the unreachable-case error. *)
Theorem keyword_must_come_first (response : jsstring) :
  match response with
  | [] => True
  | c :: _ => c <> 84%N /\ c <> 65%N /\ c <> 82%N /\ c <> 69%N
  end ->
  mapResponseToLinearActivityContent response
  = Throw (UnreachableCaseError (js "undefined")).
Proof.
  intros H.
  assert (F : findType typeToKeyword response = None).
  { apply findType_none; intros t keyword Hin.
    destruct response as [|c rest];
      table_cases Hin; inversion Hin; subst; try reflexivity;
      simpl; destruct H as (HT & HA & HR & HE);
      match goal with
      | |- char_eqb c ?k && _ = false =>
          replace (char_eqb c k) with false; [reflexivity|];
          symmetry; apply N.eqb_neq; assumption
      end. }
  unfold mapResponseToLinearActivityContent, mapResponseWith; rewrite F.
  reflexivity.
Qed.

Lemma keyword_must_come_first_witness :
  mapResponseToLinearActivityContent (js " RESPONSE: It is sunny")
  = Throw (UnreachableCaseError (js "undefined"))
  /\ mapResponseToLinearActivityContent (js "response: It is sunny")
     = Throw (UnreachableCaseError (js "undefined")).
Proof.
  split.
  - apply (keyword_must_come_first (js " RESPONSE: It is sunny")).
    simpl; repeat split; discriminate.
  - apply (keyword_must_come_first (js "response: It is sunny")).
    simpl; repeat split; discriminate.
Defined.

(** X11. The body of a classified Thought, Response, Elicitation or Error
    has no white space at either end. *)
Theorem classified_body_is_trimmed (response : jsstring) (c : Content)
    (body : jsstring) :
  mapResponseToLinearActivityContent response = Normal c ->
  bodyOf c = Some body ->
  trimStart body = body /\ trimEnd body = body /\ trim body = body.
Proof.
  unfold mapResponseToLinearActivityContent, mapResponseWith.
  intros C B.
  assert (T : exists x, body = trim x).
  { destruct (findType typeToKeyword response) as [[]|];
      try discriminate;
      try (inversion C; subst c; simpl in B; inversion B; eexists;
           reflexivity).
    destruct (actionPattern response) as [[n p]|]; [|discriminate].
    destruct (negb (isToolName n)); [discriminate|].
    inversion C; subst c; discriminate. }
  destruct T as [x ->].
  assert (S1 := trim_trimStart x); assert (S2 := trim_trimEnd x).
  repeat split; auto.
  unfold trim at 1; rewrite S1; exact S2.
Qed.

Lemma classified_body_is_trimmed_witness :
  trimStart (js "I need   the coordinates") = js "I need   the coordinates"
  /\ trimEnd (js "I need   the coordinates") = js "I need   the coordinates"
  /\ trim (js "I need   the coordinates") = js "I need   the coordinates".
Proof.
  exact (classified_body_is_trimmed
           (js "THINKING:   I need   the coordinates  ")
           (ThoughtContent (js "I need   the coordinates"))
           (js "I need   the coordinates") eq_refl eq_refl).
Defined.

Section MoreExecutor.

Variable getCoordinates : nat -> jsstring -> Completion jsstring.
Variable getWeather : nat -> Number -> Number -> Completion jsstring.

Local Abbreviation executeAction' := (executeAction getCoordinates getWeather).

Lemma removeAll_absent (c : char) (s : jsstring) :
  ~ In c (removeAll c s).
Proof.
  unfold removeAll; intros H; apply filter_In in H.
  destruct H as [_ H]; rewrite char_eqb_refl in H; discriminate.
Qed.

Lemma removeAll_same (c : char) (s : jsstring) :
  forallb (fun d => negb (char_eqb d c)) s = true -> removeAll c s = s.
Proof.
  unfold removeAll; induction s as [|d s IH]; simpl; intros H;
    [reflexivity|].
  apply andb_true_iff in H; destruct H as [Hd Hs].
  rewrite Hd, IH; auto.
Qed.

(** X12. For ["getCoordinates"] and any parameter that is not empty, the
    executor calls the geocoding tool exactly once, on the parameter with
    every double quote removed, wherever it stands; the name passed holds
    no double quote, and a parameter without one is passed as it is. *)
Theorem getCoordinates_strips_quotes (parameter : jsstring) (s : Session) :
  parameter <> [] ->
  executeAction' (js "getCoordinates") (Some parameter) s
  = (getCoordinates (List.length (toolCalls s))
       (removeAll doubleQuote parameter),
     withToolCalls s [CallGetCoordinates (removeAll doubleQuote parameter)])
  /\ ~ In doubleQuote (removeAll doubleQuote parameter)
  /\ (forallb (fun d => negb (char_eqb d doubleQuote)) parameter = true ->
      removeAll doubleQuote parameter = parameter).
Proof.
  intros H; split; [|split].
  - destruct parameter; [congruence | reflexivity].
  - apply removeAll_absent.
  - apply removeAll_same.
Qed.

(** X13. For ["getWeather"] only the first two comma-separated fields
    count: when both are numbers, further fields are ignored, whatever they
    hold, and the tool is called with the second number and then the
    first. *)
Theorem getWeather_ignores_further_fields (a b rest : jsstring)
    (s : Session) :
  forallb (fun c => negb (char_eqb c comma)) a = true ->
  forallb (fun c => negb (char_eqb c comma)) b = true ->
  isNaN (parseFloat (trim a)) = false ->
  isNaN (parseFloat (trim b)) = false ->
  executeAction' (js "getWeather")
    (Some (a ++ comma :: b ++ comma :: rest)) s
  = (getWeather (List.length (toolCalls s))
       (parseFloat (trim b)) (parseFloat (trim a)),
     withToolCalls s
       [CallGetWeather (parseFloat (trim b)) (parseFloat (trim a))]).
Proof.
  intros Ha Hb Na Nb.
  assert (Parts : exists more,
             paramPartsOf (a ++ comma :: b ++ comma :: rest)
             = parseFloat (trim a) :: parseFloat (trim b) :: more).
  { unfold paramPartsOf.
    rewrite (split_app comma a _ Ha), (split_app comma b _ Hb).
    eexists; reflexivity. }
  destruct Parts as [more Parts].
  assert (Two : twoNumbers (paramPartsOf (a ++ comma :: b ++ comma :: rest))
                = true).
  { rewrite Parts; unfold twoNumbers; cbn [nth List.length Nat.leb].
    rewrite Na, Nb; reflexivity. }
  unfold executeAction.
  replace (isFalsy (Some (a ++ comma :: b ++ comma :: rest))) with false
    by (destruct a; reflexivity).
  unfold switchAction.
  change (string_eqb (js "getWeather") (js "getCoordinates")) with false.
  change (string_eqb (js "getWeather") (js "getWeather")) with true.
  cbv iota zeta; cbn [stringOf]; rewrite Two, Parts; reflexivity.
Qed.

(** X14. A ["getWeather"] parameter without a comma is never accepted: the
    executor throws "Invalid parameter for getWeather action" and calls no
    tool. *)
Theorem getWeather_needs_two_fields (parameter : jsstring) (s : Session) :
  parameter <> [] ->
  forallb (fun c => negb (char_eqb c comma)) parameter = true ->
  executeAction' (js "getWeather") (Some parameter) s
  = (Throw (Error (js "Invalid parameter for getWeather action")), s).
Proof.
  intros Hne Hc.
  unfold executeAction.
  replace (isFalsy (Some parameter)) with false
    by (destruct parameter; [congruence | reflexivity]).
  unfold switchAction.
  change (string_eqb (js "getWeather") (js "getCoordinates")) with false.
  change (string_eqb (js "getWeather") (js "getWeather")) with true.
  cbv iota zeta; cbn [stringOf].
  unfold paramPartsOf; rewrite (split_no_sep comma parameter Hc).
  reflexivity.
Qed.

End MoreExecutor.

Lemma getCoordinates_strips_quotes_witness :
  executeAction Examples.getCoordinates Examples.getWeather
    (js "getCoordinates")
    (Some ([doubleQuote] ++ js "New York" ++ [doubleQuote])) freshSession
  = (Normal (js "{}"),
     withToolCalls freshSession [CallGetCoordinates (js "New York")]).
Proof.
  exact (proj1 (getCoordinates_strips_quotes Examples.getCoordinates
                  Examples.getWeather
                  ([doubleQuote] ++ js "New York" ++ [doubleQuote])
                  freshSession ltac:(discriminate))).
Defined.

Lemma getWeather_ignores_further_fields_witness :
  executeAction Examples.getCoordinates Examples.getWeather
    (js "getWeather") (Some (js "48.85, 2.35, Paris, France")) freshSession
  = (Normal (js "22 degrees, clear sky"),
     withToolCalls freshSession
       [CallGetWeather (Decimal false 235 (-2)) (Decimal false 4885 (-2))]).
Proof.
  exact (getWeather_ignores_further_fields Examples.getCoordinates
           Examples.getWeather (js "48.85") (js " 2.35")
           (js " Paris, France") freshSession
           eq_refl eq_refl eq_refl eq_refl).
Defined.

Lemma getWeather_needs_two_fields_witness :
  executeAction Examples.getCoordinates Examples.getWeather
    (js "getWeather") (Some (js "48.85 2.35")) freshSession
  = (Throw (Error (js "Invalid parameter for getWeather action")),
     freshSession).
Proof.
  exact (getWeather_needs_two_fields Examples.getCoordinates
           Examples.getWeather (js "48.85 2.35") freshSession
           ltac:(discriminate) eq_refl).
Defined.
(** * Properties of [runAgentMode] *)

Section RunAgentModeProperties.

Variable create : nat -> list Message -> ApiOutcome.
Variable getCoordinates : nat -> jsstring -> Completion jsstring.
Variable getWeather : nat -> Number -> Number -> Completion jsstring.
Variable sessionId : jsstring.

Local Abbreviation body' :=
  (RunAgentMode.loopBody create getCoordinates getWeather sessionId).
Local Abbreviation loop' :=
  (fun fuel => RunAgentMode.whileLoop create getCoordinates getWeather
                 fuel sessionId).
Local Abbreviation executeTool' :=
  (Worker.executeTool getCoordinates getWeather).

Lemma replyOf_nonempty (outcome : ApiOutcome) (r : jsstring) :
  replyOf outcome = Normal r -> r <> [].
Proof.
  destruct outcome as [[[|c rest]|]|e]; simpl; intros H; inversion H;
    discriminate.
Qed.

Lemma action_not_thinking (r : jsstring) :
  startsWith r (js "ACTION:") = true ->
  startsWith r (js "THINKING:") = false.
Proof.
  destruct r as [|c r]; [discriminate|]; simpl; intros H.
  apply andb_true_iff in H; destruct H as [H _].
  apply char_eqb_eq in H; subst c; reflexivity.
Qed.

(** The tool step changes nothing of the session but the record of tool
    calls, and reads nothing but their number. *)
Lemma executeTool_frame (toolName params : jsstring) (s : Session) :
  exists c calls,
    (List.length calls <= 1)%nat /\
    forall s', toolCalls s' = toolCalls s ->
               executeTool' toolName params s'
               = (c, withToolCalls s' calls).
Proof.
  unfold Worker.executeTool.
  destruct (string_eqb toolName (js "getCoordinates")
            && negb (isFalsy (Some params))).
  { exists (getCoordinates (List.length (toolCalls s))
              (removeAll doubleQuote params)).
    exists [CallGetCoordinates (removeAll doubleQuote params)].
    split; [simpl; lia|]; intros s' E.
    unfold invokeGetCoordinates, AgentClient.bind, recordToolCall,
      liftCompletion.
    rewrite <- E; reflexivity. }
  destruct (string_eqb toolName (js "getWeather")
            && negb (isFalsy (Some params))).
  { destruct (twoNumbers (paramPartsOf params)).
    - exists (getWeather (List.length (toolCalls s))
                (nth 1 (paramPartsOf params) NaN)
                (nth 0 (paramPartsOf params) NaN)).
      exists [CallGetWeather (nth 1 (paramPartsOf params) NaN)
                (nth 0 (paramPartsOf params) NaN)].
      split; [simpl; lia|]; intros s' E.
      unfold invokeGetWeather, AgentClient.bind, recordToolCall,
        liftCompletion.
      rewrite <- E; reflexivity.
    - eexists; exists []; split; [simpl; lia|]; intros s' _.
      rewrite withToolCalls_nil; reflexivity. }
  eexists; exists []; split; [simpl; lia|]; intros s' _.
  rewrite withToolCalls_nil; reflexivity.
Qed.

Ltac run_worker_cycle :=
  unfold RunAgentMode.loopBody, RunAgentMode.tryCatch, RunAgentMode.tryBlock,
    RunAgentMode.catchBlock, RunAgentMode.bind, RunAgentMode.lift,
    incrIterations;
  cbn [fst snd messages taskComplete iterations activities modelCalls
       toolCalls];
  rewrite callOpenAI_run;
  cbn [fst snd messages taskComplete iterations activities modelCalls
       toolCalls].

(** The session at the end of a cycle of [runAgentMode]. *)
Lemma cycleEnd_nothing_published (s : Session) (pushed : list Message)
    (done : bool) (calls : list ToolCall) :
  cycleEnd s pushed [] sessionId done calls
  = {| messages := messages s ++ pushed; taskComplete := done;
       iterations := S (iterations s); activities := activities s;
       modelCalls := modelCalls s ++ [messages s];
       toolCalls := toolCalls s ++ calls |}.
Proof. unfold cycleEnd; simpl; rewrite app_nil_r; reflexivity. Qed.

Lemma orElse_nonempty (r fallback : jsstring) :
  r <> [] -> RunAgentMode.orElse r fallback = r.
Proof. destruct r; [congruence | reflexivity]. Qed.

Lemma worker_fallback (st : RunAgentMode.State) (r : jsstring) :
  replyOf (create (List.length (modelCalls (fst st))) (messages (fst st)))
  = Normal r ->
  (forall type keyword,
      In (type, keyword) typeToKeyword -> startsWith r keyword = false) ->
  body' st
  = (Normal tt,
     (cycleEnd (fst st) [ {| role := assistant; content := r |} ] []
        sessionId (taskComplete (fst st)) [],
      snd st ++ [(sessionId, RunAgentMode.ThoughtBody r)])).
Proof.
  intros R None.
  pose proof (replyOf_nonempty _ _ R) as Nonempty.
  assert (T : startsWith r (js "THINKING:") = false)
    by (apply (None L.Thought); simpl; tauto).
  assert (A : startsWith r (js "ACTION:") = false)
    by (apply (None L.Action); simpl; tauto).
  assert (P : startsWith r (js "RESPONSE:") = false)
    by (apply (None L.Response); simpl; tauto).
  assert (E : startsWith r (js "ELICITATION:") = false)
    by (apply (None L.Elicitation); simpl; tauto).
  assert (F : startsWith r (js "ERROR:") = false)
    by (apply (None L.Error); simpl; tauto).
  destruct st as [s log]; cbn [fst snd] in *.
  run_worker_cycle.
  rewrite R; cbv iota beta.
  rewrite T, A, P, E, F.
  unfold RunAgentMode.createAgentActivity, pushMessage.
  cbn [fst snd messages taskComplete iterations activities modelCalls
       toolCalls].
  rewrite !(orElse_nonempty r _ Nonempty).
  rewrite cycleEnd_nothing_published, app_nil_r; reflexivity.
Qed.

Lemma worker_dropped_action (st : RunAgentMode.State) (r : jsstring) :
  replyOf (create (List.length (modelCalls (fst st))) (messages (fst st)))
  = Normal r ->
  startsWith r (js "ACTION:") = true ->
  actionPattern r = None ->
  body' st
  = (Normal tt,
     (cycleEnd (fst st) [] [] sessionId (taskComplete (fst st)) [],
      snd st)).
Proof.
  intros R A None.
  destruct st as [s log]; cbn [fst snd] in *.
  run_worker_cycle.
  rewrite R; cbv iota beta.
  rewrite (action_not_thinking r A), A, None.
  unfold RunAgentMode.ret.
  rewrite cycleEnd_nothing_published, !app_nil_r; reflexivity.
Qed.

Lemma worker_action (st : RunAgentMode.State) (r toolName params : jsstring)
    (toolResult : jsstring) (calls : list ToolCall) :
  replyOf (create (List.length (modelCalls (fst st))) (messages (fst st)))
  = Normal r ->
  startsWith r (js "ACTION:") = true ->
  actionPattern r = Some (toolName, params) ->
  (forall s', toolCalls s' = toolCalls (fst st) ->
              executeTool' toolName params s'
              = (Normal toolResult, withToolCalls s' calls)) ->
  body' st
  = (Normal tt,
     (cycleEnd (fst st)
        [ {| role := assistant; content := r |};
          {| role := user; content := js "Tool result: " ++ toolResult |} ]
        [] sessionId (taskComplete (fst st)) calls,
      snd st
      ++ [ (sessionId,
            RunAgentMode.ActionBody toolName
              (RunAgentMode.actionDescription toolName)
              (RunAgentMode.orElse params []));
           (sessionId,
            RunAgentMode.ActionBody toolName
              (RunAgentMode.resultDescription toolName)
              (RunAgentMode.orElse params [])) ])).
Proof.
  intros R A Match Tool.
  destruct st as [s log]; cbn [fst snd] in *.
  run_worker_cycle.
  rewrite R; cbv iota beta.
  rewrite (action_not_thinking r A), A, Match.
  unfold RunAgentMode.createAgentActivity at 1.
  cbn [fst snd].
  cbn [fst snd] in Tool.
  rewrite Tool by reflexivity.
  unfold RunAgentMode.createAgentActivity, pushMessage, withToolCalls.
  cbn [fst snd messages taskComplete iterations activities modelCalls
       toolCalls].
  rewrite cycleEnd_nothing_published, <- !app_assoc; reflexivity.
Qed.

Lemma worker_thought (st : RunAgentMode.State) (r : jsstring) :
  replyOf (create (List.length (modelCalls (fst st))) (messages (fst st)))
  = Normal r ->
  startsWith r (js "THINKING:") = true ->
  body' st
  = (Normal tt,
     (cycleEnd (fst st) [ {| role := assistant; content := r |} ] []
        sessionId (taskComplete (fst st)) [],
      snd st
      ++ [(sessionId,
           RunAgentMode.ThoughtBody
             (trim (replace r (js "THINKING:") [])))])).
Proof.
  intros R T.
  destruct st as [s log]; cbn [fst snd] in *.
  run_worker_cycle.
  rewrite R; cbv iota beta.
  rewrite T.
  unfold RunAgentMode.createAgentActivity, pushMessage.
  cbn [fst snd messages taskComplete iterations activities modelCalls
       toolCalls].
  rewrite cycleEnd_nothing_published, app_nil_r; reflexivity.
Qed.

(** What every cycle of [runAgentMode] does, whatever the model and the
    tools do. *)
Lemma worker_cycle_shape (st : RunAgentMode.State) :
  exists pushed done calls published,
    body' st
    = (Normal tt,
       (cycleEnd (fst st) pushed [] sessionId done calls,
        snd st ++ published))
    /\ (List.length calls <= 1)%nat
    /\ (List.length published <= 2)%nat
    /\ (done = taskComplete (fst st) \/ done = true)
    /\ Forall (fun a => fst a = sessionId) published.
Proof.
  destruct st as [s log]; cbn [fst snd].
  run_worker_cycle.
  destruct (replyOf _) as [r|e]; cbv iota beta.
  2:{ exists [], true, [], [(sessionId,
                 RunAgentMode.ErrorBody (js "Agent error: " ++ messageOf e))].
      unfold RunAgentMode.createAgentActivity, setTaskComplete.
      cbn [fst snd messages taskComplete iterations activities modelCalls
           toolCalls].
      rewrite cycleEnd_nothing_published, !app_nil_r.
      repeat split; simpl; auto; repeat constructor. }
  destruct (startsWith r (js "THINKING:")).
  { eexists [_], (taskComplete s), [], [_].
    unfold RunAgentMode.createAgentActivity, pushMessage.
    cbn [fst snd messages taskComplete iterations activities modelCalls
         toolCalls].
    rewrite cycleEnd_nothing_published, !app_nil_r.
    repeat split; simpl; auto; repeat constructor. }
  destruct (startsWith r (js "ACTION:")).
  { destruct (actionPattern r) as [[toolName params]|].
    2:{ exists [], (taskComplete s), [], [].
        unfold RunAgentMode.ret.
        rewrite cycleEnd_nothing_published, !app_nil_r.
        repeat split; simpl; auto; repeat constructor. }
    unfold RunAgentMode.createAgentActivity at 1.
    cbn [fst snd].
    destruct (executeTool_frame toolName params s) as (c & calls & Hc & Run).
    rewrite Run by reflexivity.
    destruct c as [toolResult|e].
    - eexists [_; _], (taskComplete s), calls, [_; _].
      unfold RunAgentMode.createAgentActivity, pushMessage, withToolCalls.
      cbn [fst snd messages taskComplete iterations activities modelCalls
           toolCalls].
      rewrite cycleEnd_nothing_published, <- !app_assoc.
      repeat split; simpl; auto; repeat constructor.
    - eexists [], true, calls, [_; _].
      unfold RunAgentMode.createAgentActivity, setTaskComplete,
        withToolCalls.
      cbn [fst snd messages taskComplete iterations activities modelCalls
           toolCalls].
      rewrite cycleEnd_nothing_published, <- !app_assoc, !app_nil_r.
      repeat split; simpl; auto; repeat constructor. }
  destruct (startsWith r (js "RESPONSE:")).
  { eexists [], true, [], [_].
    unfold RunAgentMode.createAgentActivity, setTaskComplete.
    cbn [fst snd messages taskComplete iterations activities modelCalls
         toolCalls].
    rewrite cycleEnd_nothing_published, !app_nil_r.
    repeat split; simpl; auto; repeat constructor. }
  destruct (startsWith r (js "ELICITATION:")).
  { eexists [], true, [], [_].
    unfold RunAgentMode.createAgentActivity, setTaskComplete.
    cbn [fst snd messages taskComplete iterations activities modelCalls
         toolCalls].
    rewrite cycleEnd_nothing_published, !app_nil_r.
    repeat split; simpl; auto; repeat constructor. }
  destruct (startsWith r (js "ERROR:")).
  { eexists [], true, [], [_].
    unfold RunAgentMode.createAgentActivity, setTaskComplete.
    cbn [fst snd messages taskComplete iterations activities modelCalls
         toolCalls].
    rewrite cycleEnd_nothing_published, !app_nil_r.
    repeat split; simpl; auto; repeat constructor. }
  eexists [_], (taskComplete s), [], [_].
  unfold RunAgentMode.createAgentActivity, pushMessage.
  cbn [fst snd messages taskComplete iterations activities modelCalls
       toolCalls].
  rewrite cycleEnd_nothing_published, !app_nil_r.
  repeat split; simpl; auto; repeat constructor.
Qed.

(** The loop of [runAgentMode] from any state: it returns, and what it
    added is bounded by the passes it made. *)
Lemma worker_loop_shape (fuel : nat) :
  forall st : RunAgentMode.State,
    exists s' published calls tools,
      loop' fuel st = (Normal tt, (s', snd st ++ published))
      /\ modelCalls s' = modelCalls (fst st) ++ calls
      /\ toolCalls s' = toolCalls (fst st) ++ tools
      /\ activities s' = activities (fst st)
      /\ iterations s' = iterations (fst st) + List.length calls
      /\ (List.length calls <= fuel)%nat
      /\ (List.length tools <= List.length calls)%nat
      /\ (List.length published <= 2 * List.length calls)%nat
      /\ (List.length calls = 0%nat
          \/ iterations s' <= RunAgentMode.maxIterations)%nat
      /\ Forall (fun a => fst a = sessionId) published
      /\ (RunAgentMode.maxIterations - iterations (fst st) <= fuel ->
          RunAgentMode.loopCondition (s', snd st ++ published) = false)%nat.
Proof.
  induction fuel as [|fuel IH]; intros st.
  - exists (fst st), [], [], []; cbn [RunAgentMode.whileLoop].
    unfold RunAgentMode.ret; rewrite !app_nil_r.
    destruct st as [s log]; cbn [fst snd].
    repeat split; auto; try (cbn [List.length]; lia).
    intros Hf; unfold RunAgentMode.loopCondition; cbn [fst].
    replace (iterations s <? RunAgentMode.maxIterations)%nat with false
      by (symmetry; apply Nat.ltb_ge; lia).
    apply andb_false_r.
  - cbn [RunAgentMode.whileLoop].
    destruct (RunAgentMode.loopCondition st) eqn:Cond.
    2:{ exists (fst st), [], [], []; unfold RunAgentMode.ret.
        rewrite !app_nil_r; destruct st as [s log]; cbn [fst snd].
        repeat split; auto; try (cbn [List.length]; lia). }
    unfold RunAgentMode.bind.
    destruct (worker_cycle_shape st)
      as (pushed & done & calls & published & E & Hc & Hp & _ & Sid).
    rewrite E.
    destruct (IH (cycleEnd (fst st) pushed [] sessionId done calls,
                  snd st ++ published))
      as (s' & published' & calls' & tools' & E' & M' & T' & A' & I'
          & Hf' & Ht' & Hp' & Hb' & Sid' & Stop').
    cbn [fst snd] in *.
    rewrite E'.
    exists s', (published ++ published'),
      (messages (fst st) :: calls'), (calls ++ tools').
    unfold RunAgentMode.loopCondition in Cond.
    apply andb_true_iff in Cond; destruct Cond as [_ Lt].
    apply Nat.ltb_lt in Lt.
    rewrite cycleEnd_nothing_published in M', T', A', I', Stop'.
    cbn [messages taskComplete iterations activities modelCalls toolCalls]
      in M', T', A', I', Stop'.
    unfold RunAgentMode.maxIterations in *.
    rewrite !length_app; cbn [List.length].
    repeat split.
    + rewrite app_assoc; reflexivity.
    + rewrite M', <- app_assoc; reflexivity.
    + rewrite T', <- app_assoc; reflexivity.
    + exact A'.
    + lia.
    + lia.
    + lia.
    + lia.
    + right; destruct Hb' as [Z|B]; lia.
    + apply Forall_app; split; assumption.
    + intros Hf; rewrite app_assoc; apply Stop'; lia.
Qed.

Lemma worker_thinking_loop (fuel : nat) :
  alwaysThinking create ->
  forall st : RunAgentMode.State,
    RunAgentMode.maxIterations - iterations (fst st) = fuel ->
    (iterations (fst st) <= RunAgentMode.maxIterations)%nat ->
    taskComplete (fst st) = false ->
    exists s' thoughts,
      loop' fuel st = (Normal tt, (s', snd st ++ thoughts))
      /\ taskComplete s' = false
      /\ List.length (modelCalls s')
         = List.length (modelCalls (fst st)) + fuel
      /\ toolCalls s' = toolCalls (fst st)
      /\ List.length thoughts = fuel
      /\ Forall (fun a => exists body,
                     a = (sessionId, RunAgentMode.ThoughtBody body))
           thoughts.
Proof.
  intros Think; induction fuel as [|fuel IH]; intros st Hf Hle Hrun.
  - exists (fst st), []; cbn [RunAgentMode.whileLoop].
    unfold RunAgentMode.ret; rewrite app_nil_r.
    destruct st as [s log]; cbn [fst snd] in *.
    repeat split; auto.
  - cbn [RunAgentMode.whileLoop].
    unfold RunAgentMode.loopCondition; rewrite Hrun.
    replace (iterations (fst st) <? RunAgentMode.maxIterations)%nat
      with true by (symmetry; apply Nat.ltb_lt; lia).
    simpl andb; cbv iota; unfold RunAgentMode.bind.
    destruct (Think (List.length (modelCalls (fst st))) (messages (fst st)))
      as (r & R & T).
    assert (R' : replyOf (create (List.length (modelCalls (fst st)))
                            (messages (fst st))) = Normal r).
    { rewrite R; destruct r; [discriminate | reflexivity]. }
    rewrite (worker_thought st r R' T).
    destruct (IH (cycleEnd (fst st)
                    [ {| role := assistant; content := r |} ] []
                    sessionId (taskComplete (fst st)) [],
                  snd st
                  ++ [(sessionId,
                       RunAgentMode.ThoughtBody
                         (trim (replace r (js "THINKING:") [])))]))
      as (s' & thoughts & E & I1 & I2 & I3 & I4 & I5);
      [cbn [fst cycleEnd iterations]; lia
      | cbn [fst cycleEnd iterations]; lia
      | exact Hrun |].
    cbn [fst snd] in E, I2, I3.
    rewrite E.
    exists s', ((sessionId,
                 RunAgentMode.ThoughtBody
                   (trim (replace r (js "THINKING:") []))) :: thoughts).
    repeat split; auto.
    + rewrite <- app_assoc; reflexivity.
    + rewrite I2; cbn [cycleEnd modelCalls]; rewrite length_app; simpl; lia.
    + rewrite I3; cbn [cycleEnd toolCalls]; apply app_nil_r.
    + simpl; rewrite I4; reflexivity.
    + constructor; [eexists; reflexivity | exact I5].
Qed.

(** X15. In [runAgentMode], a reply that begins with none of the five
    keywords is no error: the whole reply is published as a Thought and
    added to the transcript as an assistant message, and the run goes
    on. *)
Theorem unlabelled_reply_is_published_as_thought
    (st : RunAgentMode.State) (r : jsstring) :
  fst (callOpenAI create (messages (fst st)) (fst st)) = Normal r ->
  (forall type keyword,
      In (type, keyword) typeToKeyword -> startsWith r keyword = false) ->
  body' st
  = (Normal tt,
     (cycleEnd (fst st) [ {| role := assistant; content := r |} ] []
        sessionId (taskComplete (fst st)) [],
      snd st ++ [(sessionId, RunAgentMode.ThoughtBody r)])).
Proof.
  intros R None; rewrite callOpenAI_run in R.
  exact (worker_fallback st r R None).
Qed.

(** X16. In [runAgentMode], a reply that begins with ACTION: and holds no
    call the pattern matches is dropped: nothing is published, no tool is
    called, and the transcript is left as it was, so that the next call of
    the model gets the same messages. *)
Theorem action_without_call_is_dropped
    (st : RunAgentMode.State) (r : jsstring) :
  fst (callOpenAI create (messages (fst st)) (fst st)) = Normal r ->
  startsWith r (js "ACTION:") = true ->
  actionPattern r = None ->
  body' st
  = (Normal tt,
     (cycleEnd (fst st) [] [] sessionId (taskComplete (fst st)) [],
      snd st))
  /\ messages (fst (snd (body' st))) = messages (fst st).
Proof.
  intros R A None; rewrite callOpenAI_run in R.
  rewrite (worker_dropped_action st r R A None); split; [reflexivity|].
  cbn [fst snd cycleEnd messages]; apply app_nil_r.
Qed.

(** X17. In [runAgentMode], an action whose tool is neither of the two
    tools, or is getWeather with arguments that are not two numbers, calls
    no tool and yet reports success: two action activities are published,
    and the transcript gets the reply and
    "Tool result: Tool executed successfully". *)
Theorem unexecuted_tool_reports_success
    (st : RunAgentMode.State) (r toolName params : jsstring) :
  fst (callOpenAI create (messages (fst st)) (fst st)) = Normal r ->
  startsWith r (js "ACTION:") = true ->
  actionPattern r = Some (toolName, params) ->
  string_eqb toolName (js "getCoordinates") = false ->
  string_eqb toolName (js "getWeather") = false
  \/ twoNumbers (paramPartsOf params) = false ->
  body' st
  = (Normal tt,
     (cycleEnd (fst st)
        [ {| role := assistant; content := r |};
          {| role := user;
             content := js "Tool result: Tool executed successfully" |} ]
        [] sessionId (taskComplete (fst st)) [],
      snd st
      ++ [ (sessionId,
            RunAgentMode.ActionBody toolName
              (RunAgentMode.actionDescription toolName) params);
           (sessionId,
            RunAgentMode.ActionBody toolName
              (RunAgentMode.resultDescription toolName) params) ])).
Proof.
  intros R A Match NotC NotW; rewrite callOpenAI_run in R.
  assert (Nonempty : RunAgentMode.orElse params [] = params)
    by (destruct params; reflexivity).
  rewrite (worker_action st r toolName params
             (js "Tool executed successfully") [] R A Match).
  - rewrite Nonempty; reflexivity.
  - intros s' _; unfold Worker.executeTool.
    rewrite NotC; cbn [andb].
    rewrite withToolCalls_nil.
    destruct NotW as [NotW|Bad].
    + rewrite NotW; reflexivity.
    + rewrite Bad; destruct (_ && _); reflexivity.
Qed.

(** However many passes the loop of [runAgentMode] is allowed, from the
    distance to [maxIterations] on, the guard ends it before the allowance
    does, and it comes out as [whileLoop] on that distance does. *)
Lemma worker_loopWithin_enough (fuel : nat) :
  forall st : RunAgentMode.State,
    (RunAgentMode.maxIterations - iterations (fst st) <= fuel)%nat ->
    RunAgentMode.whileLoopWithin create getCoordinates getWeather fuel
      sessionId st
    = Some (loop' (RunAgentMode.maxIterations - iterations (fst st)) st).
Proof.
  induction fuel as [|fuel IH]; intros st Hle;
    cbn [RunAgentMode.whileLoopWithin];
    destruct (RunAgentMode.loopCondition st) eqn:Cond.
  - unfold RunAgentMode.loopCondition in Cond.
    apply andb_true_iff in Cond; destruct Cond as [_ Lt].
    apply Nat.ltb_lt in Lt; lia.
  - destruct (RunAgentMode.maxIterations - iterations (fst st));
      cbn [RunAgentMode.whileLoop]; rewrite ?Cond; reflexivity.
  - pose proof Cond as Lt; unfold RunAgentMode.loopCondition in Lt.
    apply andb_true_iff in Lt; destruct Lt as [_ Lt].
    apply Nat.ltb_lt in Lt.
    destruct (RunAgentMode.maxIterations - iterations (fst st))
      as [|k] eqn:K; [lia|].
    cbn [RunAgentMode.whileLoop]; rewrite Cond.
    unfold RunAgentMode.bind.
    destruct (worker_cycle_shape st)
      as (pushed & done & calls & published & E & _).
    rewrite E, IH by (cbn [fst cycleEnd iterations]; lia).
    replace (RunAgentMode.maxIterations
             - iterations
                 (fst (cycleEnd (fst st) pushed [] sessionId done calls,
                       snd st ++ published)))
      with k by (cbn [fst cycleEnd iterations]; lia).
    reflexivity.
  - destruct (RunAgentMode.maxIterations - iterations (fst st));
      cbn [RunAgentMode.whileLoop]; rewrite ?Cond; reflexivity.
Qed.

Lemma runAgentModeWithin_enough (prompt userPrompt : jsstring)
    (st0 : RunAgentMode.State) (fuel : nat) :
  (RunAgentMode.maxIterations <= fuel)%nat ->
  RunAgentMode.runAgentModeWithin prompt create getCoordinates getWeather
    fuel userPrompt sessionId st0
  = Some (RunAgentMode.runAgentMode prompt create getCoordinates getWeather
            userPrompt sessionId st0).
Proof.
  intros Hle.
  unfold RunAgentMode.runAgentModeWithin, RunAgentMode.runAgentMode,
    RunAgentMode.bind, RunAgentMode.lift.
  cbn [startTurn].
  rewrite worker_loopWithin_enough
    by (cbn [fst iterations]; lia).
  reflexivity.
Qed.

(** The run as [runAgentMode] computes it. *)
Lemma runAgentMode_bounded
    (prompt userPrompt : jsstring) (st0 : RunAgentMode.State) :
  exists s' published calls tools,
    RunAgentMode.runAgentMode prompt create getCoordinates getWeather
      userPrompt sessionId st0
    = (Normal tt, (s', snd st0 ++ published))
    /\ modelCalls s' = modelCalls (fst st0) ++ calls
    /\ toolCalls s' = toolCalls (fst st0) ++ tools
    /\ (List.length tools <= List.length calls)%nat
    /\ (List.length calls <= RunAgentMode.maxIterations)%nat
    /\ (List.length published <= 2 * List.length calls)%nat
    /\ Forall (fun a => fst a = sessionId) published
    /\ (taskComplete s' = true
        \/ List.length calls = RunAgentMode.maxIterations).
Proof.
  unfold RunAgentMode.runAgentMode, RunAgentMode.bind, RunAgentMode.lift.
  cbn [startTurn].
  destruct (worker_loop_shape RunAgentMode.maxIterations
              (snd (startTurn prompt userPrompt (fst st0)), snd st0))
    as (s' & published & calls & tools & E & M & T & _ & I & Hf & Ht & Hp
        & _ & Sid & Stop).
  cbn [fst snd startTurn messages taskComplete iterations activities
       modelCalls toolCalls] in *.
  rewrite E; exists s', published, calls, tools.
  repeat split; auto.
  assert (C : RunAgentMode.loopCondition (s', snd st0 ++ published) = false)
    by (apply Stop; lia).
  unfold RunAgentMode.loopCondition in C; cbn [fst] in C.
  apply andb_false_iff in C; destruct C as [C|C].
  - left; destruct (taskComplete s'); [reflexivity | discriminate].
  - right; apply Nat.ltb_ge in C; lia.
Qed.

(** X18. [runAgentMode] always returns, and it is the guard of its loop
    that ends it, however many passes the loop is allowed from
    [maxIterations] on: whatever the model and the tools do, nothing is
    thrown to the caller, the model is called at most [maxIterations]
    times, a tool at most once for each call of the model, at most two
    activities are published for each call, all of them in the session of
    the run, and the run ends with the task complete or with
    [maxIterations] calls made. *)
Theorem runAgentMode_returns_within_bound
    (prompt userPrompt : jsstring) (st0 : RunAgentMode.State)
    (fuel : nat) :
  (RunAgentMode.maxIterations <= fuel)%nat ->
  exists s' published calls tools,
    RunAgentMode.runAgentModeWithin prompt create getCoordinates getWeather
      fuel userPrompt sessionId st0
    = Some (Normal tt, (s', snd st0 ++ published))
    /\ modelCalls s' = modelCalls (fst st0) ++ calls
    /\ toolCalls s' = toolCalls (fst st0) ++ tools
    /\ (List.length tools <= List.length calls)%nat
    /\ (List.length calls <= RunAgentMode.maxIterations)%nat
    /\ (List.length published <= 2 * List.length calls)%nat
    /\ Forall (fun a => fst a = sessionId) published
    /\ (taskComplete s' = true
        \/ List.length calls = RunAgentMode.maxIterations).
Proof.
  intros Hle.
  rewrite (runAgentModeWithin_enough prompt userPrompt st0 fuel Hle).
  destruct (runAgentMode_bounded prompt userPrompt st0)
    as (s' & published & calls & tools & E & Rest).
  rewrite E; exists s', published, calls, tools.
  split; [reflexivity | exact Rest].
Qed.

(** X19. When the model only ever thinks, [runAgentMode] stops after
    [maxIterations] calls, however many passes its loop is allowed from
    there on, and without saying so: the activities of the run are
    [maxIterations] Thoughts and nothing else, no tool is called, and the
    task is left incomplete. *)
Theorem exhausted_run_ends_silently
    (prompt userPrompt : jsstring) (st0 : RunAgentMode.State)
    (fuel : nat) :
  (RunAgentMode.maxIterations <= fuel)%nat ->
  alwaysThinking create ->
  exists s' thoughts,
    RunAgentMode.runAgentModeWithin prompt create getCoordinates getWeather
      fuel userPrompt sessionId st0
    = Some (Normal tt, (s', snd st0 ++ thoughts))
    /\ taskComplete s' = false
    /\ List.length (modelCalls s')
       = List.length (modelCalls (fst st0)) + RunAgentMode.maxIterations
    /\ toolCalls s' = toolCalls (fst st0)
    /\ List.length thoughts = RunAgentMode.maxIterations
    /\ Forall (fun a => exists body,
                   a = (sessionId, RunAgentMode.ThoughtBody body))
         thoughts.
Proof.
  intros Hle Think.
  rewrite (runAgentModeWithin_enough prompt userPrompt st0 fuel Hle).
  unfold RunAgentMode.runAgentMode, RunAgentMode.bind, RunAgentMode.lift.
  cbn [startTurn].
  destruct (worker_thinking_loop RunAgentMode.maxIterations Think
              (snd (startTurn prompt userPrompt (fst st0)), snd st0))
    as (s' & thoughts & E & I1 & I2 & I3 & I4 & I5);
    [reflexivity | cbn [fst snd startTurn iterations]; lia | reflexivity |].
  cbn [fst snd startTurn messages taskComplete iterations activities
       modelCalls toolCalls] in *.
  rewrite E; exists s', thoughts; repeat split; auto.
Qed.

End RunAgentModeProperties.

(** ** The properties of [runAgentMode] at work *)

(** A model that returns no content: "No response" is the Thought. *)
Lemma unlabelled_reply_is_published_as_thought_witness :
  RunAgentMode.loopBody MoreExamples.silentModel Examples.getCoordinates
    Examples.getWeather Examples.sessionId WorkerExamples.runStart
  = (Normal tt,
     (cycleEnd Examples.turnStart
        [ {| role := assistant; content := js "No response" |} ] []
        Examples.sessionId false [],
      [(Examples.sessionId, RunAgentMode.ThoughtBody (js "No response"))])).
Proof.
  apply (unlabelled_reply_is_published_as_thought MoreExamples.silentModel
           Examples.getCoordinates Examples.getWeather Examples.sessionId
           WorkerExamples.runStart (js "No response") eq_refl).
  intros type keyword H; simpl in H.
  repeat (destruct H as [H|H]; [inversion H; reflexivity|]).
  contradiction.
Defined.

(** "ACTION: getWeather" has no argument list. *)
Lemma action_without_call_is_dropped_witness :
  let cycle :=
    RunAgentMode.loopBody WorkerExamples.malformedModel
      Examples.getCoordinates Examples.getWeather Examples.sessionId
      WorkerExamples.runStart in
  snd (snd cycle) = []
  /\ messages (fst (snd cycle)) = messages Examples.turnStart
  /\ toolCalls (fst (snd cycle)) = [].
Proof.
  cbv zeta.
  destruct (action_without_call_is_dropped WorkerExamples.malformedModel
              Examples.getCoordinates Examples.getWeather Examples.sessionId
              WorkerExamples.runStart (js "ACTION: getWeather")
              eq_refl eq_refl eq_refl) as [E M].
  rewrite E; repeat split.
Defined.

(** getForecast is no tool, and is reported as executed. *)
Lemma unexecuted_tool_reports_success_witness :
  let cycle :=
    RunAgentMode.loopBody WorkerExamples.unknownToolModel
      Examples.getCoordinates Examples.getWeather Examples.sessionId
      WorkerExamples.runStart in
  snd (snd cycle)
  = [ (Examples.sessionId,
       RunAgentMode.ActionBody (js "getForecast") (js "Executing")
         (js "Paris"));
      (Examples.sessionId,
       RunAgentMode.ActionBody (js "getForecast") (js "Executed")
         (js "Paris")) ]
  /\ messages (fst (snd cycle))
     = messages Examples.turnStart
       ++ [ {| role := assistant;
               content := js "ACTION: getForecast(Paris)" |};
            {| role := user;
               content := js "Tool result: Tool executed successfully" |} ]
  /\ toolCalls (fst (snd cycle)) = [].
Proof.
  cbv zeta.
  rewrite (unexecuted_tool_reports_success WorkerExamples.unknownToolModel
             Examples.getCoordinates Examples.getWeather Examples.sessionId
             WorkerExamples.runStart (js "ACTION: getForecast(Paris)")
             (js "getForecast") (js "Paris")
             eq_refl eq_refl eq_refl eq_refl (or_introl eq_refl)).
  repeat split.
Defined.

(** The model that only thinks, run by [runAgentMode] with twenty-five
    passes allowed. *)
Lemma exhausted_run_ends_silently_witness :
  alwaysThinking Examples.thinkingModel
  /\ exists s' thoughts,
       RunAgentMode.runAgentModeWithin Examples.prompt
         Examples.thinkingModel Examples.getCoordinates Examples.getWeather
         25 Examples.userPrompt Examples.sessionId (freshSession, [])
       = Some (Normal tt, (s', thoughts))
       /\ List.length thoughts = 10%nat
       /\ taskComplete s' = false.
Proof.
  assert (H : alwaysThinking Examples.thinkingModel)
    by (intros n t; eexists; split; reflexivity).
  split; [exact H|].
  destruct (exhausted_run_ends_silently Examples.thinkingModel
              Examples.getCoordinates Examples.getWeather Examples.sessionId
              Examples.prompt Examples.userPrompt (freshSession, []) 25
              ltac:(unfold RunAgentMode.maxIterations; lia) H)
    as (s' & thoughts & E & T & _ & _ & L & _).
  exists s', thoughts; repeat split; assumption.
Defined.

(** The conversation about Paris, run by [runAgentMode] with a dozen
    passes allowed. *)
Lemma runAgentMode_returns_within_bound_witness :
  exists s' published calls,
    RunAgentMode.runAgentModeWithin Examples.prompt Examples.parisModel
      Examples.getCoordinates Examples.getWeather 12 Examples.userPrompt
      Examples.sessionId (freshSession, [])
    = Some (Normal tt, (s', published))
    /\ modelCalls s' = calls
    /\ (List.length calls <= 10)%nat
    /\ (List.length published <= 2 * List.length calls)%nat.
Proof.
  destruct (runAgentMode_returns_within_bound Examples.parisModel
              Examples.getCoordinates Examples.getWeather Examples.sessionId
              Examples.prompt Examples.userPrompt (freshSession, []) 12
              ltac:(unfold RunAgentMode.maxIterations; lia))
    as (s' & published & calls & tools & E & M & _ & _ & Lc & Lp & _).
  exists s', published, calls; repeat split; assumption.
Defined.

(** * Properties of the routes of [index.ts] *)

Section IndexProperties.

Variable prompt : jsstring.
Variable create : nat -> list Message -> ApiOutcome.
Variable getCoordinates : nat -> jsstring -> Completion jsstring.
Variable getWeather : nat -> Number -> Number -> Completion jsstring.
Variable parseData :
  jsstring -> jsstring -> jsstring -> Completion Index.Payload.
Variable handleOAuthAuthorize : Index.Request -> Index.Env -> Index.Response.
Variable handleOAuthCallback :
  Index.Request -> Index.Env -> Completion Index.Response.

Local Abbreviation fetch' :=
  (Index.fetch prompt create getCoordinates getWeather parseData
     handleOAuthAuthorize handleOAuthCallback).
Local Abbreviation runAgentMode' :=
  (RunAgentMode.runAgentMode prompt create getCoordinates getWeather).

Lemma worker_loop_unfold (fuel : nat) (sessionId : jsstring)
    (st : RunAgentMode.State) :
  RunAgentMode.loopCondition st = true ->
  RunAgentMode.whileLoop create getCoordinates getWeather (S fuel)
    sessionId st
  = RunAgentMode.bind
      (RunAgentMode.loopBody create getCoordinates getWeather sessionId)
      (fun _ =>
         RunAgentMode.whileLoop create getCoordinates getWeather fuel
           sessionId) st.
Proof. intros C; cbn [RunAgentMode.whileLoop]; rewrite C; reflexivity. Qed.

(** A run of [runAgentMode] returns, and its first call of the model gets
    the prompt and the text of the user. *)
Lemma runAgentMode_shape (userPrompt sessionId : jsstring)
    (st0 : RunAgentMode.State) :
  exists s' published calls,
    runAgentMode' userPrompt sessionId st0
    = (Normal tt, (s', snd st0 ++ published))
    /\ modelCalls s'
       = modelCalls (fst st0) ++ openingTranscript prompt userPrompt :: calls
    /\ (List.length calls < RunAgentMode.maxIterations)%nat
    /\ Forall (fun a => fst a = sessionId) published.
Proof.
  unfold RunAgentMode.runAgentMode, RunAgentMode.bind, RunAgentMode.lift.
  cbn [startTurn].
  change RunAgentMode.maxIterations with 10%nat.
  rewrite (worker_loop_unfold 9) by reflexivity.
  unfold RunAgentMode.bind.
  destruct (worker_cycle_shape create getCoordinates getWeather sessionId
              (snd (startTurn prompt userPrompt (fst st0)), snd st0))
    as (pushed & done & tools & published & E & _ & _ & _ & Sid).
  cbn [fst snd startTurn] in E; rewrite E.
  destruct (worker_loop_shape create getCoordinates getWeather sessionId 9
              (cycleEnd (snd (startTurn prompt userPrompt (fst st0)))
                 pushed [] sessionId done tools, snd st0 ++ published))
    as (s' & published' & calls' & tools' & E' & M' & _ & _ & _ & Hf' & _
        & _ & _ & Sid' & _).
  cbn [fst snd startTurn] in E'; rewrite E'.
  exists s', (published ++ published'), calls'.
  cbn [fst snd cycleEnd startTurn modelCalls messages] in M'.
  repeat split.
  - rewrite app_assoc; reflexivity.
  - rewrite M', <- app_assoc; reflexivity.
  - lia.
  - apply Forall_app; split; assumption.
Qed.


(** X21. When the SDK rejects the payload of a POST to /webhook, [fetch]
    fails with the exception of the SDK: no response is made, the model is
    not called and nothing is published. *)
Theorem rejected_payload_fails_the_request
    (request : Index.Request) (env : Index.Env)
    (tokens : jsstring -> option jsstring) (e : Thrown)
    (st : RunAgentMode.State) :
  Index.pathname request = js "/webhook" ->
  Index.method request = js "POST" ->
  Index.WEATHER_BOT_TOKENS env = Some tokens ->
  isFalsy (tokens Index.OAUTH_TOKEN_KEY) = false ->
  parseData (Index.LINEAR_WEBHOOK_SECRET env) (Index.text request)
    (Index.orString (Index.linearSignature request) [])
  = Throw e ->
  fetch' request env st = (Throw e, st).
Proof.
  intros Path Method Tokens Token Parse.
  unfold Index.fetch, Index.handleWebhook, RunAgentMode.bind,
    Index.liftCompletion.
  rewrite Path, Method, Tokens, Token, Parse.
  replace (string_eqb (js "/webhook") (js "/")) with false by reflexivity.
  replace (string_eqb (js "/webhook") (js "/oauth/authorize")) with false
    by reflexivity.
  replace (string_eqb (js "/webhook") (js "/oauth/callback")) with false
    by reflexivity.
  rewrite !(proj2 (string_eqb_eq _ _) eq_refl).
  reflexivity.
Qed.

(** X22. [fetch] touches the session only for a POST to /webhook with a
    stored token and a payload that the SDK accepts as an
    AgentSessionEvent: a request that calls the model or publishes an
    activity is of that kind. *)
Theorem only_session_events_reach_the_model
    (request : Index.Request) (env : Index.Env)
    (st : RunAgentMode.State) :
  snd (fetch' request env st) <> st ->
  Index.pathname request = js "/webhook"
  /\ Index.method request = js "POST"
  /\ exists tokens payload,
       Index.WEATHER_BOT_TOKENS env = Some tokens
       /\ isFalsy (tokens Index.OAUTH_TOKEN_KEY) = false
       /\ parseData (Index.LINEAR_WEBHOOK_SECRET env) (Index.text request)
            (Index.orString (Index.linearSignature request) [])
          = Normal payload
       /\ Index.type payload = js "AgentSessionEvent".
Proof.
  unfold Index.fetch, Index.handleWebhook, RunAgentMode.bind,
    Index.liftCompletion, RunAgentMode.ret.
  destruct (string_eqb (Index.pathname request) (js "/"));
    [intros C; contradiction C; reflexivity|].
  destruct (string_eqb (Index.pathname request) (js "/oauth/authorize"));
    [intros C; contradiction C; reflexivity|].
  destruct (string_eqb (Index.pathname request) (js "/oauth/callback"));
    [intros C; contradiction C; reflexivity|].
  destruct (string_eqb (Index.pathname request) (js "/webhook")) eqn:Path;
    [|intros C; contradiction C; reflexivity].
  destruct (string_eqb (Index.method request) (js "POST")) eqn:Method;
    [|intros C; contradiction C; reflexivity].
  cbn [andb].
  apply string_eqb_eq in Path, Method.
  destruct (Index.WEATHER_BOT_TOKENS env) as [tokens|];
    [|intros C; contradiction C; reflexivity].
  destruct (isFalsy (tokens Index.OAUTH_TOKEN_KEY)) eqn:Token;
    [intros C; contradiction C; reflexivity|].
  destruct (parseData _ _ _) as [payload|e] eqn:Parse;
    [|intros C; contradiction C; reflexivity].
  destruct (string_eqb (Index.type payload) (js "AgentSessionEvent"))
    eqn:Kind; [|intros C; contradiction C; reflexivity].
  apply string_eqb_eq in Kind.
  intros _; repeat split; auto.
  exists tokens, payload; repeat split; auto.
Qed.

End IndexProperties.

(** ** The properties of the routes at work *)


(** A webhook without a signature. *)
Lemma rejected_payload_fails_the_request_witness :
  Index.fetch Examples.prompt Examples.parisModel Examples.getCoordinates
    Examples.getWeather IndexExamples.parseData
    IndexExamples.handleOAuthAuthorize IndexExamples.handleOAuthCallback
    IndexExamples.forgedWebhook IndexExamples.env (freshSession, [])
  = (Throw (ErrorObject (js "Invalid webhook signature")),
     (freshSession, [])).
Proof.
  exact (rejected_payload_fails_the_request Examples.prompt
           Examples.parisModel Examples.getCoordinates Examples.getWeather
           IndexExamples.parseData IndexExamples.handleOAuthAuthorize
           IndexExamples.handleOAuthCallback IndexExamples.forgedWebhook
           IndexExamples.env
           (fun key => if string_eqb key (js "linear_oauth_token")
                       then Some (js "lin_oauth_token") else None)
           (ErrorObject (js "Invalid webhook signature"))
           (freshSession, []) eq_refl eq_refl eq_refl eq_refl eq_refl).
Defined.

(** The signed webhook changes the session, and is a POST to /webhook. *)
Lemma only_session_events_reach_the_model_witness :
  snd (Index.fetch Examples.prompt Examples.parisModel
         Examples.getCoordinates Examples.getWeather IndexExamples.parseData
         IndexExamples.handleOAuthAuthorize IndexExamples.handleOAuthCallback
         IndexExamples.signedWebhook IndexExamples.env (freshSession, []))
  <> (freshSession, [])
  /\ Index.pathname IndexExamples.signedWebhook = js "/webhook"
  /\ Index.method IndexExamples.signedWebhook = js "POST".
Proof.
  assert (Changed :
    snd (Index.fetch Examples.prompt Examples.parisModel
           Examples.getCoordinates Examples.getWeather
           IndexExamples.parseData IndexExamples.handleOAuthAuthorize
           IndexExamples.handleOAuthCallback IndexExamples.signedWebhook
           IndexExamples.env (freshSession, []))
    <> (freshSession, [])).
  { intros C.
    apply (f_equal (fun st => List.length (modelCalls (fst st)))) in C.
    vm_compute in C; discriminate. }
  split; [exact Changed|].
  destruct (only_session_events_reach_the_model Examples.prompt
              Examples.parisModel Examples.getCoordinates Examples.getWeather
              IndexExamples.parseData IndexExamples.handleOAuthAuthorize
              IndexExamples.handleOAuthCallback IndexExamples.signedWebhook
              IndexExamples.env (freshSession, []) Changed)
    as (Path & Method & _).
  split; assumption.
Defined.

(** * Properties of the stored token *)

Section OAuthProperties.

Variable now : nat -> Z.
Variable kvFails : nat -> option Thrown.
Variable tokenEndpoint : nat -> jsstring -> Completion OAuth.HttpResponse.
Variable typeError : Thrown.

Local Abbreviation getOAuthToken' :=
  (OAuth.getOAuthToken now kvFails tokenEndpoint typeError).
Local Abbreviation setOAuthTokenData' :=
  (OAuth.setOAuthTokenData kvFails typeError).

Local Open Scope Z_scope.

Lemma string_eqb_refl (a : jsstring) : string_eqb a a = true.
Proof. apply string_eqb_eq; reflexivity. Qed.

Lemma string_eqb_neq (a b : jsstring) : a <> b -> string_eqb a b = false.
Proof.
  intros N; destruct (string_eqb a b) eqn:E; [|reflexivity].
  apply string_eqb_eq in E; contradiction.
Qed.

Lemma getWorkspaceTokenKey_injective (a b : jsstring) :
  OAuth.getWorkspaceTokenKey a = OAuth.getWorkspaceTokenKey b -> a = b.
Proof. unfold OAuth.getWorkspaceTokenKey; apply app_inv_head. Qed.

(** What [setOAuthTokenData] leaves when the namespace takes the value. *)
Lemma setOAuthTokenData_run (env : OAuth.Env)
    (tokenData : OAuth.StoredTokenData) (workspaceId : jsstring)
    (w : OAuth.World) :
  OAuth.WEATHER_BOT_TOKENS env = true ->
  kvFails (OAuth.kvOps w) = None ->
  setOAuthTokenData' env tokenData workspaceId w
  = (Normal tt,
     {| OAuth.store :=
          fun k =>
            if string_eqb k (OAuth.getWorkspaceTokenKey workspaceId)
            then Some (OAuth.Json tokenData) else OAuth.store w k;
        OAuth.kvOps := S (OAuth.kvOps w);
        OAuth.clockReads := OAuth.clockReads w;
        OAuth.requests := OAuth.requests w |}).
Proof.
  intros Bound Works; unfold OAuth.setOAuthTokenData, OAuth.kvPut.
  rewrite Bound, Works; reflexivity.
Qed.

(** A stored token that is not within five minutes of its expiry is
    served as it is. *)
Lemma fresh_token_is_served (env : OAuth.Env) (workspaceId : jsstring)
    (tokenData : OAuth.StoredTokenData) (w : OAuth.World) :
  OAuth.WEATHER_BOT_TOKENS env = true ->
  kvFails (OAuth.kvOps w) = None ->
  OAuth.store w (OAuth.getWorkspaceTokenKey workspaceId)
  = Some (OAuth.Json tokenData) ->
  now (OAuth.clockReads w) < OAuth.expires_at tokenData - OAuth.bufferTime ->
  getOAuthToken' env workspaceId w
  = (Normal (Some (OAuth.stored_access_token tokenData)),
     {| OAuth.store := OAuth.store w;
        OAuth.kvOps := S (OAuth.kvOps w);
        OAuth.clockReads := S (OAuth.clockReads w);
        OAuth.requests := OAuth.requests w |}).
Proof.
  intros Bound Works Held Fresh.
  unfold OAuth.getOAuthToken, OAuth.tryCatch, OAuth.bind, OAuth.kvGet,
    OAuth.dateNow, OAuth.ret.
  rewrite Bound; cbn [negb]; cbv beta.
  rewrite Works, Held; cbn [OAuth.store OAuth.clockReads].
  replace (now (OAuth.clockReads w)
           >=? OAuth.expires_at tokenData - OAuth.bufferTime)
    with false by (symmetry; rewrite Z.geb_leb; apply Z.leb_gt; exact Fresh).
  reflexivity.
Qed.

(** The refresh of a stored token that is within five minutes of its
    expiry, when Linear grants it and the namespace takes it. *)
Lemma expired_token_refresh (env : OAuth.Env) (workspaceId : jsstring)
    (tokenData : OAuth.StoredTokenData) (refreshToken : jsstring)
    (response : OAuth.HttpResponse) (granted : OAuth.OAuthTokenResponse)
    (w : OAuth.World) :
  OAuth.WEATHER_BOT_TOKENS env = true ->
  kvFails (OAuth.kvOps w) = None ->
  kvFails (S (OAuth.kvOps w)) = None ->
  OAuth.store w (OAuth.getWorkspaceTokenKey workspaceId)
  = Some (OAuth.Json tokenData) ->
  OAuth.expires_at tokenData - OAuth.bufferTime <= now (OAuth.clockReads w) ->
  OAuth.stored_refresh_token tokenData = Some refreshToken ->
  refreshToken <> [] ->
  tokenEndpoint (List.length (OAuth.requests w)) refreshToken
  = Normal response ->
  OAuth.ok response = true ->
  OAuth.json response = Normal granted ->
  getOAuthToken' env workspaceId w
  = (Normal (Some (OAuth.access_token granted)),
     {| OAuth.store :=
          fun k =>
            if string_eqb k (OAuth.getWorkspaceTokenKey workspaceId)
            then Some (OAuth.Json
                         {| OAuth.stored_access_token :=
                              OAuth.access_token granted;
                            OAuth.stored_refresh_token :=
                              OAuth.refresh_token granted;
                            OAuth.expires_at :=
                              now (S (OAuth.clockReads w))
                              + OAuth.expires_in granted * 1000 |})
            else OAuth.store w k;
        OAuth.kvOps := S (S (OAuth.kvOps w));
        OAuth.clockReads := S (S (OAuth.clockReads w));
        OAuth.requests := OAuth.requests w ++ [refreshToken] |}).
Proof.
  intros Bound Works Works' Held Expired Refresh Nonempty Reply Ok Body.
  unfold OAuth.getOAuthToken, OAuth.tryCatch, OAuth.bind, OAuth.kvGet,
    OAuth.dateNow, OAuth.ret, OAuth.refreshAccessToken, OAuth.fetchToken,
    OAuth.liftCompletion, OAuth.setOAuthTokenData, OAuth.kvPut.
  rewrite Bound; cbn [negb]; cbv beta.
  rewrite Works, Held;
    cbn [OAuth.store OAuth.clockReads OAuth.kvOps OAuth.requests].
  replace (now (OAuth.clockReads w)
           >=? OAuth.expires_at tokenData - OAuth.bufferTime)
    with true by (symmetry; rewrite Z.geb_leb; apply Z.leb_le; exact Expired).
  rewrite Refresh; destruct refreshToken as [|c rest]; [congruence|].
  cbn [negb isFalsy stringOf]; unfold OAuth.bind; cbv beta.
  cbn [OAuth.store OAuth.clockReads OAuth.kvOps OAuth.requests].
  rewrite Reply, Ok, Body; cbn [negb]; cbv beta.
  cbn [OAuth.store OAuth.clockReads OAuth.kvOps OAuth.requests].
  rewrite Works'.
  reflexivity.
Qed.

Ltac run_oauth :=
  unfold OAuth.getOAuthToken, OAuth.tryCatch, OAuth.bind, OAuth.kvGet,
    OAuth.dateNow, OAuth.ret, OAuth.refreshAccessToken, OAuth.fetchToken,
    OAuth.liftCompletion, OAuth.setOAuthTokenData, OAuth.kvPut, OAuth.throw;
  unfold OAuth.bind, OAuth.throw; cbv beta;
  cbn [negb OAuth.store OAuth.clockReads OAuth.kvOps OAuth.requests].

Ltac oauth_step :=
  cbv beta;
  cbn [negb fst snd OAuth.store OAuth.clockReads OAuth.kvOps
       OAuth.requests].

(** X23. The tokens of the workspaces are kept apart: neither storing a
    token for one workspace nor getting its token, refresh included,
    changes what is stored for another workspace. *)
Theorem tokens_of_other_workspaces_are_kept
    (env : OAuth.Env) (tokenData : OAuth.StoredTokenData)
    (workspaceId other : jsstring) (w : OAuth.World) :
  workspaceId <> other ->
  OAuth.store (snd (setOAuthTokenData' env tokenData workspaceId w))
    (OAuth.getWorkspaceTokenKey other)
  = OAuth.store w (OAuth.getWorkspaceTokenKey other)
  /\ OAuth.store (snd (getOAuthToken' env workspaceId w))
       (OAuth.getWorkspaceTokenKey other)
     = OAuth.store w (OAuth.getWorkspaceTokenKey other).
Proof.
  intros Other.
  assert (K : string_eqb (OAuth.getWorkspaceTokenKey other)
                (OAuth.getWorkspaceTokenKey workspaceId) = false).
  { apply string_eqb_neq; intros E.
    apply getWorkspaceTokenKey_injective in E; congruence. }
  split.
  - unfold OAuth.setOAuthTokenData, OAuth.kvPut, OAuth.throw.
    destruct (OAuth.WEATHER_BOT_TOKENS env); [|reflexivity].
    destruct (kvFails (OAuth.kvOps w)); [reflexivity|].
    cbn [snd OAuth.store]; rewrite K; reflexivity.
  - run_oauth.
    destruct (OAuth.WEATHER_BOT_TOKENS env); [|reflexivity]; oauth_step.
    destruct (kvFails (OAuth.kvOps w)); [reflexivity|]; oauth_step.
    destruct (OAuth.store w (OAuth.getWorkspaceTokenKey workspaceId))
      as [[tokenData'|legacy]|]; try reflexivity; oauth_step.
    destruct (now (OAuth.clockReads w)
              >=? OAuth.expires_at tokenData' - OAuth.bufferTime);
      [|reflexivity]; oauth_step.
    destruct (isFalsy (OAuth.stored_refresh_token tokenData'));
      [reflexivity|]; oauth_step.
    destruct (tokenEndpoint _ _) as [response|e]; [|reflexivity]; oauth_step.
    destruct (OAuth.ok response); oauth_step.
    + destruct (OAuth.json response) as [granted|e]; [|reflexivity].
      oauth_step.
      destruct (kvFails (S (OAuth.kvOps w))); [reflexivity|]; oauth_step.
      rewrite K; reflexivity.
    + destruct (OAuth.text response); reflexivity.
Qed.

(** X24. A token that [setOAuthTokenData] has stored is what
    [getOAuthToken] returns for that workspace, without a request to
    Linear, when the clock is more than five minutes before its expiry. *)
Theorem stored_token_is_served_before_expiry
    (env : OAuth.Env) (tokenData : OAuth.StoredTokenData)
    (workspaceId : jsstring) (w : OAuth.World) :
  OAuth.WEATHER_BOT_TOKENS env = true ->
  kvFails (OAuth.kvOps w) = None ->
  kvFails (S (OAuth.kvOps w)) = None ->
  now (OAuth.clockReads w) < OAuth.expires_at tokenData - OAuth.bufferTime ->
  let stored := snd (setOAuthTokenData' env tokenData workspaceId w) in
  fst (getOAuthToken' env workspaceId stored)
  = Normal (Some (OAuth.stored_access_token tokenData))
  /\ OAuth.requests (snd (getOAuthToken' env workspaceId stored))
     = OAuth.requests w
  /\ OAuth.store (snd (getOAuthToken' env workspaceId stored))
     = OAuth.store stored.
Proof.
  intros Bound Works Works' Fresh; cbv zeta.
  rewrite (setOAuthTokenData_run env tokenData workspaceId w Bound Works).
  cbn [snd].
  rewrite (fresh_token_is_served env workspaceId tokenData).
  - repeat split.
  - exact Bound.
  - exact Works'.
  - cbn [OAuth.store]; rewrite string_eqb_refl; reflexivity.
  - exact Fresh.
Qed.

(** X25. When the stored token is within five minutes of its expiry and
    Linear grants the refresh, [getOAuthToken] returns the new access
    token after one request, and stores it with the expiry counted from
    the clock after the request: a later call, more than five minutes
    before that expiry, returns the new token without a request. *)
Theorem expired_token_is_refreshed_and_stored
    (env : OAuth.Env) (workspaceId : jsstring)
    (tokenData : OAuth.StoredTokenData) (refreshToken : jsstring)
    (response : OAuth.HttpResponse) (granted : OAuth.OAuthTokenResponse)
    (w : OAuth.World) :
  OAuth.WEATHER_BOT_TOKENS env = true ->
  kvFails (OAuth.kvOps w) = None ->
  kvFails (S (OAuth.kvOps w)) = None ->
  OAuth.store w (OAuth.getWorkspaceTokenKey workspaceId)
  = Some (OAuth.Json tokenData) ->
  OAuth.expires_at tokenData - OAuth.bufferTime <= now (OAuth.clockReads w) ->
  OAuth.stored_refresh_token tokenData = Some refreshToken ->
  refreshToken <> [] ->
  tokenEndpoint (List.length (OAuth.requests w)) refreshToken
  = Normal response ->
  OAuth.ok response = true ->
  OAuth.json response = Normal granted ->
  let first := getOAuthToken' env workspaceId w in
  fst first = Normal (Some (OAuth.access_token granted))
  /\ OAuth.requests (snd first) = OAuth.requests w ++ [refreshToken]
  /\ (kvFails (S (S (OAuth.kvOps w))) = None ->
      now (S (S (OAuth.clockReads w)))
      < now (S (OAuth.clockReads w)) + OAuth.expires_in granted * 1000
        - OAuth.bufferTime ->
      fst (getOAuthToken' env workspaceId (snd first))
      = Normal (Some (OAuth.access_token granted))
      /\ OAuth.requests (snd (getOAuthToken' env workspaceId (snd first)))
         = OAuth.requests w ++ [refreshToken]).
Proof.
  intros Bound Works Works' Held Expired Refresh Nonempty Reply Ok Body.
  cbv zeta.
  rewrite (expired_token_refresh env workspaceId tokenData refreshToken
             response granted w Bound Works Works' Held Expired Refresh
             Nonempty Reply Ok Body).
  cbn [fst snd OAuth.requests].
  split; [reflexivity|]; split; [reflexivity|].
  intros Works'' Fresh.
  rewrite (fresh_token_is_served env workspaceId
             {| OAuth.stored_access_token := OAuth.access_token granted;
                OAuth.stored_refresh_token := OAuth.refresh_token granted;
                OAuth.expires_at :=
                  now (S (OAuth.clockReads w))
                  + OAuth.expires_in granted * 1000 |}).
  - split; reflexivity.
  - exact Bound.
  - exact Works''.
  - cbn [OAuth.store]; rewrite string_eqb_refl; reflexivity.
  - exact Fresh.
Qed.

(** X26. When the refresh of an expired token fails (the request throws,
    Linear answers with an error status, or the answer cannot be read),
    [getOAuthToken] returns null after the one request and leaves the
    namespace as it was, so that the next call tries again. *)
Theorem failed_refresh_returns_null_and_keeps_store
    (env : OAuth.Env) (workspaceId : jsstring)
    (tokenData : OAuth.StoredTokenData) (refreshToken : jsstring)
    (w : OAuth.World) :
  OAuth.WEATHER_BOT_TOKENS env = true ->
  kvFails (OAuth.kvOps w) = None ->
  OAuth.store w (OAuth.getWorkspaceTokenKey workspaceId)
  = Some (OAuth.Json tokenData) ->
  OAuth.expires_at tokenData - OAuth.bufferTime <= now (OAuth.clockReads w) ->
  OAuth.stored_refresh_token tokenData = Some refreshToken ->
  refreshToken <> [] ->
  (forall response,
      tokenEndpoint (List.length (OAuth.requests w)) refreshToken
      = Normal response ->
      OAuth.ok response = false
      \/ exists e, OAuth.json response = Throw e) ->
  fst (getOAuthToken' env workspaceId w) = Normal None
  /\ OAuth.store (snd (getOAuthToken' env workspaceId w)) = OAuth.store w
  /\ OAuth.requests (snd (getOAuthToken' env workspaceId w))
     = OAuth.requests w ++ [refreshToken].
Proof.
  intros Bound Works Held Expired Refresh Nonempty Fails.
  run_oauth.
  rewrite Bound; cbn [negb]; cbv beta.
  rewrite Works, Held;
    cbn [OAuth.store OAuth.clockReads OAuth.kvOps OAuth.requests].
  replace (now (OAuth.clockReads w)
           >=? OAuth.expires_at tokenData - OAuth.bufferTime)
    with true by (symmetry; rewrite Z.geb_leb; apply Z.leb_le; exact Expired).
  rewrite Refresh; destruct refreshToken as [|c rest]; [congruence|].
  cbn [negb isFalsy stringOf].
  destruct (tokenEndpoint _ _) as [response|e]; [|repeat split].
  destruct (Fails response eq_refl) as [NotOk|[e Unread]].
  - rewrite NotOk; cbn [negb].
    destruct (OAuth.text response); repeat split.
  - rewrite Unread; destruct (OAuth.ok response); cbn [negb].
    + repeat split.
    + destruct (OAuth.text response); repeat split.
Qed.

(** X27. A stored token within five minutes of its expiry is never
    served: a token that [getOAuthToken] returns then is the one that
    Linear has just granted for the stored refresh token. *)
Theorem token_near_expiry_is_never_served
    (env : OAuth.Env) (workspaceId : jsstring)
    (tokenData : OAuth.StoredTokenData) (token : jsstring)
    (w : OAuth.World) :
  OAuth.store w (OAuth.getWorkspaceTokenKey workspaceId)
  = Some (OAuth.Json tokenData) ->
  OAuth.expires_at tokenData - OAuth.bufferTime <= now (OAuth.clockReads w) ->
  fst (getOAuthToken' env workspaceId w) = Normal (Some token) ->
  exists refreshToken response granted,
    OAuth.stored_refresh_token tokenData = Some refreshToken
    /\ tokenEndpoint (List.length (OAuth.requests w)) refreshToken
       = Normal response
    /\ OAuth.json response = Normal granted
    /\ token = OAuth.access_token granted
    /\ OAuth.requests (snd (getOAuthToken' env workspaceId w))
       = OAuth.requests w ++ [refreshToken].
Proof.
  intros Held Expired.
  run_oauth.
  destruct (OAuth.WEATHER_BOT_TOKENS env); oauth_step; [|discriminate].
  destruct (kvFails (OAuth.kvOps w)); oauth_step; [discriminate|].
  rewrite Held; oauth_step.
  replace (now (OAuth.clockReads w)
           >=? OAuth.expires_at tokenData - OAuth.bufferTime)
    with true by (symmetry; rewrite Z.geb_leb; apply Z.leb_le; exact Expired).
  oauth_step.
  destruct (OAuth.stored_refresh_token tokenData) as [[|c rest]|];
    cbn [isFalsy stringOf]; oauth_step; try discriminate.
  destruct (tokenEndpoint _ _) as [response|e] eqn:Reply; oauth_step;
    [|discriminate].
  destruct (OAuth.ok response); oauth_step.
  2:{ destruct (OAuth.text response); oauth_step; discriminate. }
  destruct (OAuth.json response) as [granted|e] eqn:Body; oauth_step;
    [|discriminate].
  destruct (kvFails (S (OAuth.kvOps w))); oauth_step; [discriminate|].
  intros Token; inversion Token; subst token.
  exists (c :: rest), response, granted; repeat split; assumption.
Qed.

End OAuthProperties.

(** ** The properties of the stored token at work *)

Lemma tokens_of_other_workspaces_are_kept_witness :
  js "acme" <> js "globex"
  /\ OAuth.store
       (snd (OAuth.getOAuthToken OAuthExamples.now OAuthExamples.kvFails
               OAuthExamples.tokenEndpoint OAuthExamples.typeError
               OAuthExamples.env (js "acme") OAuthExamples.staleWorld))
       (OAuth.getWorkspaceTokenKey (js "globex"))
     = None.
Proof.
  assert (Other : js "acme" <> js "globex") by discriminate.
  split; [exact Other|].
  rewrite (proj2 (tokens_of_other_workspaces_are_kept OAuthExamples.now
                    OAuthExamples.kvFails OAuthExamples.tokenEndpoint
                    OAuthExamples.typeError OAuthExamples.env
                    OAuthExamples.freshToken (js "acme") (js "globex")
                    OAuthExamples.staleWorld Other)).
  reflexivity.
Defined.

Lemma stored_token_is_served_before_expiry_witness :
  fst (OAuth.getOAuthToken OAuthExamples.now OAuthExamples.kvFails
         OAuthExamples.tokenEndpoint OAuthExamples.typeError
         OAuthExamples.env (js "acme")
         (snd (OAuth.setOAuthTokenData OAuthExamples.kvFails
                 OAuthExamples.typeError OAuthExamples.env
                 OAuthExamples.freshToken (js "acme")
                 OAuthExamples.emptyWorld)))
  = Normal (Some (js "token")).
Proof.
  apply (stored_token_is_served_before_expiry OAuthExamples.now
           OAuthExamples.kvFails OAuthExamples.tokenEndpoint
           OAuthExamples.typeError OAuthExamples.env
           OAuthExamples.freshToken (js "acme") OAuthExamples.emptyWorld
           eq_refl eq_refl eq_refl eq_refl).
Defined.

(** The stale token of acme is replaced, and the new one is served by the
    next call. *)
Lemma expired_token_is_refreshed_and_stored_witness :
  let first :=
    OAuth.getOAuthToken OAuthExamples.now OAuthExamples.kvFails
      OAuthExamples.tokenEndpoint OAuthExamples.typeError
      OAuthExamples.env (js "acme") OAuthExamples.staleWorld in
  let second :=
    OAuth.getOAuthToken OAuthExamples.now OAuthExamples.kvFails
      OAuthExamples.tokenEndpoint OAuthExamples.typeError
      OAuthExamples.env (js "acme") (snd first) in
  fst first = Normal (Some (js "new-token"))
  /\ fst second = Normal (Some (js "new-token"))
  /\ OAuth.requests (snd second) = [js "refresh"].
Proof.
  cbv zeta.
  destruct (expired_token_is_refreshed_and_stored OAuthExamples.now
              OAuthExamples.kvFails OAuthExamples.tokenEndpoint
              OAuthExamples.typeError OAuthExamples.env (js "acme")
              OAuthExamples.staleToken (js "refresh")
              {| OAuth.ok := true; OAuth.text := Normal [];
                 OAuth.json := Normal OAuthExamples.granted |}
              OAuthExamples.granted OAuthExamples.staleWorld
              eq_refl eq_refl eq_refl eq_refl
              ltac:(vm_compute; discriminate) eq_refl
              ltac:(discriminate) eq_refl eq_refl eq_refl)
    as (First & _ & Second).
  split; [exact First|].
  exact (Second eq_refl eq_refl).
Defined.

(** Linear refuses: null, and the stale token stays. *)
Lemma failed_refresh_returns_null_and_keeps_store_witness :
  let call :=
    OAuth.getOAuthToken OAuthExamples.now OAuthExamples.kvFails
      OAuthExamples.refusingEndpoint OAuthExamples.typeError
      OAuthExamples.env (js "acme") OAuthExamples.staleWorld in
  fst call = Normal None
  /\ OAuth.store (snd call) (OAuth.getWorkspaceTokenKey (js "acme"))
     = Some (OAuth.Json OAuthExamples.staleToken)
  /\ OAuth.requests (snd call) = [js "refresh"].
Proof.
  cbv zeta.
  destruct (failed_refresh_returns_null_and_keeps_store OAuthExamples.now
              OAuthExamples.kvFails OAuthExamples.refusingEndpoint
              OAuthExamples.typeError OAuthExamples.env (js "acme")
              OAuthExamples.staleToken (js "refresh")
              OAuthExamples.staleWorld
              eq_refl eq_refl eq_refl
              ltac:(vm_compute; discriminate) eq_refl
              ltac:(discriminate)
              ltac:(intros response E; inversion E; left; reflexivity))
    as (Null & Store & Requests).
  split; [exact Null|]; split; [rewrite Store; reflexivity | exact Requests].
Defined.

Lemma token_near_expiry_is_never_served_witness :
  exists refreshToken response granted,
    OAuth.stored_refresh_token OAuthExamples.staleToken = Some refreshToken
    /\ OAuthExamples.tokenEndpoint 0 refreshToken = Normal response
    /\ OAuth.json response = Normal granted
    /\ js "new-token" = OAuth.access_token granted.
Proof.
  destruct (token_near_expiry_is_never_served OAuthExamples.now
              OAuthExamples.kvFails OAuthExamples.tokenEndpoint
              OAuthExamples.typeError OAuthExamples.env (js "acme")
              OAuthExamples.staleToken (js "new-token")
              OAuthExamples.staleWorld
              eq_refl ltac:(vm_compute; discriminate) eq_refl)
    as (refreshToken & response & granted & R & E & J & T & _).
  exists refreshToken, response, granted; repeat split; assumption.
Defined.

(** * Properties of the webhook of the client *)

Section ClientIndexProperties.

Variable prompt : jsstring.
Variable MAX_ITERATIONS : nat.
Variable create : nat -> list Message -> ApiOutcome.
Variable getCoordinates : nat -> jsstring -> Completion jsstring.
Variable getWeather : nat -> Number -> Number -> Completion jsstring.
Variable parseData :
  jsstring -> jsstring -> jsstring -> Completion ClientIndex.Payload.


End ClientIndexProperties.


(** * Properties of the routes of the later [index.ts] *)

Section AsyncIndexProperties.

Variable now : nat -> Z.
Variable kvFails : nat -> option Thrown.
Variable tokenEndpoint : nat -> jsstring -> Completion OAuth.HttpResponse.
Variable typeError : Thrown.
Variable parseData :
  jsstring -> jsstring -> jsstring -> Completion AsyncIndex.Payload.
Variable handleOAuthAuthorize :
  Index.Request -> AsyncIndex.Env -> Index.Response.
Variable handleOAuthCallback :
  Index.Request -> AsyncIndex.Env -> OAuth.OM Index.Response.

Local Abbreviation fetch' :=
  (AsyncIndex.fetch now kvFails tokenEndpoint typeError parseData
     handleOAuthAuthorize handleOAuthCallback).

Ltac run_fetch :=
  unfold AsyncIndex.fetch, AsyncIndex.tryCatch, AsyncIndex.bind,
    AsyncIndex.liftCompletion, AsyncIndex.lift, AsyncIndex.ret,
    AsyncIndex.waitUntil;
  unfold AsyncIndex.bind; cbv beta.

(** X29. The later [fetch] reads or writes the token store, asks Linear for
    a refresh or schedules a run only on the OAuth callback or for a POST
    to /webhook whose payload the SDK accepts as an AgentSessionEvent: a
    payload that it rejects is answered without a look at the store. *)
Theorem only_accepted_events_reach_the_token_store
    (request : Index.Request) (env : AsyncIndex.Env)
    (st : AsyncIndex.State) :
  Index.pathname request <> js "/oauth/callback" ->
  snd (fetch' request env st) <> st ->
  Index.pathname request = js "/webhook"
  /\ Index.method request = js "POST"
  /\ exists payload,
       parseData (stringOf (AsyncIndex.LINEAR_WEBHOOK_SECRET env))
         (Index.text request)
         (Index.orString (Index.linearSignature request) [])
       = Normal payload
       /\ AsyncIndex.type payload = js "AgentSessionEvent".
Proof.
  intros NotCallback.
  run_fetch.
  destruct (string_eqb (Index.pathname request) (js "/"));
    [intros C; contradiction C; reflexivity|].
  destruct (string_eqb (Index.pathname request) (js "/oauth/authorize"));
    [intros C; contradiction C; reflexivity|].
  destruct (string_eqb (Index.pathname request) (js "/oauth/callback"))
    eqn:Callback;
    [apply string_eqb_eq in Callback; contradiction|].
  destruct (string_eqb (Index.pathname request) (js "/webhook")) eqn:Path;
    [|intros C; contradiction C; reflexivity].
  destruct (string_eqb (Index.method request) (js "POST")) eqn:Method;
    [|intros C; contradiction C; reflexivity].
  cbn [andb].
  apply string_eqb_eq in Path, Method.
  destruct (isFalsy (AsyncIndex.LINEAR_WEBHOOK_SECRET env));
    [intros C; contradiction C; reflexivity|].
  destruct (isFalsy (AsyncIndex.OPENAI_API_KEY env));
    [intros C; contradiction C; reflexivity|].
  destruct (parseData _ _ _) as [payload|e] eqn:Parse;
    [|intros C; contradiction C; reflexivity].
  destruct (string_eqb (AsyncIndex.type payload) (js "AgentSessionEvent"))
    eqn:Kind; [|intros C; contradiction C; reflexivity].
  apply string_eqb_eq in Kind.
  intros _; repeat split; auto.
  exists payload; split; [reflexivity | exact Kind].
Qed.

(** X30. The later [fetch] never fails a POST to /webhook, whatever the
    SDK, the token store and Linear do: the answer has status 200 or 500.
    It schedules at most one run, and then the answer is "Webhook
    handled" and the run has the token that [getOAuthToken] returned for
    the organization of the payload, which is not empty. *)
Theorem webhook_route_always_answers
    (request : Index.Request) (env : AsyncIndex.Env)
    (st : AsyncIndex.State) :
  Index.pathname request = js "/webhook" ->
  Index.method request = js "POST" ->
  exists response st',
    fetch' request env st = (Normal response, st')
    /\ (Index.status response = 200%nat \/ Index.status response = 500%nat)
    /\ (snd st' = snd st
        \/ exists task,
             snd st' = snd st ++ [task]
             /\ response = Index.plain (js "Webhook handled") 200
             /\ AsyncIndex.linearAccessToken task <> []
             /\ fst (OAuth.getOAuthToken now kvFails tokenEndpoint typeError
                       {| OAuth.WEATHER_BOT_TOKENS :=
                            AsyncIndex.WEATHER_BOT_TOKENS env |}
                       (AsyncIndex.organizationId (AsyncIndex.webhook task))
                       (fst st))
                = Normal (Some (AsyncIndex.linearAccessToken task))).
Proof.
  intros Path Method.
  run_fetch.
  rewrite Path, Method.
  replace (string_eqb (js "/webhook") (js "/")) with false by reflexivity.
  replace (string_eqb (js "/webhook") (js "/oauth/authorize")) with false
    by reflexivity.
  replace (string_eqb (js "/webhook") (js "/oauth/callback")) with false
    by reflexivity.
  rewrite !string_eqb_refl; cbn [andb].
  destruct (isFalsy (AsyncIndex.LINEAR_WEBHOOK_SECRET env));
    [eexists; eexists; split; [reflexivity|]; split; [right|left];
     reflexivity|].
  destruct (isFalsy (AsyncIndex.OPENAI_API_KEY env));
    [eexists; eexists; split; [reflexivity|]; split; [right|left];
     reflexivity|].
  destruct (parseData _ _ _) as [payload|e];
    [|eexists; eexists; split; [reflexivity|]; split; [right|left];
      reflexivity].
  destruct (string_eqb (AsyncIndex.type payload) (js "AgentSessionEvent"));
    cbn [negb];
    [|eexists; eexists; split; [reflexivity|]; split; [left|left];
      reflexivity].
  destruct (OAuth.getOAuthToken now kvFails tokenEndpoint typeError
              {| OAuth.WEATHER_BOT_TOKENS :=
                   AsyncIndex.WEATHER_BOT_TOKENS env |}
              (AsyncIndex.organizationId payload) (fst st))
    as [[[[|c token]|]|e] w'] eqn:Token;
    try (eexists; eexists; split; [reflexivity|]; split; [right|left];
         reflexivity).
  cbn [isFalsy stringOf fst snd].
  eexists; eexists; split; [reflexivity|]; split; [left; reflexivity|].
  right; eexists; split; [reflexivity|].
  cbn [AsyncIndex.linearAccessToken AsyncIndex.webhook].
  split; [reflexivity|]; split; [discriminate|].
  rewrite Token; reflexivity.
Qed.

End AsyncIndexProperties.

(** ** The properties of the later routes at work *)

(** The signed webhook of acme refreshes the stale token and schedules a
    run. *)
Lemma only_accepted_events_reach_the_token_store_witness :
  snd (AsyncIndex.fetch OAuthExamples.now OAuthExamples.kvFails
         OAuthExamples.tokenEndpoint OAuthExamples.typeError
         AsyncIndexExamples.parseData AsyncIndexExamples.handleOAuthAuthorize
         AsyncIndexExamples.handleOAuthCallback IndexExamples.signedWebhook
         AsyncIndexExamples.env AsyncIndexExamples.start)
  <> AsyncIndexExamples.start
  /\ exists payload,
       AsyncIndexExamples.parseData (js "secret") (js "{}") (js "good")
       = Normal payload
       /\ AsyncIndex.type payload = js "AgentSessionEvent".
Proof.
  assert (Changed :
    snd (AsyncIndex.fetch OAuthExamples.now OAuthExamples.kvFails
           OAuthExamples.tokenEndpoint OAuthExamples.typeError
           AsyncIndexExamples.parseData
           AsyncIndexExamples.handleOAuthAuthorize
           AsyncIndexExamples.handleOAuthCallback IndexExamples.signedWebhook
           AsyncIndexExamples.env AsyncIndexExamples.start)
    <> AsyncIndexExamples.start).
  { intros C.
    apply (f_equal (fun st => List.length (snd st))) in C.
    vm_compute in C; discriminate. }
  split; [exact Changed|].
  destruct (only_accepted_events_reach_the_token_store OAuthExamples.now
              OAuthExamples.kvFails OAuthExamples.tokenEndpoint
              OAuthExamples.typeError AsyncIndexExamples.parseData
              AsyncIndexExamples.handleOAuthAuthorize
              AsyncIndexExamples.handleOAuthCallback
              IndexExamples.signedWebhook AsyncIndexExamples.env
              AsyncIndexExamples.start ltac:(discriminate) Changed)
    as (_ & _ & Accepted).
  exact Accepted.
Defined.

(** The forged webhook is answered, with 200 or 500. *)
Lemma webhook_route_always_answers_witness :
  exists response st',
    AsyncIndex.fetch OAuthExamples.now OAuthExamples.kvFails
      OAuthExamples.tokenEndpoint OAuthExamples.typeError
      AsyncIndexExamples.parseData AsyncIndexExamples.handleOAuthAuthorize
      AsyncIndexExamples.handleOAuthCallback IndexExamples.forgedWebhook
      AsyncIndexExamples.env AsyncIndexExamples.start
    = (Normal response, st')
    /\ (Index.status response = 200%nat \/ Index.status response = 500%nat).
Proof.
  destruct (webhook_route_always_answers OAuthExamples.now
              OAuthExamples.kvFails OAuthExamples.tokenEndpoint
              OAuthExamples.typeError AsyncIndexExamples.parseData
              AsyncIndexExamples.handleOAuthAuthorize
              AsyncIndexExamples.handleOAuthCallback
              IndexExamples.forgedWebhook AsyncIndexExamples.env
              AsyncIndexExamples.start eq_refl eq_refl)
    as (response & st' & E & S & _).
  exists response, st'; split; assumption.
Defined.

(** The signed webhook of acme, whose token is stale: the run gets the
    token that Linear has just granted. *)
Example stale_token_webhook :
  AsyncIndex.fetch OAuthExamples.now OAuthExamples.kvFails
    OAuthExamples.tokenEndpoint OAuthExamples.typeError
    AsyncIndexExamples.parseData AsyncIndexExamples.handleOAuthAuthorize
    AsyncIndexExamples.handleOAuthCallback IndexExamples.signedWebhook
    AsyncIndexExamples.env AsyncIndexExamples.start
  = (Normal (Index.plain (js "Webhook handled") 200),
     (snd (OAuth.getOAuthToken OAuthExamples.now OAuthExamples.kvFails
             OAuthExamples.tokenEndpoint OAuthExamples.typeError
             OAuthExamples.env (js "acme") OAuthExamples.staleWorld),
      [ {| AsyncIndex.webhook := AsyncIndexExamples.sessionEvent;
           AsyncIndex.linearAccessToken := js "new-token";
           AsyncIndex.openaiApiKey := js "sk-key" |} ])).
Proof. reflexivity. Qed.

(** * Properties of the tools *)

Section ToolsProperties.

Variable fetchPlaces :
  nat -> Tools.Request
  -> Completion (Tools.Response (option (list Tools.Place))).
Variable fetchForecast :
  nat -> Tools.Request
  -> Completion (Tools.Response (option Tools.Forecast)).
Variable fetchTime :
  nat -> Tools.Request
  -> Completion (Tools.Response (option Tools.TimeData)).
Variable encodeURIComponent : jsstring -> Completion jsstring.
Variable numberToString : Number -> jsstring.

Local Abbreviation getCoordinates' :=
  (Tools.getCoordinates fetchPlaces encodeURIComponent numberToString).
Local Abbreviation getWeather' :=
  (Tools.getWeather fetchForecast numberToString).
Local Abbreviation getTime' := (Tools.getTime fetchTime numberToString).

Ltac run_tool :=
  unfold Tools.getCoordinates, Tools.getWeather, Tools.getTime,
    Tools.tryCatch, Tools.bind, Tools.fetchWith, Tools.recordRequest,
    Tools.liftCompletion, Tools.ret, Tools.newAbortController,
    Tools.setTimeout, Tools.clearTimeout;
  unfold Tools.bind; cbv beta;
  cbn [Tools.requests Tools.timers Tools.timersSet Tools.controllers].

(** No tool throws. *)
Lemma getCoordinates_returns (city_name : jsstring) (w : Tools.World) :
  exists value w', getCoordinates' city_name w = (Normal value, w').
Proof.
  run_tool.
  destruct (encodeURIComponent city_name) as [encoded|e];
    [|eexists; eexists; reflexivity].
  destruct (fetchPlaces _ _) as [response|e];
    [|eexists; eexists; reflexivity].
  destruct (Tools.ok response); cbn [negb];
    [|eexists; eexists; reflexivity].
  destruct (Tools.json response) as [[[|result more]|]|e];
    eexists; eexists; reflexivity.
Qed.

Lemma getWeather_returns (params : Tools.Position) (w : Tools.World) :
  exists value w', getWeather' params w = (Normal value, w').
Proof.
  run_tool.
  destruct (fetchForecast _ _) as [response|e];
    [|eexists; eexists; reflexivity].
  destruct (Tools.json response) as [[[[current|]]|]|e];
    eexists; eexists; reflexivity.
Qed.

Lemma getTime_returns (params : Tools.Position) (w : Tools.World) :
  exists value w', getTime' params w = (Normal value, w').
Proof.
  run_tool.
  destruct (fetchTime _ _) as [response|e];
    [|eexists; eexists; reflexivity].
  destruct (Tools.ok response); cbn [negb];
    [|eexists; eexists; reflexivity].
  destruct (Tools.json response) as [[data|]|e];
    eexists; eexists; reflexivity.
Qed.


End ToolsProperties.

(** ** The properties of the tools at work *)



(** ** The loops and their allowance *)

(** Nine passes are not enough for the model that only thinks: the guard
    still holds when they are made. Ten are, and so are a hundred, with
    the same turn. *)
Example thinking_turn_needs_ten_passes :
  handleUserPromptWithin Examples.prompt Examples.MAX_ITERATIONS
    Examples.thinkingModel Examples.getCoordinates Examples.getWeather
    9 Examples.userPrompt Examples.sessionId freshSession
  = None
  /\ handleUserPromptWithin Examples.prompt Examples.MAX_ITERATIONS
       Examples.thinkingModel Examples.getCoordinates Examples.getWeather
       10 Examples.userPrompt Examples.sessionId freshSession
     = handleUserPromptWithin Examples.prompt Examples.MAX_ITERATIONS
         Examples.thinkingModel Examples.getCoordinates Examples.getWeather
         100 Examples.userPrompt Examples.sessionId freshSession
  /\ RunAgentMode.runAgentModeWithin Examples.prompt Examples.thinkingModel
       Examples.getCoordinates Examples.getWeather 9 Examples.userPrompt
       Examples.sessionId (freshSession, [])
     = None.
Proof. vm_compute; repeat split. Qed.
